(** * Rally sprint tracker: change detection and tracker state

    A shallow embedding of the polling core of the tracker
    (change extractor, tracker state store, remote client retry loop,
    notification engine and poll orchestrator) and of what surrounds it
    (paged listings, readers of the stored documents, polling pass, status
    line, escaping), followed by the properties of the design document that
    can be stated over it and by further properties of the code.

    Conventions of the embedding
    - a JavaScript string is a [string]; every character stands for one
      UTF-16 code unit (code units below 256);
    - a JavaScript number that holds an object id, a length or a time value
      is a [Z]; the 32-bit wrap-around of [| 0] is written out where the code
      relies on it.  Time values are not clipped to the range of [Date]
      (8.64e15 ms around the epoch), outside of which [toISOString] raises
      a RangeError;
    - [T | undefined] and [T | null] are [option T];
    - a rejected promise / thrown exception is the [Throw] case of [Result];
    - [Map] and [Set] objects whose iteration order is observed are
      association lists in insertion order; those only queried by key are
      [gmap] / [gset];
    - built-ins whose result depends on the host (Date.parse on arbitrary
      strings, numeric-literal parsing, locale collation) are fields of the
      class [JsRuntime]; every property below holds for every runtime. *)

From Stdlib Require Import ZArith List String Ascii Bool Lia DecimalString.
From Stdlib Require Import Permutation Sorted.
From stdpp Require Import gmap strings.

Open Scope Z_scope.
Set Warnings "-register-all".

(* ===================================================================== *)
(** * JavaScript built-ins used by the sources *)
(* ===================================================================== *)

Module Js.

(** ** Errors and promises *)

Inductive JsError :=
| RallyAuthError (message : string)     (* class RallyAuthError extends Error *)
| Error (message : string).             (* every other thrown value *)

Inductive Result (A : Type) :=
| Ok (value : A)
| Throw (error : JsError).
Arguments Ok {A} value.
Arguments Throw {A} error.

Definition bind {A B} (r : Result A) (k : A -> Result B) : Result B :=
  match r with
  | Ok a => k a
  | Throw e => Throw e
  end.

Definition isAuthError (e : JsError) : bool :=
  match e with RallyAuthError _ => true | Error _ => false end.

(** ** Strings *)

Definition charCode (c : ascii) : Z := Z.of_N (N_of_ascii c).

(** [s.charCodeAt(i)] for every index, left to right. *)
Fixpoint charCodes (s : string) : list Z :=
  match s with
  | EmptyString => []
  | String c rest => charCode c :: charCodes rest
  end.

(** [s.startsWith(p)] *)
Fixpoint startsWith (p s : string) : bool :=
  match p, s with
  | EmptyString, _ => true
  | String _ _, EmptyString => false
  | String a p', String b s' => Ascii.eqb a b && startsWith p' s'
  end.

(** [s.includes(c)] for a single character. *)
Fixpoint containsChar (c : ascii) (s : string) : bool :=
  match s with
  | EmptyString => false
  | String x rest => Ascii.eqb x c || containsChar c rest
  end.

(** [parts.join(sep)] *)
Fixpoint join (sep : string) (parts : list string) : string :=
  match parts with
  | [] => ""
  | [x] => x
  | x :: rest => x +:+ sep +:+ join sep rest
  end.

(** White space and line terminators (the set used by [trim] and by the
    regular-expression class \s), among the code units below 256. *)
Definition isWhiteSpace (c : ascii) : bool :=
  let n := charCode c in
  ((9 <=? n) && (n <=? 13)) || (n =? 32) || (n =? 160).

Fixpoint trimStart (s : string) : string :=
  match s with
  | EmptyString => EmptyString
  | String c rest => if isWhiteSpace c then trimStart rest else s
  end.

Fixpoint trimEnd (s : string) : string :=
  match s with
  | EmptyString => EmptyString
  | String c rest =>
      match trimEnd rest with
      | EmptyString => if isWhiteSpace c then EmptyString else String c EmptyString
      | rest' => String c rest'
      end
  end.

(** [s.trim()] *)
Definition trim (s : string) : string := trimEnd (trimStart s).

Definition lowerChar (c : ascii) : ascii :=
  let n := charCode c in
  if ((65 <=? n) && (n <=? 90))
     || ((192 <=? n) && (n <=? 222) && negb (n =? 215))
  then ascii_of_N (Z.to_N (n + 32)) else c.

(** [s.toLowerCase()] *)
Fixpoint toLowerCase (s : string) : string :=
  match s with
  | EmptyString => EmptyString
  | String c rest => String (lowerChar c) (toLowerCase rest)
  end.

(** A non-empty string is truthy. *)
Definition truthy (s : string) : bool := negb (s =? "")%string.

(** Code-unit order of two strings, as a comparator result. *)
Fixpoint compareStrings (a b : string) : Z :=
  match a, b with
  | EmptyString, EmptyString => 0
  | EmptyString, String _ _ => -1
  | String _ _, EmptyString => 1
  | String x a', String y b' =>
      if charCode x <? charCode y then -1
      else if charCode y <? charCode x then 1
      else compareStrings a' b'
  end.

(** ** Numbers *)

(** [(x | 0)]: conversion to a signed 32-bit integer. *)
Definition toInt32 (x : Z) : Z := (x + 2 ^ 31) mod 2 ^ 32 - 2 ^ 31.

(** [String(n)] / template interpolation of an integer. *)
Definition numberToString (n : Z) : string :=
  NilZero.string_of_int (Z.to_int n).

Definition digitChar (d : Z) : ascii :=
  if d <? 10 then ascii_of_N (Z.to_N (48 + d))
  else ascii_of_N (Z.to_N (97 + (d - 10))).

Fixpoint toStringRadixLoop (fuel : nat) (radix n : Z) (acc : string) : string :=
  match fuel with
  | O => acc
  | S fuel' =>
      if n <? radix then String (digitChar n) acc
      else toStringRadixLoop fuel' radix (n / radix)
             (String (digitChar (n mod radix)) acc)
  end.

(** [n.toString(radix)] for a non-negative integer [n]. *)
Definition toStringRadix (radix n : Z) : string :=
  toStringRadixLoop (S (Z.to_nat (Z.log2 n))) radix n "".

(** Arithmetic on possibly-NaN numbers: [None] is NaN. *)
Definition sub (a b : option Z) : option Z :=
  match a, b with
  | Some x, Some y => Some (x - y)
  | _, _ => None
  end.

(** ** Arrays *)

(** [array.slice(start, end)] with relative (negative) indices. *)
Definition relativeIndex (len i : Z) : Z :=
  if i <? 0 then Z.max (len + i) 0 else Z.min i len.

Definition slice {A} (l : list A) (start : Z) (end_ : option Z) : list A :=
  let len := Z.of_nat (length l) in
  let k := relativeIndex len start in
  let final := match end_ with
               | Some e => relativeIndex len e
               | None => len
               end in
  firstn (Z.to_nat (Z.max (final - k) 0)) (skipn (Z.to_nat k) l).

(** [array.sort(compareFn)].  The sort is stable; a comparator result of
    NaN counts as 0.  For a comparator that is a consistent ordering the
    result is the same in every implementation; the model is an
    insertion sort. *)
Section Sort.
Context {A : Type} (compareFn : A -> A -> option Z).

(** [x] has to come after [y]. *)
Definition after (x y : A) : bool :=
  match compareFn x y with
  | Some v => 0 <? v
  | None => false
  end.

Fixpoint insertSorted (x : A) (l : list A) : list A :=
  match l with
  | [] => [x]
  | y :: rest => if after x y then y :: insertSorted x rest else x :: l
  end.

Fixpoint sort (l : list A) : list A :=
  match l with
  | [] => []
  | x :: rest => insertSorted x (sort rest)
  end.
End Sort.

(** ** Maps and sets in insertion order *)

Section OrderedMap.
Context {K V : Type} `{EqDecision K}.

(** [map.set(k, v)]: an existing key keeps its place, a new one goes
    last. *)
Fixpoint mapSet (k : K) (v : V) (m : list (K * V)) : list (K * V) :=
  match m with
  | [] => [(k, v)]
  | (k', v') :: rest =>
      if decide (k' = k) then (k, v) :: rest
      else (k', v') :: mapSet k v rest
  end.

Fixpoint mapGet (k : K) (m : list (K * V)) : option V :=
  match m with
  | [] => None
  | (k', v') :: rest => if decide (k' = k) then Some v' else mapGet k rest
  end.

(** [[...map.values()]] *)
Definition mapValues (m : list (K * V)) : list V := map snd m.

Definition mapKeys (m : list (K * V)) : list K := map fst m.

(** [for (const x of xs) map.set(key(x), x)] *)
Definition mapSetAll (key : V -> K) (xs : list V) (m : list (K * V))
  : list (K * V) :=
  fold_left (fun acc x => mapSet (key x) x acc) xs m.
End OrderedMap.

(** [set.add(x)] on a [Set] kept in insertion order. *)
Definition setAdd {K} `{EqDecision K} (x : K) (s : list K) : list K :=
  if bool_decide (x ∈ s) then s else s ++ [x].

(** ** Dynamically typed values ([unknown]) read from JSON *)

Inductive JsValue :=
| JsUndefined
| JsNull
| JsBool (b : bool)
| JsNumber (n : Z)
| JsString (s : string)
| JsArray (items : list JsValue)
| JsObject (props : list (string * JsValue)).   (* own properties, in key order *)

(** [record[key]] on a plain object. *)
Definition getProp (key : string) (props : list (string * JsValue)) : JsValue :=
  default JsUndefined (mapGet key props).

(** [Object.keys(record)] *)
Definition Object_keys (props : list (string * JsValue)) : list string :=
  map fst props.

(** [a ?? b] *)
Definition nullish (v : JsValue) : bool :=
  match v with JsUndefined | JsNull => true | _ => false end.

Definition coalesce (v fallback : JsValue) : JsValue :=
  if nullish v then fallback else v.

(** [!v] *)
Definition falsy (v : JsValue) : bool :=
  match v with
  | JsUndefined | JsNull => true
  | JsBool b => negb b
  | JsNumber n => n =? 0
  | JsString s => (s =? "")%string
  | JsArray _ | JsObject _ => false
  end.

(** [String(v)] *)
Fixpoint toString (v : JsValue) : string :=
  match v with
  | JsUndefined => "undefined"
  | JsNull => "null"
  | JsBool true => "true"
  | JsBool false => "false"
  | JsNumber n => numberToString n
  | JsString s => s
  | JsArray items =>
      join "," (map (fun item => if nullish item then "" else toString item) items)
  | JsObject _ => "[object Object]"
  end.

(** ** Host-dependent built-ins *)

Class JsRuntime := {
  (** [Date.parse(s)]; [None] is NaN. *)
  Date_parse : string -> option Z;
  (** [Number(s)] of a string when the result is finite; [None] is NaN
      or an infinity. *)
  stringToNumber : string -> option Z;
  (** [a.localeCompare(b)] *)
  localeCompare : string -> string -> Z
}.

(** [Number(v)] followed by the [Number.isFinite] test: [Some n] when the
    conversion is the finite number [n]. *)
Definition toFiniteNumber `{JsRuntime} (v : JsValue) : option Z :=
  match v with
  | JsUndefined => None
  | JsNull => Some 0
  | JsBool b => Some (if b then 1 else 0)
  | JsNumber n => Some n
  | JsString s => stringToNumber s
  | JsArray _ => stringToNumber (toString v)
  | JsObject _ => None
  end.

(** ** Dates: [new Date(t).toISOString()] *)

Definition msPerDay : Z := 86400000.

(** Proleptic Gregorian date of a day number counted from 1970-01-01. *)
Definition civilFromDays (days : Z) : Z * Z * Z :=
  let z := days + 719468 in
  let era := z / 146097 in
  let doe := z - era * 146097 in
  let yoe := (doe - doe / 1460 + doe / 36524 - doe / 146096) / 365 in
  let doy := doe - (365 * yoe + yoe / 4 - yoe / 100) in
  let mp := (5 * doy + 2) / 153 in
  let d := doy - (153 * mp + 2) / 5 + 1 in
  let m := if mp <? 10 then mp + 3 else mp - 9 in
  let y := yoe + era * 400 + (if m <=? 2 then 1 else 0) in
  (y, m, d).

Definition daysFromCivil (y m d : Z) : Z :=
  let y' := y - (if m <=? 2 then 1 else 0) in
  let era := y' / 400 in
  let yoe := y' - era * 400 in
  let doy := (153 * (if 2 <? m then m - 3 else m + 9) + 2) / 5 + d - 1 in
  let doe := yoe * 365 + yoe / 4 - yoe / 100 + doy in
  era * 146097 + doe - 719468.

Fixpoint padZeros (width : nat) (s : string) : string :=
  match width with
  | O => s
  | S w => if (String.length s <? width)%nat then "0" +:+ padZeros w s
           else s
  end.

Definition pad (width : nat) (n : Z) : string :=
  padZeros width (numberToString n).

Definition toISOString (t : Z) : string :=
  let days := t / msPerDay in
  let ms := t mod msPerDay in
  let '(y, m, d) := civilFromDays days in
  let year := if (0 <=? y) && (y <=? 9999) then pad 4 y
              else (if y <? 0 then "-" else "+") +:+ pad 6 (Z.abs y) in
  year +:+ "-" +:+ pad 2 m +:+ "-" +:+ pad 2 d +:+ "T"
    +:+ pad 2 (ms / 3600000) +:+ ":" +:+ pad 2 (ms / 60000 mod 60) +:+ ":"
    +:+ pad 2 (ms / 1000 mod 60) +:+ "." +:+ pad 3 (ms mod 1000) +:+ "Z".

End Js.
Import Js.

(* ===================================================================== *)
(** * Data model (types) *)
(* ===================================================================== *)

Module Config.
Record t := mk {
  baseUrl : string;
  apiKey : string;
  workspaceOid : string;
  projectOids : list string;
  iterationOid : string;
  iterationName : string;
  iterationStartDate : string;
  pollIntervalMinutes : Z;
  timezone : string
}.
End Config.

(** [TrackerConfig extends Omit<Config, "apiKey">] *)
Module TrackerConfig.
Record t := mk {
  id : string;
  name : string;
  projectNames : list string;
  createdAt : string;
  baseUrl : string;
  workspaceOid : string;
  projectOids : list string;
  iterationOid : string;
  iterationName : string;
  iterationStartDate : string;
  pollIntervalMinutes : Z;
  timezone : string
}.
End TrackerConfig.

Module StoryChange.
Record t := mk {
  changeId : string;
  storyObjectId : Z;
  formattedId : string;
  name : string;
  ownerName : option string;
  statusName : option string;
  ready : option bool;
  scheduleState : option string;
  scheduleStateFrom : option string;
  scheduleStateTo : option string;
  projectName : string;
  changedAt : string;
  changedFields : list string;
  changedBy : option string;
  url : string
}.
End StoryChange.

Module SprintStory.
Record t := mk {
  storyObjectId : Z;
  formattedId : string;
  name : string;
  ownerName : option string;
  statusName : option string;
  ready : option bool;
  scheduleState : option string;
  projectName : string;
  url : string
}.
End SprintStory.

Module PollResult.
Record t := mk {
  currentStories : list SprintStory.t;
  newChanges : list StoryChange.t;
  cursor : string;
  apiLatencyMs : Z;
  errors : option (list string)
}.
End PollResult.

Module TestingRequiredStoryRef.
Record t := mk {
  storyObjectId : Z;
  formattedId : string
}.
End TestingRequiredStoryRef.

Module TrackerPersistedState.
Record t := mk {
  scopeKey : string;
  cursor : option string;
  seenChangeIds : list string;
  lastNotificationAt : option string;
  history : list StoryChange.t;
  lastCheckedAt : option string;
  testingRequiredStories : list TestingRequiredStoryRef.t
}.
End TrackerPersistedState.

Module PersistedState.
Record t := mk {
  activeTrackerId : option string;
  trackers : gmap string TrackerPersistedState.t
}.
End PersistedState.

(* ===================================================================== *)
(** * constants.ts *)
(* ===================================================================== *)

Definition DEFAULT_TRACKER_STATE : TrackerPersistedState.t :=
  {| TrackerPersistedState.scopeKey := "";
     TrackerPersistedState.cursor := None;
     TrackerPersistedState.seenChangeIds := [];
     TrackerPersistedState.lastNotificationAt := None;
     TrackerPersistedState.history := [];
     TrackerPersistedState.lastCheckedAt := None;
     TrackerPersistedState.testingRequiredStories := [] |}.

(* ===================================================================== *)
(** * appState.ts: the tracker state store *)
(* ===================================================================== *)

Module AppState.
Section WithRuntime.
Context `{JsRuntime}.

(** Comparator [(a, b) => Date.parse(b.changedAt) - Date.parse(a.changedAt)]. *)
Definition byChangedAtDesc (a b : StoryChange.t) : option Z :=
  sub (Date_parse (StoryChange.changedAt b)) (Date_parse (StoryChange.changedAt a)).

(** The predicate of the [filter] in [trimTrackerState]:
    [Number.isFinite(ts) && now - ts <= retentionMs]. *)
Definition retained (retentionMs now : Z) (entry : StoryChange.t) : bool :=
  match Date_parse (StoryChange.changedAt entry) with
  | Some ts => now - ts <=? retentionMs
  | None => false
  end.

(** [trimTrackerState(state)], with the reading of [Date.now()] as an
    argument. *)
Definition trimTrackerState (now : Z) (state : TrackerPersistedState.t)
  : TrackerPersistedState.t :=
  let retentionMs := 45 * 24 * 60 * 60 * 1000 in
  let history :=
    List.filter (retained retentionMs now) (TrackerPersistedState.history state) in
  {| TrackerPersistedState.scopeKey := TrackerPersistedState.scopeKey state;
     TrackerPersistedState.cursor := TrackerPersistedState.cursor state;
     TrackerPersistedState.seenChangeIds :=
       slice (TrackerPersistedState.seenChangeIds state) (-2000) None;
     TrackerPersistedState.lastNotificationAt :=
       TrackerPersistedState.lastNotificationAt state;
     TrackerPersistedState.history := history;
     TrackerPersistedState.lastCheckedAt := TrackerPersistedState.lastCheckedAt state;
     TrackerPersistedState.testingRequiredStories :=
       TrackerPersistedState.testingRequiredStories state |}.

(** [mergeHistory(existing, incoming)] *)
Definition mergeHistory (existing incoming : list StoryChange.t)
  : list StoryChange.t :=
  let map0 : list (string * StoryChange.t) := [] in
  let map1 := mapSetAll StoryChange.changeId existing map0 in
  let map2 := mapSetAll StoryChange.changeId incoming map1 in
  sort byChangedAtDesc (mapValues map2).
End WithRuntime.

(** [savePersistedState] trims every tracker before writing; the value
    returned is the document handed to [localStorage.setItem]. *)
Definition savePersistedState `{JsRuntime} (now : Z) (state : PersistedState.t)
  : PersistedState.t :=
  {| PersistedState.activeTrackerId := PersistedState.activeTrackerId state;
     PersistedState.trackers := trimTrackerState now <$> PersistedState.trackers state |}.

(** Default [sort()]: ascending code-unit order of the strings. *)
Definition defaultCompare (a b : string) : option Z := Some (compareStrings a b).

(** [createScopeKey(config)] *)
Definition createScopeKey (config : TrackerConfig.t) : string :=
  let sortedProjects := join "," (sort defaultCompare (TrackerConfig.projectOids config)) in
  TrackerConfig.workspaceOid config +:+ "|" +:+ sortedProjects +:+ "|"
    +:+ TrackerConfig.iterationOid config.

(** [createFreshTrackerState(scopeKey, iterationStartDate)];
    [iterationStartDate || null] is [None] for the empty string. *)
Definition createFreshTrackerState (scopeKey iterationStartDate : string)
  : TrackerPersistedState.t :=
  {| TrackerPersistedState.scopeKey := scopeKey;
     TrackerPersistedState.cursor :=
       if truthy iterationStartDate then Some iterationStartDate else None;
     TrackerPersistedState.seenChangeIds :=
       TrackerPersistedState.seenChangeIds DEFAULT_TRACKER_STATE;
     TrackerPersistedState.lastNotificationAt :=
       TrackerPersistedState.lastNotificationAt DEFAULT_TRACKER_STATE;
     TrackerPersistedState.history := TrackerPersistedState.history DEFAULT_TRACKER_STATE;
     TrackerPersistedState.lastCheckedAt :=
       TrackerPersistedState.lastCheckedAt DEFAULT_TRACKER_STATE;
     TrackerPersistedState.testingRequiredStories :=
       TrackerPersistedState.testingRequiredStories DEFAULT_TRACKER_STATE |}.

(** A history in which no entry is followed by one that the comparator of
    [mergeHistory] places before it: the timestamps do not increase. *)
Definition newestFirst `{JsRuntime} (history : list StoryChange.t) : Prop :=
  Sorted (fun a b => after byChangedAtDesc a b = false) history.

(** A project id that cannot be confused with the separators of a scope
    key: it is not empty and holds neither ["|"] nor [","]. *)
Definition plainProjectOid (projectOid : string) : Prop :=
  projectOid <> "" /\ containsChar "|" projectOid = false
  /\ containsChar "," projectOid = false.

(** The order in which the default sort leaves two neighbours. *)
Definition ordered (a b : string) : Prop := after defaultCompare a b = false.

(** The project ids of a configuration as [createScopeKey] compares them. *)
Definition sortedProjectOids (config : TrackerConfig.t) : list string :=
  sort defaultCompare (TrackerConfig.projectOids config).

(** Same workspace, same sorted project ids, same sprint. *)
Definition sameScope (c1 c2 : TrackerConfig.t) : Prop :=
  TrackerConfig.workspaceOid c1 = TrackerConfig.workspaceOid c2
  /\ sortedProjectOids c1 = sortedProjectOids c2
  /\ TrackerConfig.iterationOid c1 = TrackerConfig.iterationOid c2.
End AppState.

(* ===================================================================== *)
(** * rallyClient.ts: the remote data client *)
(* ===================================================================== *)

Module RallyClient.

Definition MAX_RETRIES : Z := 3.

(** [backoffMs(attempt)] *)
Definition backoffMs (attempt : Z) : Z := Z.min 4000 (500 * 2 ^ attempt).

(** What one call of [transportRequest] does: it resolves to a
    [{status, body}] pair or it throws (network or proxy failure). *)
Inductive TransportOutcome :=
| Responds (status : Z) (body : string)
| Fails (message : string).

(** What a caller can observe of one [request]: the transport calls and the
    [sleep]s, in order. *)
Inductive Event :=
| Transport (attempt : Z)
| Sleep (ms : Z).

Section Request.
Context {T : Type}.
(** [JSON.parse(response.body) as T]; [None] when it throws. *)
Context (JSON_parse : string -> option T).
(** The outcome of the transport call made by each attempt. *)
Context (transportRequest : Z -> TransportOutcome).

Definition invalidKey : JsError :=
  RallyAuthError "Invalid or unauthorized Rally API key".

Definition requestFailed (status : Z) (body : string) : JsError :=
  Error ("Rally request failed (" +:+ numberToString status +:+ "): " +:+ body).

Definition nonJsonBody (status : Z) : JsError :=
  Error ("Rally request returned non-JSON body (" +:+ numberToString status +:+ ")").

(** [request(url, init, attempt)].  The recursion of the source goes
    through [attempt + 1]; [fuel] bounds its depth and [None] means the
    bound was too small. *)
Fixpoint requestFrom (fuel : nat) (attempt : Z) : option (Result T * list Event) :=
  match fuel with
  | O => None
  | S fuel' =>
      (* await sleep(backoffMs(attempt)); return this.request(url, init, attempt + 1) *)
      let retry :=
        match requestFrom fuel' (attempt + 1) with
        | Some (result, events) => Some (result, Sleep (backoffMs attempt) :: events)
        | None => None
        end in
      (* the catch clause *)
      let catch (error : JsError) :=
        if isAuthError error then Some (Throw error, [])
        else if attempt <? MAX_RETRIES then retry
        else Some (Throw error, []) in
      let continuation :=
        match transportRequest attempt with
        | Fails message => catch (Error message)
        | Responds status body =>
            if (status =? 401) || (status =? 403) then catch invalidKey
            else if ((status =? 429) || (500 <=? status)) && (attempt <? MAX_RETRIES)
            then retry
            else if (status <? 200) || (300 <=? status)
            then catch (requestFailed status body)
            else match JSON_parse body with
                 | Some value => Some (Ok value, [])
                 | None => catch (nonJsonBody status)
                 end
        end in
      match continuation with
      | Some (result, events) => Some (result, Transport attempt :: events)
      | None => None
      end
  end.

(** [request(url, init)] with the default [attempt = 0]. *)
Definition request : option (Result T * list Event) :=
  requestFrom (S (Z.to_nat MAX_RETRIES)) 0.

End Request.

(** The transport calls and the sleeps of a trace. *)
Definition transportCalls (events : list Event) : list Z :=
  omap (fun e => match e with Transport n => Some n | Sleep _ => None end) events.

Definition sleeps (events : list Event) : list Z :=
  omap (fun e => match e with Sleep ms => Some ms | Transport _ => None end) events.

(** The trace of a request that starts at [attempt] and retries [retries]
    times: every attempt but the last is followed by its back-off. *)
Fixpoint traceFrom (attempt : Z) (retries : nat) : list Event :=
  match retries with
  | O => [Transport attempt]
  | S r => Transport attempt :: Sleep (backoffMs attempt) :: traceFrom (attempt + 1) r
  end.

(** The kinds of outcome the retry policy speaks of. *)
Definition isAuthStatus (outcome : TransportOutcome) : bool :=
  match outcome with
  | Responds status _ => (status =? 401) || (status =? 403)
  | Fails _ => false
  end.

Definition isTransient (outcome : TransportOutcome) : bool :=
  match outcome with
  | Responds status _ => (status =? 429) || (500 <=? status)
  | Fails _ => true
  end.

(** The error a transient failure is surfaced as. *)
Definition transientError (outcome : TransportOutcome) : JsError :=
  match outcome with
  | Responds status body => requestFailed status body
  | Fails message => Error message
  end.

(** The retry policy, for the attempts [first], ..., [first + retries] of a
    request that ended with [result]. *)
Definition retryPolicy {T} (transportRequest : Z -> TransportOutcome)
    (first : Z) (retries : nat) (result : Result T) : Prop :=
  let last := first + Z.of_nat retries in
  last <= MAX_RETRIES
  /\ (forall n, first <= n <= last -> isAuthStatus (transportRequest n) = true ->
        n = last /\ result = Throw invalidKey)
  /\ (forall error, result = Throw error -> isAuthError error = true ->
        isAuthStatus (transportRequest last) = true)
  /\ (forall n, first <= n <= last -> isTransient (transportRequest n) = true ->
        n < MAX_RETRIES -> n < last)
  /\ (isTransient (transportRequest last) = true ->
        last = MAX_RETRIES /\ result = Throw (transientError (transportRequest last))).

(** ** The feed query *)

(** A feed record as received: a plain object. *)
Definition Snapshot : Type := list (string * JsValue).

(** Range operators of the query language of the feed. *)
Inductive RangeOperator := op_gt | op_gte | op_lt | op_lte.

Record Range := { operator : RangeOperator; bound : string }.

(** The body posted by [fetchSnapshots]. *)
Record SnapshotQuery := {
  find_TypeHierarchy : string;
  find_Iteration_in : list Z;
  find_ValidFrom : Range;
  sort_ValidFrom : Z;
  pagesize : Z;
  fields : list string
}.

Definition snapshotQuery (sinceIso : string) (iterationOids : list Z) : SnapshotQuery :=
  {| find_TypeHierarchy := "HierarchicalRequirement";
     find_Iteration_in := iterationOids;
     find_ValidFrom := {| operator := op_gte; bound := sinceIso |};
     sort_ValidFrom := 1;
     pagesize := 500;
     fields := ["ObjectID"; "FormattedID"; "Project"; "Name"; "Owner"; "Status";
                "Ready"; "ScheduleState"; "LastUpdateDate"; "_ValidFrom";
                "_PreviousValues"; "_User"] |}.

(** How the remote service reads a range condition on a timestamp field:
    timestamps of the one ISO-8601 UTC format are ordered as their
    strings. *)
Definition satisfies (r : Range) (value : string) : bool :=
  let c := compareStrings value (bound r) in
  match operator r with
  | op_gt => 0 <? c
  | op_gte => 0 <=? c
  | op_lt => c <? 0
  | op_lte => c <=? 0
  end.

(** ** The service behind the client *)

Module IterationOption.
Record t := mk {
  objectId : string;
  name : string;
  projectName : option string;
  startDate : option string;
  endDate : option string
}.
End IterationOption.

Module StoryMeta.
Record t := mk {
  formattedId : string;
  name : string;
  ownerName : option string;
  statusName : option string;
  ready : option bool;
  scheduleState : option string;
  projectName : string
}.
End StoryMeta.

(** The methods of the client that only page through the remote service
    are taken as they answer. *)
Record Service := {
  (** [listProjectIterations(projectOid)] *)
  listProjectIterations : string -> Result (list IterationOption.t);
  (** [fetchStoriesForQuery(projectOid, query)] *)
  fetchStoriesForQuery : string -> string -> Result (list SprintStory.t);
  (** [request(url, {method: "POST", body})] of the feed, then
      [response.Results ?? []] *)
  postSnapshotQuery : string -> SnapshotQuery -> Result (list Snapshot);
  (** the query of [fetchStoryMetadata] for a non-empty id list *)
  queryStoryMetadata : list Z -> Result (gmap Z StoryMeta.t);
  (** the query of [fetchProjectNames] for a non-empty id list *)
  queryProjectNames : list Z -> Result (gmap Z string)
}.

Definition dquote : string := String (ascii_of_N 34) EmptyString.

(** [escapeQueryString(value)] *)
Fixpoint escapeQueryString (value : string) : string :=
  match value with
  | EmptyString => EmptyString
  | String c rest =>
      (if charCode c =? 92 then "\\"
       else if charCode c =? 34 then "\" +:+ dquote
       else String c EmptyString) +:+ escapeQueryString rest
  end.

(** [for (const x of xs) { ... await step(x) ... }] over an accumulator. *)
Fixpoint forEach {A S} (xs : list A) (step : S -> A -> Result S) (acc : S) : Result S :=
  match xs with
  | [] => Ok acc
  | x :: rest => bind (step acc x) (forEach rest step)
  end.

(** [await Promise.all(xs.map(f))]; when several promises reject, the model
    reports the first in list order. *)
Fixpoint awaitAll {A B} (f : A -> Result B) (xs : list A) : Result (list B) :=
  match xs with
  | [] => Ok []
  | x :: rest => bind (f x) (fun y => bind (awaitAll f rest) (fun ys => Ok (y :: ys)))
  end.

Section Client.
Context `{JsRuntime}.
Context (service : Service) (config : Config.t).

(** [new Date(s).toISOString().slice(0, 10)]; an invalid date throws. *)
Definition isoDay (s : string) : Result string :=
  match Date_parse s with
  | Some t => Ok (substring 0 10 (toISOString t))
  | None => Throw (Error "Invalid time value")
  end.

(** [resolveIterationOids(iterationOid, iterationName, iterationStartDate, projectOids)] *)
Definition resolveIterationOids (iterationOid iterationName iterationStartDate : string)
    (projectOids : list string) : Result (list Z) :=
  if negb (truthy iterationOid) || (length projectOids =? 0)%nat then Ok []
  else
    let resolved : list Z :=
      match stringToNumber iterationOid with
      | Some selectedOid => setAdd selectedOid []
      | None => []
      end in
    let normalizedName := toLowerCase (trim iterationName) in
    bind (if truthy iterationStartDate then isoDay iterationStartDate else Ok "")
      (fun selectedStart =>
    if negb (truthy normalizedName) then Ok resolved
    else
      bind (awaitAll (listProjectIterations service) projectOids)
        (fun iterationsByProject =>
      forEach (concat iterationsByProject)
        (fun resolved iteration =>
           let sameName :=
             (toLowerCase (trim (IterationOption.name iteration)) =? normalizedName)%string in
           if negb sameName then Ok resolved
           else
             bind (if truthy selectedStart
                   then bind (match IterationOption.startDate iteration with
                              | Some d => if truthy d then isoDay d else Ok ""
                              | None => Ok ""
                              end)
                          (fun iterationStart =>
                             Ok (negb (iterationStart =? selectedStart)%string))
                   else Ok false)
               (fun skip =>
             if (skip : bool) then Ok resolved
             else match stringToNumber (IterationOption.objectId iteration) with
                  | Some oid => Ok (setAdd oid resolved)
                  | None => Ok resolved
                  end))
        resolved)).

(** [fetchSnapshots(sinceIso, projectOids, iterationOid)] *)
Definition fetchSnapshots (sinceIso : string) (projectOids : list string)
    (iterationOid : string) : Result (list Snapshot) :=
  bind (resolveIterationOids iterationOid (Config.iterationName config)
          (Config.iterationStartDate config) projectOids)
    (fun iterationOids =>
  if (length projectOids =? 0)%nat || (length iterationOids =? 0)%nat then Ok []
  else
    let url := Config.baseUrl config +:+ "/analytics/v2.0/service/rally/workspace/"
                 +:+ Config.workspaceOid config +:+ "/artifact/snapshot/query.js" in
    postSnapshotQuery service url (snapshotQuery sinceIso iterationOids)).

(** The loop [for (const projectOid of projectOids)] that collects the
    stories of one query into the [unique] map. *)
Definition collectStories (query : string) (projectOids : list string)
    (unique : list (Z * SprintStory.t)) : Result (list (Z * SprintStory.t)) :=
  forEach projectOids
    (fun unique projectOid =>
       bind (fetchStoriesForQuery service projectOid query)
         (fun stories => Ok (mapSetAll SprintStory.storyObjectId stories unique)))
    unique.

(** What the [unique] map is at every moment: its keys are distinct and
    each is the id of the story stored under it. *)
Definition storiesById (unique : list (Z * SprintStory.t)) : Prop :=
  NoDup (mapKeys unique)
  /\ Forall (fun entry => fst entry = SprintStory.storyObjectId (snd entry)) unique.

(** [fetchStoriesInIteration(iterationOid, projectOids)] *)
Definition fetchStoriesInIteration (iterationOid : string) (projectOids : list string)
  : Result (list SprintStory.t) :=
  bind (resolveIterationOids iterationOid (Config.iterationName config)
          (Config.iterationStartDate config) projectOids)
    (fun iterationOids =>
  if (length iterationOids =? 0)%nat || (length projectOids =? 0)%nat then Ok []
  else
    let iterationQuery :=
      join " OR "
        (map (fun oid => "(Iteration = " +:+ dquote +:+ "/iteration/"
                           +:+ numberToString oid +:+ dquote +:+ ")")
           iterationOids) in
    let query := "(" +:+ iterationQuery +:+ ")" in
    bind (collectStories query projectOids [])
      (fun unique =>
    if (0 <? length unique)%nat then Ok (mapValues unique)
    else
      let iterationName := trim (Config.iterationName config) in
      if negb (truthy iterationName) then Ok []
      else
        let escapedName := escapeQueryString iterationName in
        let nameQuery := "(Iteration.Name = " +:+ dquote +:+ escapedName +:+ dquote +:+ ")" in
        bind (collectStories nameQuery projectOids unique)
          (fun unique => Ok (mapValues unique)))).

(** [fetchStoryMetadata(objectIds)] *)
Definition fetchStoryMetadata (objectIds : list Z) : Result (gmap Z StoryMeta.t) :=
  if (length objectIds =? 0)%nat then Ok ∅ else queryStoryMetadata service objectIds.

(** [fetchProjectNames(projectObjectIds)] *)
Definition fetchProjectNames (projectObjectIds : list Z) : Result (gmap Z string) :=
  if (length projectObjectIds =? 0)%nat then Ok ∅
  else
    let uniqueIds := fold_left (fun s id => setAdd id s) projectObjectIds [] in
    if (length uniqueIds =? 0)%nat then Ok ∅ else queryProjectNames service uniqueIds.

End Client.
End RallyClient.

(* ===================================================================== *)
(** * changeFetcher.ts: the change extractor *)
(* ===================================================================== *)

Module ChangeFetcher.
Import RallyClient.

Definition SNAPSHOT_OVERLAP_MS : Z := 15 * 60 * 1000.

(** [simpleHash(value)]: the loop, then [Math.abs(hash).toString(36)]. *)
Definition simpleHashLoop (value : string) : Z :=
  fold_left (fun hash code => toInt32 (hash * 31 + code)) (charCodes value) 0.

Definition simpleHash (value : string) : string :=
  toStringRadix 36 (Z.abs (simpleHashLoop value)).

(** [extractPreviousValues(snapshot)] *)
Definition extractPreviousValues (snapshot : Snapshot) : list (string * JsValue) :=
  match getProp "_PreviousValues" snapshot with
  | JsObject previous => previous
  | _ => []
  end.

(** [extractChangedFields(snapshot)] *)
Definition extractChangedFields (snapshot : Snapshot) : list string :=
  List.filter (fun field => negb (startsWith "_" field))
    (Object_keys (extractPreviousValues snapshot)).

(** [typeof v === "string" && v.trim().length > 0 ? v : undefined] *)
Definition nonBlankString (v : JsValue) : option string :=
  match v with
  | JsString s => if (0 <? String.length (trim s))%nat then Some s else None
  | _ => None
  end.

(** The first of [fields] that holds a non-blank string in [record]. *)
Fixpoint firstNonBlank (fields : list string) (record : list (string * JsValue))
  : option string :=
  match fields with
  | [] => None
  | field :: rest =>
      match nonBlankString (getProp field record) with
      | Some value => Some value
      | None => firstNonBlank rest record
      end
  end.

(** [extractOwnerName(owner)] *)
Definition extractOwnerName (owner : JsValue) : option string :=
  if falsy owner then None
  else match owner with
       | JsString s =>
           let trimmed := trim s in
           if (0 <? String.length trimmed)%nat then Some trimmed else None
       | JsObject record =>
           firstNonBlank ["_refObjectName"; "DisplayName"; "Name"; "UserName"] record
       | _ => None
       end.

(** [extractStatusName(status)] *)
Definition extractStatusName (status : JsValue) : option string :=
  if falsy status then None
  else match status with
       | JsString s =>
           let trimmed := trim s in
           if (0 <? String.length trimmed)%nat then Some trimmed else None
       | JsObject record => firstNonBlank ["_refObjectName"; "Name"; "DisplayName"] record
       | _ => None
       end.

(** [extractReadyFlag(ready)] *)
Definition extractReadyFlag (ready : JsValue) : option bool :=
  match ready with
  | JsBool b => Some b
  | JsString s =>
      let normalized := toLowerCase (trim s) in
      if (normalized =? "true")%string then Some true
      else if (normalized =? "false")%string then Some false
      else None
  | _ => None
  end.

Definition isDigit (c : ascii) : bool := (48 <=? charCode c) && (charCode c <=? 57).

Fixpoint takeDigits (s : string) : string :=
  match s with
  | EmptyString => EmptyString
  | String c rest => if isDigit c then String c (takeDigits rest) else EmptyString
  end.

(** The rest of [s] after the prefix [p], letters compared without case. *)
Fixpoint afterPrefixIgnoreCase (p s : string) : option string :=
  match p, s with
  | EmptyString, _ => Some s
  | String _ _, EmptyString => None
  | String a p', String b s' =>
      if Ascii.eqb (lowerChar a) (lowerChar b) then afterPrefixIgnoreCase p' s' else None
  end.

(** The digits matched at the start of [s], if any, by the regular
    expression of the source anchored there. *)
Definition projectPathAt (s : string) : option string :=
  match afterPrefixIgnoreCase "/project/" s with
  | Some rest => let digits := takeDigits rest in
                 if truthy digits then Some digits else None
  | None => None
  end.

(** Group 1 of the leftmost match of the regular expression
    [/\/project\/(\d+)/i] in [s]. *)
Fixpoint projectPathId (s : string) : option string :=
  match projectPathAt s with
  | Some digits => Some digits
  | None => match s with
            | EmptyString => None
            | String _ rest => projectPathId rest
            end
  end.

(** [Number(digits)] of a string of decimal digits. *)
Definition decimalValue (digits : string) : Z :=
  fold_left (fun acc code => acc * 10 + (code - 48)) (charCodes digits) 0.

(** [extractProjectObjectId(project)] *)
Definition extractProjectObjectId `{JsRuntime} (project : JsValue) : option Z :=
  match project with
  | JsNumber n => Some n
  | JsString s =>
      match projectPathId s with
      | Some digits => Some (decimalValue digits)
      | None => stringToNumber s
      end
  | JsObject record =>
      match (match getProp "_ref" record with
             | JsString refValue => projectPathId refValue
             | _ => None
             end) with
      | Some digits => Some (decimalValue digits)
      | None =>
          match getProp "ObjectID" record with
          | JsNumber n => Some n
          | JsString s => stringToNumber s
          | _ => None
          end
      end
  | _ => None
  end.

(** [extractProjectName(project, projectNames)] *)
Definition extractProjectName `{JsRuntime} (project : JsValue)
    (projectNames : gmap Z string) : option string :=
  let byId :=
    match extractProjectObjectId project with
    | Some projectObjectId =>
        match projectNames !! projectObjectId with
        | Some resolved => if truthy resolved then Some resolved else None
        | None => None
        end
    | None => None
    end in
  match byId with
  | Some resolved => Some resolved
  | None =>
      match project with
      | JsObject record => firstNonBlank ["_refObjectName"; "Name"] record
      | _ => None
      end
  end.

(** [a ?? b] on optional values. *)
Definition orOpt {A} (a b : option A) : option A :=
  match a with Some _ => a | None => b end.

Section WithRuntime.
Context `{JsRuntime}.

(** [computeSnapshotSince(cursor, iterationStartDate)] *)
Definition computeSnapshotSince (cursor iterationStartDate : string) : string :=
  let iterationStartMs := Date_parse iterationStartDate in
  match Date_parse cursor with
  | None => cursor
  | Some cursorMs =>
      let sinceMs := cursorMs - SNAPSHOT_OVERLAP_MS in
      let sinceMs := match iterationStartMs with
                     | Some startMs => Z.max sinceMs startMs
                     | None => sinceMs
                     end in
      toISOString sinceMs
  end.

(** [dedupe(changes)] *)
Definition dedupe (changes : list StoryChange.t) : list StoryChange.t :=
  let map0 : list (string * StoryChange.t) := [] in
  sort AppState.byChangedAtDesc
    (mapValues (mapSetAll StoryChange.changeId changes map0)).

(** The key hashed into the change id:
    [`${storyObjectId}:${changedAt}:${changedFields.join(",")}`]. *)
Definition keyBase (storyObjectId : Z) (changedAt : string) (changedFields : list string)
  : string :=
  numberToString storyObjectId +:+ ":" +:+ changedAt +:+ ":" +:+ join "," changedFields.

(** One turn of the loop [for (const snapshot of snapshots)] that builds
    [changes]: [None] stands for [continue], [Some change] for the value
    pushed. *)
Definition changeOfSnapshot (config : Config.t) (seenIds : gset string)
    (currentStoryById : list (Z * SprintStory.t))
    (storyMeta : gmap Z StoryMeta.t) (projectNames : gmap Z string)
    (snapshot : Snapshot) : option StoryChange.t :=
  match toFiniteNumber (getProp "ObjectID" snapshot) with
  | None => None
  | Some storyObjectId =>
      let changedAt := toString (coalesce (getProp "_ValidFrom" snapshot) (JsString "")) in
      if negb (truthy changedAt) then None
      else
        let changedFields := extractChangedFields snapshot in
        if (length changedFields =? 0)%nat then None
        else
          let previousValues := extractPreviousValues snapshot in
          let changedBy :=
            match getProp "_User" snapshot with
            | JsString user => Some user
            | _ => match getProp "UserName" snapshot with
                   | JsString user => Some user
                   | _ => None
                   end
            end in
          let changeId := simpleHash (keyBase storyObjectId changedAt changedFields) in
          if bool_decide (changeId ∈ seenIds) then None
          else
            let metadata := storyMeta !! storyObjectId in
            let currentStory := mapGet storyObjectId currentStoryById in
            let idText := numberToString storyObjectId in
            let fallbackName :=
              toString (coalesce (getProp "Name" snapshot) (JsString ("Story " +:+ idText))) in
            let snapshotFormattedId := nonBlankString (getProp "FormattedID" snapshot) in
            let snapshotScheduleState := nonBlankString (getProp "ScheduleState" snapshot) in
            let previousScheduleState :=
              nonBlankString (getProp "ScheduleState" previousValues) in
            let snapshotOwnerName := extractOwnerName (getProp "Owner" snapshot) in
            let snapshotStatusName := extractStatusName (getProp "Status" snapshot) in
            let snapshotReady := extractReadyFlag (getProp "Ready" snapshot) in
            let snapshotProjectName :=
              extractProjectName (getProp "Project" snapshot) projectNames in
            Some
              {| StoryChange.changeId := changeId;
                 StoryChange.storyObjectId := storyObjectId;
                 StoryChange.formattedId :=
                   default ("US" +:+ idText)
                     (orOpt (SprintStory.formattedId <$> currentStory)
                        (orOpt (StoryMeta.formattedId <$> metadata) snapshotFormattedId));
                 StoryChange.name :=
                   default fallbackName
                     (orOpt (SprintStory.name <$> currentStory)
                        (StoryMeta.name <$> metadata));
                 StoryChange.ownerName :=
                   orOpt (currentStory ≫= SprintStory.ownerName)
                     (orOpt (metadata ≫= StoryMeta.ownerName) snapshotOwnerName);
                 StoryChange.statusName :=
                   orOpt snapshotStatusName
                     (orOpt (currentStory ≫= SprintStory.statusName)
                        (metadata ≫= StoryMeta.statusName));
                 StoryChange.ready :=
                   orOpt snapshotReady
                     (orOpt (currentStory ≫= SprintStory.ready)
                        (metadata ≫= StoryMeta.ready));
                 StoryChange.scheduleState :=
                   orOpt (currentStory ≫= SprintStory.scheduleState)
                     (orOpt (metadata ≫= StoryMeta.scheduleState) snapshotScheduleState);
                 StoryChange.scheduleStateFrom := previousScheduleState;
                 StoryChange.scheduleStateTo :=
                   orOpt (currentStory ≫= SprintStory.scheduleState)
                     (orOpt (metadata ≫= StoryMeta.scheduleState)
                        (orOpt snapshotScheduleState previousScheduleState));
                 StoryChange.projectName :=
                   default "Unknown Project"
                     (orOpt (SprintStory.projectName <$> currentStory)
                        (orOpt (StoryMeta.projectName <$> metadata) snapshotProjectName));
                 StoryChange.changedAt := changedAt;
                 StoryChange.changedFields := changedFields;
                 StoryChange.changedBy := changedBy;
                 StoryChange.url :=
                   default (Config.baseUrl config +:+ "/#/detail/userstory/" +:+ idText)
                     (SprintStory.url <$> currentStory) |}
  end.

(** The ids gathered by the first loop over the snapshots. *)
Definition storyObjectIdsOf (snapshots : list Snapshot) : list Z :=
  fold_left
    (fun ids snapshot =>
       match toFiniteNumber (getProp "ObjectID" snapshot) with
       | Some objectId => setAdd objectId ids
       | None => ids
       end)
    snapshots [].

Definition projectObjectIdsOf (snapshots : list Snapshot) : list Z :=
  fold_left
    (fun ids snapshot =>
       match extractProjectObjectId (getProp "Project" snapshot) with
       | Some projectObjectId => setAdd projectObjectId ids
       | None => ids
       end)
    snapshots [].

(** The part of [fetchStoryChanges] after the awaited calls: the second
    loop, the sort and [dedupe]. *)
Definition changesOfSnapshots (config : Config.t) (seenIds : gset string)
    (currentStories : list SprintStory.t)
    (storyMeta : gmap Z StoryMeta.t) (projectNames : gmap Z string)
    (snapshots : list Snapshot) : list StoryChange.t :=
  let currentStoryById := mapSetAll SprintStory.storyObjectId currentStories [] in
  let changes :=
    omap (changeOfSnapshot config seenIds currentStoryById storyMeta projectNames)
      snapshots in
  dedupe (sort AppState.byChangedAtDesc changes).

Definition byFormattedId (a b : SprintStory.t) : option Z :=
  Some (localeCompare (SprintStory.formattedId a) (SprintStory.formattedId b)).

(** [fetchStoryChanges(client, config, cursor, seenIds)], where [client] is
    [new RallyClient(config)] over [service].  [now] is the reading of
    [new Date()] at the end of the poll and [apiLatencyMs] the measured
    duration.  [Promise.all] over two calls reports the failure of the
    first when both fail. *)
Definition fetchStoryChanges (service : Service) (config : Config.t)
    (cursor : string) (seenIds : gset string) (now apiLatencyMs : Z)
  : Result PollResult.t :=
  if negb (truthy (Config.iterationOid config)) then
    Ok {| PollResult.currentStories := [];
          PollResult.newChanges := [];
          PollResult.cursor := cursor;
          PollResult.apiLatencyMs := apiLatencyMs;
          PollResult.errors := Some ["Select a sprint before polling."] |}
  else
    let snapshotSince := computeSnapshotSince cursor (Config.iterationStartDate config) in
    bind (fetchStoriesInIteration service config (Config.iterationOid config)
            (Config.projectOids config))
      (fun currentStories =>
    bind (fetchSnapshots service config snapshotSince (Config.projectOids config)
            (Config.iterationOid config))
      (fun snapshots =>
    bind (fetchStoryMetadata service (storyObjectIdsOf snapshots))
      (fun storyMeta =>
    bind (fetchProjectNames service (projectObjectIdsOf snapshots))
      (fun projectNames =>
    Ok {| PollResult.currentStories := sort byFormattedId currentStories;
          PollResult.newChanges :=
            changesOfSnapshots config seenIds currentStories storyMeta projectNames
              snapshots;
          PollResult.cursor := toISOString now;
          PollResult.apiLatencyMs := apiLatencyMs;
          PollResult.errors := None |})))).

End WithRuntime.
End ChangeFetcher.

(* ===================================================================== *)
(** * notificationEngine.ts *)
(* ===================================================================== *)

Module NotificationEngine.

Record Notification := { title : string; body : string; tag : string }.

(** What [dispatchNotification] hands to the platform. *)
Inductive Dispatched :=
| WebNotification (title body tag : string)
    (* new Notification(title, {body, tag, requireInteraction: true}) *)
| DesktopNotification (title body : string).
    (* sendNotification({title, body, autoCancel: false, ongoing: true}) *)

Inductive Permission := granted | denied | prompt.

(** The answers of the platform to the permission questions. *)
Record Platform := {
  isTauriAvailable : bool;
  (** [Notification.permission], [None] when [Notification] is undefined *)
  webPermission : option Permission;
  (** [await Notification.requestPermission()] *)
  webRequestPermission : Permission;
  (** [await isPermissionGranted()] *)
  isPermissionGranted : bool;
  (** [await requestPermission()] *)
  requestPermission : Permission
}.

Definition isGranted (p : Permission) : bool :=
  match p with granted => true | _ => false end.

(** The engine object: its only field. *)
Record t := { permissionReady : bool }.

(** [ensurePermission()]: the answer and the engine afterwards. *)
Definition ensurePermission (platform : Platform) (engine : t) : bool * t :=
  if permissionReady engine then (true, engine)
  else if negb (isTauriAvailable platform) then
    match webPermission platform with
    | None => (false, engine)
    | Some granted => (true, {| permissionReady := true |})
    | Some denied => (false, engine)
    | Some prompt =>
        let ready := isGranted (webRequestPermission platform) in
        (ready, {| permissionReady := ready |})
    end
  else
    let permissionGranted :=
      if isPermissionGranted platform then true
      else isGranted (requestPermission platform) in
    (permissionGranted, {| permissionReady := permissionGranted |}).

(** [dispatchNotification(notification)] *)
Definition dispatchNotification (platform : Platform) (notification : Notification)
  : Dispatched :=
  if negb (isTauriAvailable platform)
  then WebNotification (title notification) (body notification) (tag notification)
  else DesktopNotification (title notification) (body notification).

Definition addedNotification (story : TestingRequiredStoryRef.t) : Notification :=
  {| title := TestingRequiredStoryRef.formattedId story;
     body := TestingRequiredStoryRef.formattedId story +:+ " is ready for validation.";
     tag := "testing-required-added-"
              +:+ numberToString (TestingRequiredStoryRef.storyObjectId story) |}.

Definition removedNotification (story : TestingRequiredStoryRef.t) : Notification :=
  {| title := TestingRequiredStoryRef.formattedId story;
     body := TestingRequiredStoryRef.formattedId story
               +:+ " is no longer ready for validation.";
     tag := "testing-required-removed-"
              +:+ numberToString (TestingRequiredStoryRef.storyObjectId story) |}.

Definition summaryNotification (notifications : list Notification) : Notification :=
  let ids := join ", " (map title (slice notifications 0 (Some 5))) in
  {| title := "Testing required updated";
     body := "Stories changed: " +:+ ids
               +:+ (if (5 <? length notifications)%nat then ", ..." else "");
     tag := "testing-required-summary" |}.

(** [notifyTestingRequiredChange(addedStories, removedStories)]: the
    notifications dispatched, in order, and the engine afterwards. *)
Definition notifyTestingRequiredChange (platform : Platform) (engine : t)
    (addedStories removedStories : list TestingRequiredStoryRef.t)
  : list Dispatched * t :=
  if (length addedStories =? 0)%nat && (length removedStories =? 0)%nat
  then ([], engine)
  else
    let '(canNotify, engine') := ensurePermission platform engine in
    if negb canNotify then ([], engine')
    else
      let notifications :=
        map addedNotification addedStories ++ map removedNotification removedStories in
      if (length notifications =? 0)%nat then ([], engine')
      else if (5 <? length notifications)%nat
      then ([dispatchNotification platform (summaryNotification notifications)], engine')
      else (map (dispatchNotification platform) notifications, engine').

End NotificationEngine.

(* ===================================================================== *)
(** * main.ts: the poll orchestrator *)
(* ===================================================================== *)

Module Main.
Import RallyClient.

Definition isSeparator (c : ascii) : bool := isWhiteSpace c || (charCode c =? 95).

(** [s.replace(/[\s_]+/g, "-")]; [inRun] tells that the previous character
    belonged to the run being replaced. *)
Fixpoint replaceSeparators (inRun : bool) (s : string) : string :=
  match s with
  | EmptyString => EmptyString
  | String c rest =>
      if isSeparator c
      then if inRun then replaceSeparators true rest
           else String "-" (replaceSeparators true rest)
      else String c (replaceSeparators false rest)
  end.

(** [isInProgressScheduleState(scheduleState)] *)
Definition isInProgressScheduleState (scheduleState : string) : bool :=
  let normalized := replaceSeparators false (toLowerCase (trim scheduleState)) in
  (normalized =? "in-progress")%string.

(** [getTestingRequiredStories(stories)] *)
Definition getTestingRequiredStories (stories : list SprintStory.t) : list SprintStory.t :=
  List.filter
    (fun story =>
       match SprintStory.ready story with
       | Some true => isInProgressScheduleState (default "" (SprintStory.scheduleState story))
       | _ => false
       end)
    stories.

Definition storyRef (story : SprintStory.t) : TestingRequiredStoryRef.t :=
  {| TestingRequiredStoryRef.storyObjectId := SprintStory.storyObjectId story;
     TestingRequiredStoryRef.formattedId := SprintStory.formattedId story |}.

(** [new Map(stories.map((story) => [story.storyObjectId, story]))] *)
Definition byStoryObjectId (stories : list TestingRequiredStoryRef.t)
  : list (Z * TestingRequiredStoryRef.t) :=
  mapSetAll TestingRequiredStoryRef.storyObjectId stories [].

(** [map.has(key)] *)
Definition has {V} (key : Z) (m : list (Z * V)) : bool :=
  match mapGet key m with Some _ => true | None => false end.

(** One call [notificationEngine.notifyTestingRequiredChange(added, removed)]. *)
Record NotifyCall := {
  addedStories : list TestingRequiredStoryRef.t;
  removedStories : list TestingRequiredStoryRef.t
}.

(** The module-level state touched by [pollTracker]. *)
Record World := {
  appState : PersistedState.t;
  currentStoriesByTracker : gmap string (list SprintStory.t);
  statusByTracker : gmap string string;
  (** [stopPolling()] has been called *)
  pollingStopped : bool;
  (** the calls made to the notification engine, oldest first *)
  notifyCalls : list NotifyCall
}.

(** What the surroundings answer during one [pollTracker]. *)
Record Environment := {
  service : Service;
  apiKey : string;
  (** [new Date()] at the end of [fetchStoryChanges] *)
  pollNow : Z;
  apiLatencyMs : Z;
  (** the error of the notification engine when awaiting it rejects *)
  notifyError : option JsError;
  (** [new Date()] after the notification *)
  notifyNow : Z
}.

(** [{...tracker, apiKey}] *)
Definition configOf (tracker : TrackerConfig.t) (apiKey : string) : Config.t :=
  {| Config.baseUrl := TrackerConfig.baseUrl tracker;
     Config.apiKey := apiKey;
     Config.workspaceOid := TrackerConfig.workspaceOid tracker;
     Config.projectOids := TrackerConfig.projectOids tracker;
     Config.iterationOid := TrackerConfig.iterationOid tracker;
     Config.iterationName := TrackerConfig.iterationName tracker;
     Config.iterationStartDate := TrackerConfig.iterationStartDate tracker;
     Config.pollIntervalMinutes := TrackerConfig.pollIntervalMinutes tracker;
     Config.timezone := TrackerConfig.timezone tracker |}.

Definition setTrackerState (id : string) (state : TrackerPersistedState.t) (w : World)
  : World :=
  {| appState :=
       {| PersistedState.activeTrackerId := PersistedState.activeTrackerId (appState w);
          PersistedState.trackers := <[id := state]> (PersistedState.trackers (appState w)) |};
     currentStoriesByTracker := currentStoriesByTracker w;
     statusByTracker := statusByTracker w;
     pollingStopped := pollingStopped w;
     notifyCalls := notifyCalls w |}.

Definition setStatus (id text : string) (w : World) : World :=
  {| appState := appState w;
     currentStoriesByTracker := currentStoriesByTracker w;
     statusByTracker := <[id := text]> (statusByTracker w);
     pollingStopped := pollingStopped w;
     notifyCalls := notifyCalls w |}.

Definition setCurrentStories (id : string) (stories : list SprintStory.t) (w : World)
  : World :=
  {| appState := appState w;
     currentStoriesByTracker := <[id := stories]> (currentStoriesByTracker w);
     statusByTracker := statusByTracker w;
     pollingStopped := pollingStopped w;
     notifyCalls := notifyCalls w |}.

Definition stopPolling (w : World) : World :=
  {| appState := appState w;
     currentStoriesByTracker := currentStoriesByTracker w;
     statusByTracker := statusByTracker w;
     pollingStopped := true;
     notifyCalls := notifyCalls w |}.

Definition recordNotify (call : NotifyCall) (w : World) : World :=
  {| appState := appState w;
     currentStoriesByTracker := currentStoriesByTracker w;
     statusByTracker := statusByTracker w;
     pollingStopped := pollingStopped w;
     notifyCalls := notifyCalls w ++ [call] |}.

(** [formatError(error, fallback)]: every thrown value of the model is an
    [Error] object. *)
Definition formatError (error : JsError) (fallback : string) : string :=
  match error with
  | RallyAuthError message => message
  | Error message => message
  end.

(** The [catch] clause of [pollTracker]. *)
Definition pollFailed (id : string) (error : JsError) (w : World) : World :=
  if isAuthError error
  then stopPolling (setStatus id "Authentication failed. Update API key." w)
  else setStatus id (formatError error "Polling failed; retrying.") w.

Section WithRuntime.
Context `{JsRuntime}.

(** The state [pollTracker] works on after the scope check, and whether it
    is the very object stored in [appState.trackers] (so that assignments
    to its fields are seen there at once). *)
Definition workingState (tracker : TrackerConfig.t) (w : World)
  : TrackerPersistedState.t * bool :=
  let scopeKey := AppState.createScopeKey tracker in
  let fresh :=
    AppState.createFreshTrackerState scopeKey (TrackerConfig.iterationStartDate tracker) in
  match PersistedState.trackers (appState w) !! TrackerConfig.id tracker with
  | None => (fresh, false)
  | Some stored =>
      if negb (TrackerPersistedState.scopeKey stored =? scopeKey)%string
      then (fresh, false)
      else (stored, true)
  end.

(** [trackerState.cursor ?? tracker.iterationStartDate ?? new Date().toISOString()];
    the start date is a string, so the last alternative is never taken. *)
Definition pollCursor (tracker : TrackerConfig.t) (trackerState : TrackerPersistedState.t)
  : string :=
  default (TrackerConfig.iterationStartDate tracker) (TrackerPersistedState.cursor trackerState).

(** The assignments to [trackerState] made before the notification. *)
Definition recordPoll (scopeKey : string) (result : PollResult.t)
    (trackerState : TrackerPersistedState.t) : TrackerPersistedState.t :=
  let newChanges := PollResult.newChanges result in
  let merged := (0 <? length newChanges)%nat in
  {| TrackerPersistedState.scopeKey := scopeKey;
     TrackerPersistedState.cursor := Some (PollResult.cursor result);
     TrackerPersistedState.seenChangeIds :=
       if merged
       then TrackerPersistedState.seenChangeIds trackerState
              ++ map StoryChange.changeId newChanges
       else TrackerPersistedState.seenChangeIds trackerState;
     TrackerPersistedState.lastNotificationAt :=
       TrackerPersistedState.lastNotificationAt trackerState;
     TrackerPersistedState.history :=
       if merged
       then AppState.mergeHistory (TrackerPersistedState.history trackerState) newChanges
       else TrackerPersistedState.history trackerState;
     TrackerPersistedState.lastCheckedAt := Some (PollResult.cursor result);
     TrackerPersistedState.testingRequiredStories :=
       TrackerPersistedState.testingRequiredStories trackerState |}.

Definition withNotificationAt (at_ : string) (s : TrackerPersistedState.t)
  : TrackerPersistedState.t :=
  {| TrackerPersistedState.scopeKey := TrackerPersistedState.scopeKey s;
     TrackerPersistedState.cursor := TrackerPersistedState.cursor s;
     TrackerPersistedState.seenChangeIds := TrackerPersistedState.seenChangeIds s;
     TrackerPersistedState.lastNotificationAt := Some at_;
     TrackerPersistedState.history := TrackerPersistedState.history s;
     TrackerPersistedState.lastCheckedAt := TrackerPersistedState.lastCheckedAt s;
     TrackerPersistedState.testingRequiredStories :=
       TrackerPersistedState.testingRequiredStories s |}.

Definition withTestingRequired (stories : list TestingRequiredStoryRef.t)
    (s : TrackerPersistedState.t) : TrackerPersistedState.t :=
  {| TrackerPersistedState.scopeKey := TrackerPersistedState.scopeKey s;
     TrackerPersistedState.cursor := TrackerPersistedState.cursor s;
     TrackerPersistedState.seenChangeIds := TrackerPersistedState.seenChangeIds s;
     TrackerPersistedState.lastNotificationAt := TrackerPersistedState.lastNotificationAt s;
     TrackerPersistedState.history := TrackerPersistedState.history s;
     TrackerPersistedState.lastCheckedAt := TrackerPersistedState.lastCheckedAt s;
     TrackerPersistedState.testingRequiredStories := stories |}.

(** The end of the [try] block: the classification set is replaced, the
    state is stored and the status text is set. *)
Definition finishPoll (id : string) (result : PollResult.t)
    (currentTestingRequired : list TestingRequiredStoryRef.t)
    (trackerState : TrackerPersistedState.t) (w : World) : World :=
  let w := setTrackerState id (withTestingRequired currentTestingRequired trackerState) w in
  match PollResult.errors result with
  | Some (first :: _) => setStatus id first w
  | _ =>
      setStatus id
        ("Stories: " +:+ numberToString (Z.of_nat (length (PollResult.currentStories result)))
           +:+ ". Last poll " +:+ numberToString (PollResult.apiLatencyMs result) +:+ "ms.")
        w
  end.

(** The stories that entered and that left the classification. *)
Definition addedBetween (previous current : list TestingRequiredStoryRef.t)
  : list TestingRequiredStoryRef.t :=
  List.filter
    (fun story => negb (has (TestingRequiredStoryRef.storyObjectId story)
                          (byStoryObjectId previous)))
    current.

Definition removedBetween (previous current : list TestingRequiredStoryRef.t)
  : list TestingRequiredStoryRef.t :=
  List.filter
    (fun story => negb (has (TestingRequiredStoryRef.storyObjectId story)
                          (byStoryObjectId current)))
    previous.

(** [pollTracker(tracker)] *)
Definition pollTracker (env : Environment) (tracker : TrackerConfig.t) (w : World) : World :=
  let id := TrackerConfig.id tracker in
  let scopeKey := AppState.createScopeKey tracker in
  let '(trackerState, stored) := workingState tracker w in
  let config := configOf tracker (apiKey env) in
  let cursor := pollCursor tracker trackerState in
  match ChangeFetcher.fetchStoryChanges (service env) config cursor
          (list_to_set (TrackerPersistedState.seenChangeIds trackerState))
          (pollNow env) (apiLatencyMs env) with
  | Throw error => pollFailed id error w
  | Ok result =>
      let w := setCurrentStories id (PollResult.currentStories result) w in
      let currentTestingRequired :=
        map storyRef (getTestingRequiredStories (PollResult.currentStories result)) in
      let previousTestingRequired :=
        TrackerPersistedState.testingRequiredStories trackerState in
      let trackerState := recordPoll scopeKey result trackerState in
      let testingRequiredCountChanged :=
        negb (length currentTestingRequired =? length previousTestingRequired)%nat in
      if testingRequiredCountChanged then
        let call :=
          {| addedStories := addedBetween previousTestingRequired currentTestingRequired;
             removedStories := removedBetween previousTestingRequired currentTestingRequired |} in
        let w := recordNotify call w in
        match notifyError env with
        | Some error =>
            (* the assignments made so far are lost with a fresh object and
               kept by the stored one *)
            pollFailed id error (if stored then setTrackerState id trackerState w else w)
        | None =>
            finishPoll id result currentTestingRequired
              (withNotificationAt (toISOString (notifyNow env)) trackerState) w
        end
      else finishPoll id result currentTestingRequired trackerState w
  end.

End WithRuntime.
End Main.

(* ===================================================================== *)
(** * rallyClient.ts: the outcome of one attempt of [request] *)
(* ===================================================================== *)

Module Attempt.
Import RallyClient.
Section Attempt.
Context {T : Type}.
Context (JSON_parse : string -> option T).

(** The value [request] returns for the outcome of an attempt: the parsed
    body of a response with a status from 200 to 299. *)
Definition accepted (outcome : TransportOutcome) : option T :=
  match outcome with
  | Responds status body =>
      if (200 <=? status) && (status <? 300) then JSON_parse body else None
  | Fails _ => None
  end.

(** The error [request] throws for an outcome that is neither accepted nor
    an authentication failure. *)
Definition failure (outcome : TransportOutcome) : JsError :=
  match outcome with
  | Responds status body =>
      if (status <? 200) || (300 <=? status) then requestFailed status body
      else nonJsonBody status
  | Fails message => Error message
  end.
End Attempt.
End Attempt.

(* ===================================================================== *)
(** * notificationEngine.ts: the Teams channel *)
(* ===================================================================== *)

Module Teams.
Import NotificationEngine.

(** One call [postJson(webhookUrl, buildTeamsAdaptiveCardPayload(text))]
    made by [postTeamsMessage], which catches and logs whatever the call
    throws. *)
Record Post := { webhookUrl : string; text : string }.

(** [notifyTeamsTestingRequiredChange(addedStories, removedStories, teamsWebhookUrl)]:
    the posts attempted, in order. *)
Definition notifyTeamsTestingRequiredChange
    (addedStories removedStories : list TestingRequiredStoryRef.t)
    (teamsWebhookUrl : option string) : list Post :=
  match trim <$> teamsWebhookUrl with
  | None => []
  | Some url =>
      if negb (truthy url) then []
      else
        let messages :=
          map (fun story =>
                 TestingRequiredStoryRef.formattedId story +:+ " is ready for validation.")
            addedStories
          ++ map (fun story =>
                    TestingRequiredStoryRef.formattedId story
                      +:+ " is no longer ready for validation.")
               removedStories in
        if (length messages =? 0)%nat then []
        else if (5 <? length messages)%nat
        then
          let ids :=
            join ", " (map TestingRequiredStoryRef.formattedId
                         (slice (addedStories ++ removedStories) 0 (Some 5))) in
          [{| webhookUrl := url;
              text := "Testing required changed for: " +:+ ids
                        +:+ (if (5 <? length messages)%nat then ", ..." else "") |}]
        else map (fun message => {| webhookUrl := url; text := message |}) messages
  end.

(** The body text of a notification handed to the platform. *)
Definition bodyOf (dispatched : Dispatched) : string :=
  match dispatched with
  | WebNotification _ body _ => body
  | DesktopNotification _ body => body
  end.

End Teams.

(* ===================================================================== *)
(** * rallyClient.ts: the paged listings *)
(* ===================================================================== *)

(** [listProjectIterations] and [fetchStoriesForQuery] read the remote
    service page by page with the same loop.  The answer to the request for
    the page that starts at a given row is taken as it comes: the rows of
    [QueryResult.Results], or the error thrown by [wsapiGet]. *)
Module Paging.
Import RallyClient.

Definition pageSize : Z := 200.

(** The value of [start] in turn [i] of the loop, counted from 0. *)
Definition pageStart (i : nat) : Z := 1 + pageSize * Z.of_nat i.

Section Pages.
Context {Row Item : Type}.
Context (wsapiGet : Z -> Result (list Row)).
Context (toItem : Row -> Item).

(** The loop [while (true)], entered with [start] and the items pushed so
    far.  [fuel] bounds the number of turns; [None] means the bound was too
    small.  The second component lists the values of [start] requested. *)
Fixpoint pagesFrom (fuel : nat) (start : Z) (all : list Item)
  : option (Result (list Item) * list Z) :=
  match fuel with
  | O => None
  | S fuel' =>
      match wsapiGet start with
      | Throw error => Some (Throw error, [start])
      | Ok rows =>
          let all := all ++ map toItem rows in
          if Z.of_nat (length rows) <? pageSize then Some (Ok all, [start])
          else
            (* start += pageSize *)
            let next := start + pageSize in
            if 5001 <? next then Some (Ok all, [start])
            else match pagesFrom fuel' next all with
                 | Some (result, starts) => Some (result, start :: starts)
                 | None => None
                 end
      end
  end.

(** The items of page [i], none when the request for it fails. *)
Definition itemsOf (i : nat) : list Item :=
  match wsapiGet (pageStart i) with
  | Ok rows => map toItem rows
  | Throw _ => []
  end.
End Pages.

Module IterationRow.
Record t := mk {
  ObjectID : Z;
  Name : string;
  StartDate : option string;
  EndDate : option string
}.
End IterationRow.

(** [listProjectIterations(projectOid)] over the pages of the project. *)
Definition listProjectIterations (wsapiGet : Z -> Result (list IterationRow.t))
  : option (Result (list IterationOption.t) * list Z) :=
  pagesFrom wsapiGet
    (fun iteration =>
       {| IterationOption.objectId := numberToString (IterationRow.ObjectID iteration);
          IterationOption.name := IterationRow.Name iteration;
          IterationOption.projectName := None;
          IterationOption.startDate := IterationRow.StartDate iteration;
          IterationOption.endDate := IterationRow.EndDate iteration |})
    26 1 [].

Module StoryRow.
Record t := mk {
  ObjectID : Z;
  FormattedID : string;
  Name : string;
  Owner : JsValue;
  Status : JsValue;
  Ready : JsValue;
  ScheduleState : option string;
  (** [story.Project?.Name] *)
  Project_Name : option string
}.
End StoryRow.

(** [fetchStoriesForQuery(projectOid, query)] over the pages of the query.
    The helpers [extractOwnerName], [extractStatusName] and
    [extractReadyFlag] of rallyClient.ts are the ones of changeFetcher.ts,
    word for word. *)
Definition fetchStoriesForQuery (baseUrl : string)
    (wsapiGet : Z -> Result (list StoryRow.t))
  : option (Result (list SprintStory.t) * list Z) :=
  pagesFrom wsapiGet
    (fun story =>
       {| SprintStory.storyObjectId := StoryRow.ObjectID story;
          SprintStory.formattedId := StoryRow.FormattedID story;
          SprintStory.name := StoryRow.Name story;
          SprintStory.ownerName := ChangeFetcher.extractOwnerName (StoryRow.Owner story);
          SprintStory.statusName := ChangeFetcher.extractStatusName (StoryRow.Status story);
          SprintStory.ready := ChangeFetcher.extractReadyFlag (StoryRow.Ready story);
          SprintStory.scheduleState := StoryRow.ScheduleState story;
          SprintStory.projectName := default "Unknown Project" (StoryRow.Project_Name story);
          SprintStory.url := baseUrl +:+ "/#/detail/userstory/"
                               +:+ numberToString (StoryRow.ObjectID story) |})
    26 1 [].

End Paging.

(* ===================================================================== *)
(** * appState.ts: reading the stored documents *)
(* ===================================================================== *)

Module Storage.

(** [StoredTracker]: in appState.ts a tracker configuration also carries
    the optional [teamsWebhookUrl]. *)
Module StoredTracker.
Record t := mk {
  config : TrackerConfig.t;
  teamsWebhookUrl : option string
}.
End StoredTracker.

(** [Partial<StoredTracker>]: a parsed entry of the stored tracker list,
    with the types the source declares for it; every field may be
    missing. *)
Module PartialTracker.
Record t := mk {
  id : option string;
  name : option string;
  projectNames : option (list string);
  createdAt : option string;
  baseUrl : option string;
  teamsWebhookUrl : option string;
  workspaceOid : option string;
  projectOids : option (list string);
  iterationOid : option string;
  iterationName : option string;
  iterationStartDate : option string;
  pollIntervalMinutes : option Z;
  timezone : option string
}.
End PartialTracker.

(** [DEFAULT_CONFIG.baseUrl] *)
Definition DEFAULT_baseUrl : string := "https://rally1.rallydev.com".

(** [value || fallback] on an optional string. *)
Definition orElse (value : option string) (fallback : string) : string :=
  match value with
  | Some s => if truthy s then s else fallback
  | None => fallback
  end.

(** [typeof value === "string" && value.trim().length > 0] *)
Definition nonBlank (value : string) : bool := (0 <? String.length (trim value))%nat.

(** [hydrateTracker(tracker, index)].  [now] is the reading of [new Date()]
    and [timezone] the value of [DEFAULT_CONFIG.timezone], which the host
    resolves. *)
Definition hydrateTracker (now : Z) (timezone : string)
    (tracker : PartialTracker.t) (index : Z) : option StoredTracker.t :=
  if negb (truthy (default "" (PartialTracker.workspaceOid tracker)))
     || negb (truthy (default "" (PartialTracker.iterationOid tracker)))
  then None
  else
    let projectOids := default [] (PartialTracker.projectOids tracker) in
    if (length projectOids =? 0)%nat then None
    else
      let projectNames :=
        match PartialTracker.projectNames tracker with
        | Some names => List.filter nonBlank names
        | None => []
        end in
      Some
        {| StoredTracker.config :=
             {| TrackerConfig.id :=
                  orElse (PartialTracker.id tracker)
                    ("trk_legacy_" +:+ numberToString index);
                TrackerConfig.name :=
                  match PartialTracker.name tracker with
                  | Some name =>
                      if nonBlank name then name
                      else orElse (PartialTracker.iterationName tracker)
                             ("Sprint " +:+ numberToString (index + 1))
                  | None =>
                      orElse (PartialTracker.iterationName tracker)
                        ("Sprint " +:+ numberToString (index + 1))
                  end;
                TrackerConfig.projectNames := projectNames;
                TrackerConfig.createdAt :=
                  orElse (PartialTracker.createdAt tracker) (toISOString now);
                TrackerConfig.baseUrl := orElse (PartialTracker.baseUrl tracker) DEFAULT_baseUrl;
                TrackerConfig.workspaceOid := default "" (PartialTracker.workspaceOid tracker);
                TrackerConfig.projectOids := projectOids;
                TrackerConfig.iterationOid := default "" (PartialTracker.iterationOid tracker);
                TrackerConfig.iterationName := orElse (PartialTracker.iterationName tracker) "";
                TrackerConfig.iterationStartDate :=
                  orElse (PartialTracker.iterationStartDate tracker) "";
                TrackerConfig.pollIntervalMinutes :=
                  match PartialTracker.pollIntervalMinutes tracker with
                  | Some minutes => if (minutes =? 1) || (minutes =? 10) then minutes else 5
                  | None => 5
                  end;
                TrackerConfig.timezone := orElse (PartialTracker.timezone tracker) timezone |};
           StoredTracker.teamsWebhookUrl :=
             match PartialTracker.teamsWebhookUrl tracker with
             | Some url => if nonBlank url then Some (trim url) else None
             | None => None
             end |}.

(** What [JSON.parse] reads back of the entry that [saveTrackers] writes
    for a tracker: every field is present but a webhook URL that is
    [undefined]. *)
Definition savedTracker (tracker : StoredTracker.t) : PartialTracker.t :=
  let config := StoredTracker.config tracker in
  {| PartialTracker.id := Some (TrackerConfig.id config);
     PartialTracker.name := Some (TrackerConfig.name config);
     PartialTracker.projectNames := Some (TrackerConfig.projectNames config);
     PartialTracker.createdAt := Some (TrackerConfig.createdAt config);
     PartialTracker.baseUrl := Some (TrackerConfig.baseUrl config);
     PartialTracker.teamsWebhookUrl := StoredTracker.teamsWebhookUrl tracker;
     PartialTracker.workspaceOid := Some (TrackerConfig.workspaceOid config);
     PartialTracker.projectOids := Some (TrackerConfig.projectOids config);
     PartialTracker.iterationOid := Some (TrackerConfig.iterationOid config);
     PartialTracker.iterationName := Some (TrackerConfig.iterationName config);
     PartialTracker.iterationStartDate := Some (TrackerConfig.iterationStartDate config);
     PartialTracker.pollIntervalMinutes := Some (TrackerConfig.pollIntervalMinutes config);
     PartialTracker.timezone := Some (TrackerConfig.timezone config) |}.

(** One turn of the loop of [sanitizeTestingRequiredStories]: [None]
    stands for [continue]. *)
Definition sanitizeStoryRef `{JsRuntime} (item : JsValue) : option TestingRequiredStoryRef.t :=
  match item with
  | JsObject record =>
      let formattedId :=
        match getProp "formattedId" record with
        | JsString s => trim s
        | _ => ""
        end in
      match toFiniteNumber (getProp "storyObjectId" record) with
      | Some storyObjectId =>
          if (String.length formattedId =? 0)%nat then None
          else Some {| TestingRequiredStoryRef.storyObjectId := storyObjectId;
                       TestingRequiredStoryRef.formattedId := formattedId |}
      | None => None
      end
  | _ => None
  end.

(** [sanitizeTestingRequiredStories(value)] *)
Definition sanitizeTestingRequiredStories `{JsRuntime} (value : JsValue)
  : list TestingRequiredStoryRef.t :=
  match value with
  | JsArray items => omap sanitizeStoryRef items
  | _ => []
  end.

(** What [JSON.parse] reads back of a classification set written by
    [savePersistedState]. *)
Definition savedStoryRef (story : TestingRequiredStoryRef.t) : JsValue :=
  JsObject [("storyObjectId", JsNumber (TestingRequiredStoryRef.storyObjectId story));
            ("formattedId", JsString (TestingRequiredStoryRef.formattedId story))].

Definition savedStoryRefs (stories : list TestingRequiredStoryRef.t) : JsValue :=
  JsArray (map savedStoryRef stories).

End Storage.

(* ===================================================================== *)
(** * main.ts: the status line and the polling pass *)
(* ===================================================================== *)

Module Status.

(** [canonicalScheduleState(scheduleState)] *)
Definition canonicalScheduleState (scheduleState : option string) : string :=
  let normalized :=
    Main.replaceSeparators false (toLowerCase (trim (default "" scheduleState))) in
  if (normalized =? "backlogged")%string then "Backlogged"
  else if (normalized =? "defined")%string then "Defined"
  else if (normalized =? "in-progress")%string then "In-Progress"
  else if (normalized =? "completed")%string then "Completed"
  else if (normalized =? "accepted")%string then "Accepted"
  else "Unknown".

Definition states : list string :=
  ["Backlogged"; "Defined"; "In-Progress"; "Completed"; "Accepted"; "Unknown"].

(** The map [counts] of [summarizeProjectStatus] after its two loops. *)
Definition countStates (stories : list SprintStory.t) : list (string * Z) :=
  let counts : list (string * Z) :=
    fold_left (fun counts state => mapSet state 0 counts) states [] in
  fold_left
    (fun counts story =>
       let state := canonicalScheduleState (SprintStory.scheduleState story) in
       mapSet state (default 0 (mapGet state counts) + 1) counts)
    stories counts.

(** [summarizeProjectStatus(stories)] *)
Definition summarizeProjectStatus (stories : list SprintStory.t) : string :=
  if (length stories =? 0)%nat then "Project status: Waiting for stories"
  else
    let counts := countStates stories in
    let breakdown :=
      join " | "
        (map (fun state =>
                state +:+ ": " +:+ numberToString (default 0 (mapGet state counts)))
           states) in
    "Stories: " +:+ numberToString (Z.of_nat (length stories)) +:+ " | " +:+ breakdown.

End Status.

Module Scheduler.

(** The module-level state that a polling pass touches. *)
Record State := {
  world : Main.World;
  lastPollByTracker : gmap string Z;
  pollInFlight : bool;
  (** the document that [localStorage] holds under [APP_STORAGE_KEY] *)
  savedState : option PersistedState.t
}.

(** What the surroundings answer during one pass. *)
Record Pass := {
  (** [Date.now()] at the start of the pass *)
  passNow : Z;
  (** the surroundings of the poll of each tracker *)
  environmentOf : TrackerConfig.t -> Main.Environment;
  (** [Date.now()] after the poll of each tracker *)
  polledAt : TrackerConfig.t -> Z;
  (** [Date.now()] in [savePersistedState] *)
  savedAt : Z
}.

(** The surroundings of a poll, with the module-level [apiKey]. *)
Definition withApiKey (apiKey : string) (env : Main.Environment) : Main.Environment :=
  {| Main.service := Main.service env;
     Main.apiKey := apiKey;
     Main.pollNow := Main.pollNow env;
     Main.apiLatencyMs := Main.apiLatencyMs env;
     Main.notifyError := Main.notifyError env;
     Main.notifyNow := Main.notifyNow env |}.

Section WithRuntime.
Context `{JsRuntime}.

(** One turn of the loop [for (const tracker of trackers)]. *)
Definition pollIfDue (force : bool) (apiKey : string) (pass : Pass)
    (s : State) (tracker : TrackerConfig.t) : State :=
  let lastPollAt := default 0 (lastPollByTracker s !! TrackerConfig.id tracker) in
  let dueMs := TrackerConfig.pollIntervalMinutes tracker * 60 * 1000 in
  if negb force && (passNow pass - lastPollAt <? dueMs) then s
  else
    {| world := Main.pollTracker (withApiKey apiKey (environmentOf pass tracker)) tracker
                  (world s);
       lastPollByTracker :=
         <[TrackerConfig.id tracker := polledAt pass tracker]> (lastPollByTracker s);
       pollInFlight := pollInFlight s;
       savedState := savedState s |}.

(** [pollDueTrackers(force)], without the rendering. *)
Definition pollDueTrackers (force : bool) (apiKey : string)
    (trackers : list TrackerConfig.t) (pass : Pass) (s : State) : State :=
  if pollInFlight s || (length trackers =? 0)%nat || negb (truthy apiKey) then s
  else
    let started :=
      {| world := world s;
         lastPollByTracker := lastPollByTracker s;
         pollInFlight := true;
         savedState := savedState s |} in
    let polled := fold_left (pollIfDue force apiKey pass) trackers started in
    {| world := world polled;
       lastPollByTracker := lastPollByTracker polled;
       pollInFlight := false;
       savedState :=
         Some (AppState.savePersistedState (savedAt pass) (Main.appState (world polled))) |}.

End WithRuntime.
End Scheduler.

(* ===================================================================== *)
(** * Reading base-36 numerals *)
(* ===================================================================== *)

Module Numerals.

(** [parseInt(s, 36)] of a string of digits and lower-case letters. *)
Definition parseInt36 (s : string) : Z :=
  fold_left (fun acc code => acc * 36 + (if code <? 58 then code - 48 else code - 87))
    (charCodes s) 0.

End Numerals.

(* ===================================================================== *)
(** * main.ts: escaping and the active tracker *)
(* ===================================================================== *)

Module Html.

(** [s.replace(/c/g, replacement)] for a single character [c]. *)
Fixpoint replaceAll (c : ascii) (replacement : string) (s : string) : string :=
  match s with
  | EmptyString => EmptyString
  | String x rest =>
      if Ascii.eqb x c then replacement +:+ replaceAll c replacement rest
      else String x (replaceAll c replacement rest)
  end.

(** [escapeHtml(value)] *)
Definition escapeHtml (value : string) : string :=
  replaceAll "'" "&#039;"
    (replaceAll (ascii_of_N 34) "&quot;"
       (replaceAll ">" "&gt;"
          (replaceAll "<" "&lt;"
             (replaceAll "&" "&amp;" value)))).

(** [escapeAttribute(value)] *)
Definition escapeAttribute (value : string) : string := escapeHtml value.

End Html.

Module ActiveTracker.

(** [ensureActiveTracker()]: the value of [appState.activeTrackerId]
    afterwards. *)
Definition ensureActiveTracker (trackers : list TrackerConfig.t)
    (activeTrackerId : option string) : option string :=
  match trackers with
  | [] => None
  | first :: _ =>
      let activeId := default "" activeTrackerId in
      if negb (truthy activeId)
         || negb (existsb (fun tracker => (TrackerConfig.id tracker =? activeId)%string)
                    trackers)
      then Some (TrackerConfig.id first)
      else activeTrackerId
  end.

(** [getActiveTracker()] *)
Definition getActiveTracker (trackers : list TrackerConfig.t)
    (activeTrackerId : option string) : option TrackerConfig.t :=
  match activeTrackerId with
  | Some activeId =>
      if negb (truthy activeId) then None
      else find (fun tracker => (TrackerConfig.id tracker =? activeId)%string) trackers
  | None => None
  end.

End ActiveTracker.

(* ===================================================================== *)
(** * A runtime for the examples *)
(* ===================================================================== *)

(** The instance agrees with the language on the timestamps written by
    [toISOString] with a four-digit year and on decimal integers; elsewhere
    it answers NaN, which the language does not always do.  It serves to
    evaluate the model on concrete inputs; no property below depends on
    it. *)
Module IsoRuntime.

Fixpoint allDigits (s : string) : bool :=
  match s with
  | EmptyString => true
  | String c rest => ChangeFetcher.isDigit c && allDigits rest
  end.

Definition number (s : string) : option Z :=
  if allDigits s && truthy s then Some (ChangeFetcher.decimalValue s) else None.

Definition charAt (i : nat) (s : string) : string := substring i 1 s.

Definition parse (s : string) : option Z :=
  if (String.length s =? 24)%nat
     && (charAt 4 s =? "-")%string && (charAt 7 s =? "-")%string
     && (charAt 10 s =? "T")%string && (charAt 13 s =? ":")%string
     && (charAt 16 s =? ":")%string && (charAt 19 s =? ".")%string
     && (charAt 23 s =? "Z")%string
  then
    y ← number (substring 0 4 s);
    m ← number (substring 5 2 s);
    d ← number (substring 8 2 s);
    hh ← number (substring 11 2 s);
    mm ← number (substring 14 2 s);
    ss ← number (substring 17 2 s);
    ms ← number (substring 20 3 s);
    let days := daysFromCivil y m d in
    if (1 <=? m) && (m <=? 12) && (1 <=? d)
       && bool_decide (civilFromDays days = (y, m, d))
       && (hh <=? 23) && (mm <=? 59) && (ss <=? 59)
    then Some (days * msPerDay + hh * 3600000 + mm * 60000 + ss * 1000 + ms)
    else None
  else None.

(** Decimal integers with an optional sign, white space around them
    ignored, and 0 for the blank string. *)
Definition signedNumber (s : string) : option Z :=
  match trim s with
  | EmptyString => Some 0
  | String "-" rest => Z.opp <$> number rest
  | String "+" rest => number rest
  | digits => number digits
  end.

Definition runtime : JsRuntime :=
  {| Date_parse := parse;
     stringToNumber := signedNumber;
     localeCompare := compareStrings |}.

End IsoRuntime.

(* ===================================================================== *)
(** * Inputs for the examples *)
(* ===================================================================== *)

Module Examples.
Import RallyClient.

Definition sprintStart : string := "2024-03-01T00:00:00.000Z".

Definition trackerOf (workspaceOid : string) (projectOids : list string)
    (iterationOid : string) : TrackerConfig.t :=
  {| TrackerConfig.id := "trk_1";
     TrackerConfig.name := "Sprint 12";
     TrackerConfig.projectNames := ["Platform"];
     TrackerConfig.createdAt := "2024-02-28T09:00:00.000Z";
     TrackerConfig.baseUrl := "https://rally1.rallydev.com";
     TrackerConfig.workspaceOid := workspaceOid;
     TrackerConfig.projectOids := projectOids;
     TrackerConfig.iterationOid := iterationOid;
     TrackerConfig.iterationName := "Sprint 12";
     TrackerConfig.iterationStartDate := sprintStart;
     TrackerConfig.pollIntervalMinutes := 5;
     TrackerConfig.timezone := "UTC" |}.

Definition tracker : TrackerConfig.t := trackerOf "41529001" ["7001"] "9001".

Definition config : Config.t := Main.configOf tracker "key".

Definition iteration : IterationOption.t :=
  {| IterationOption.objectId := "9001";
     IterationOption.name := "Sprint 12";
     IterationOption.projectName := None;
     IterationOption.startDate := Some sprintStart;
     IterationOption.endDate := None |}.

Definition story (storyObjectId : Z) (formattedId : string) (ready : bool)
    (scheduleState : string) : SprintStory.t :=
  {| SprintStory.storyObjectId := storyObjectId;
     SprintStory.formattedId := formattedId;
     SprintStory.name := "Story " +:+ formattedId;
     SprintStory.ownerName := None;
     SprintStory.statusName := None;
     SprintStory.ready := Some ready;
     SprintStory.scheduleState := Some scheduleState;
     SprintStory.projectName := "Platform";
     SprintStory.url := "https://rally1.rallydev.com/#/detail/userstory/"
                          +:+ numberToString storyObjectId |}.

(** A feed record with the fields the extractor reads first. *)
Definition record (objectId : Z) (validFrom : string) (previous : list (string * JsValue))
  : Snapshot :=
  [("ObjectID", JsNumber objectId); ("_ValidFrom", JsString validFrom);
   ("_PreviousValues", JsObject previous)].

(** A service that holds [stories] in the sprint and answers every feed
    query with [feed]. *)
Definition service (stories : list SprintStory.t) (feed : list Snapshot) : Service :=
  {| listProjectIterations := fun _ => Ok [iteration];
     fetchStoriesForQuery := fun _ _ => Ok stories;
     postSnapshotQuery := fun _ _ => Ok feed;
     queryStoryMetadata := fun _ => Ok ∅;
     queryProjectNames := fun _ => Ok ∅ |}.

Definition changedAt : string := "2024-03-01T10:00:00.000Z".

(** Two records of one story and one instant whose previous-values maps
    hold the same two fields in opposite orders. *)
Definition nameThenOwner : Snapshot :=
  record 501 changedAt [("Name", JsString "Old title"); ("Owner", JsNull)].

Definition ownerThenName : Snapshot :=
  record 501 changedAt [("Owner", JsNull); ("Name", JsString "Old title")].

(** A record whose previous-values map also holds a key that starts with
    an underscore. *)
Definition withUnderscoreKey : Snapshot :=
  record 502 changedAt
    [("_ValidTo", JsString "9999-01-01T00:00:00.000Z"); ("ScheduleState", JsString "Defined")].

Definition poll (feed : list Snapshot) : Result PollResult.t :=
  @ChangeFetcher.fetchStoryChanges IsoRuntime.runtime (service [] feed) config sprintStart ∅
    1709290800000 120.

(** The changes of a poll, none when it throws. *)
Definition changesOf (feed : list Snapshot) : list StoryChange.t :=
  match poll feed with
  | Ok result => PollResult.newChanges result
  | Throw _ => []
  end.

Definition change (changeId changedAt : string) : StoryChange.t :=
  {| StoryChange.changeId := changeId;
     StoryChange.storyObjectId := 501;
     StoryChange.formattedId := "US501";
     StoryChange.name := "Story 501";
     StoryChange.ownerName := None;
     StoryChange.statusName := None;
     StoryChange.ready := None;
     StoryChange.scheduleState := None;
     StoryChange.scheduleStateFrom := None;
     StoryChange.scheduleStateTo := None;
     StoryChange.projectName := "Platform";
     StoryChange.changedAt := changedAt;
     StoryChange.changedFields := ["Name"];
     StoryChange.changedBy := None;
     StoryChange.url := "https://rally1.rallydev.com/#/detail/userstory/501" |}.

Definition older : StoryChange.t := change "a1" "2024-03-01T10:00:00.000Z".
Definition newer : StoryChange.t := change "b2" "2024-03-01T11:00:00.000Z".

Definition ref (storyObjectId : Z) (formattedId : string) : TestingRequiredStoryRef.t :=
  {| TestingRequiredStoryRef.storyObjectId := storyObjectId;
     TestingRequiredStoryRef.formattedId := formattedId |}.

Definition grantedPlatform : NotificationEngine.Platform :=
  {| NotificationEngine.isTauriAvailable := true;
     NotificationEngine.webPermission := None;
     NotificationEngine.webRequestPermission := NotificationEngine.denied;
     NotificationEngine.isPermissionGranted := true;
     NotificationEngine.requestPermission := NotificationEngine.granted |}.

Definition engine : NotificationEngine.t := {| NotificationEngine.permissionReady := false |}.

(** A state kept for another sprint of the same tracker. *)
Definition staleState : TrackerPersistedState.t :=
  {| TrackerPersistedState.scopeKey := "41529001|7001|8000";
     TrackerPersistedState.cursor := Some "2024-02-20T12:00:00.000Z";
     TrackerPersistedState.seenChangeIds := ["a1"];
     TrackerPersistedState.lastNotificationAt := Some "2024-02-20T12:00:00.000Z";
     TrackerPersistedState.history := [older];
     TrackerPersistedState.lastCheckedAt := Some "2024-02-20T12:00:00.000Z";
     TrackerPersistedState.testingRequiredStories := [ref 400 "US400"] |}.

(** A state kept for the sprint of [tracker]. *)
Definition currentState : TrackerPersistedState.t :=
  {| TrackerPersistedState.scopeKey := "41529001|7001|9001";
     TrackerPersistedState.cursor := Some "2024-03-01T10:00:00.000Z";
     TrackerPersistedState.seenChangeIds := ["a1"];
     TrackerPersistedState.lastNotificationAt := None;
     TrackerPersistedState.history := [older];
     TrackerPersistedState.lastCheckedAt := Some "2024-03-01T10:00:00.000Z";
     TrackerPersistedState.testingRequiredStories := [ref 400 "US400"] |}.

(** The same state with story 400 listed twice in its classification
    set, as a stored document can hold it. *)
Definition duplicatedState : TrackerPersistedState.t :=
  Main.withTestingRequired [ref 400 "US400"; ref 400 "US400"] currentState.

Definition world (stored : option TrackerPersistedState.t) : Main.World :=
  {| Main.appState :=
       {| PersistedState.activeTrackerId := Some "trk_1";
          PersistedState.trackers :=
            match stored with
            | Some state => {[ "trk_1" := state ]}
            | None => ∅
            end |};
     Main.currentStoriesByTracker := ∅;
     Main.statusByTracker := ∅;
     Main.pollingStopped := false;
     Main.notifyCalls := [] |}.

Definition environment (stories : list SprintStory.t) (feed : list Snapshot)
  : Main.Environment :=
  {| Main.service := service stories feed;
     Main.apiKey := "key";
     Main.pollNow := 1709290800000;
     Main.apiLatencyMs := 120;
     Main.notifyError := None;
     Main.notifyNow := 1709290800500 |}.

End Examples.

(* ===================================================================== *)
(** * Further inputs for the examples *)
(* ===================================================================== *)

Module Scenarios.
Import RallyClient.




(** Two trackers: [trk_1] with a state of its sprint, [trk_2] with the
    state of another one. *)
Definition twoTrackers : Main.World :=
  {| Main.appState :=
       {| PersistedState.activeTrackerId := Some "trk_2";
          PersistedState.trackers :=
            <["trk_2" := Examples.staleState]> {[ "trk_1" := Examples.currentState ]} |};
     Main.currentStoriesByTracker := ∅;
     Main.statusByTracker := {[ "trk_2" := "Stories: 0. Last poll 80ms." ]};
     Main.pollingStopped := false;
     Main.notifyCalls := [] |}.

Definition sprintOf (objectId name startDate : string) : IterationOption.t :=
  {| IterationOption.objectId := objectId;
     IterationOption.name := name;
     IterationOption.projectName := None;
     IterationOption.startDate := Some startDate;
     IterationOption.endDate := None |}.

(** Project 7001 holds the sprint 9001.  Project 7002 holds a sprint of the
    same name and start day under the id 9100, one of the same name that
    starts a day later and one of another name.  The queries by sprint id
    find no story; the query by sprint name finds story 601 in each
    project. *)
Definition twoProjects : Service :=
  {| listProjectIterations := fun projectOid =>
       if (projectOid =? "7001")%string
       then Ok [sprintOf "9001" "Sprint 12" Examples.sprintStart]
       else Ok [sprintOf "9100" " sprint 12" "2024-03-01T08:00:00.000Z";
                sprintOf "9200" "Sprint 12" "2024-03-02T00:00:00.000Z";
                sprintOf "9300" "Sprint 13" Examples.sprintStart];
     fetchStoriesForQuery := fun projectOid query =>
       if startsWith "(Iteration.Name = " query
       then Ok [Examples.story 601 "US601" true "Defined"]
       else Ok [];
     postSnapshotQuery := fun _ _ => Ok [];
     queryStoryMetadata := fun _ => Ok ∅;
     queryProjectNames := fun _ => Ok ∅ |}.

Definition storyRow (objectId : Z) : Paging.StoryRow.t :=
  {| Paging.StoryRow.ObjectID := objectId;
     Paging.StoryRow.FormattedID := "US" +:+ numberToString objectId;
     Paging.StoryRow.Name := "Story";
     Paging.StoryRow.Owner := JsObject [("_refObjectName", JsString "Dana")];
     Paging.StoryRow.Status := JsNull;
     Paging.StoryRow.Ready := JsBool true;
     Paging.StoryRow.ScheduleState := Some "In-Progress";
     Paging.StoryRow.Project_Name := None |}.

(** The pages of a query that matches 203 stories. *)
Definition storyPages (start : Z) : Result (list Paging.StoryRow.t) :=
  if start =? 1 then Ok (map (fun i => storyRow (Z.of_nat i)) (seq 1 200))
  else if start =? 201 then Ok (map (fun i => storyRow (Z.of_nat i)) (seq 201 3))
  else Ok [].

(** An entry of the stored tracker list written by an older version: no
    id, a blank name, a poll interval that is no longer offered and a
    webhook URL with white space around it. *)
Definition olderEntry : Storage.PartialTracker.t :=
  {| Storage.PartialTracker.id := None;
     Storage.PartialTracker.name := Some "  ";
     Storage.PartialTracker.projectNames := Some ["Platform"; " "];
     Storage.PartialTracker.createdAt := None;
     Storage.PartialTracker.baseUrl := None;
     Storage.PartialTracker.teamsWebhookUrl := Some " https://example.webhook.office.com/hook ";
     Storage.PartialTracker.workspaceOid := Some "41529001";
     Storage.PartialTracker.projectOids := Some ["7001"];
     Storage.PartialTracker.iterationOid := Some "9001";
     Storage.PartialTracker.iterationName := Some "Sprint 12";
     Storage.PartialTracker.iterationStartDate := None;
     Storage.PartialTracker.pollIntervalMinutes := Some 7;
     Storage.PartialTracker.timezone := None |}.

(** A second tracker, on another sprint of the same project. *)
Definition secondTracker : TrackerConfig.t :=
  {| TrackerConfig.id := "trk_2";
     TrackerConfig.name := "Sprint 11";
     TrackerConfig.projectNames := ["Platform"];
     TrackerConfig.createdAt := "2024-02-14T09:00:00.000Z";
     TrackerConfig.baseUrl := "https://rally1.rallydev.com";
     TrackerConfig.workspaceOid := "41529001";
     TrackerConfig.projectOids := ["7001"];
     TrackerConfig.iterationOid := "8000";
     TrackerConfig.iterationName := "Sprint 11";
     TrackerConfig.iterationStartDate := "2024-02-16T00:00:00.000Z";
     TrackerConfig.pollIntervalMinutes := 1;
     TrackerConfig.timezone := "UTC" |}.

(** A pass that starts at 11:00:00; the poll of a tracker ends half a
    second later. *)
Definition pass : Scheduler.Pass :=
  {| Scheduler.passNow := 1709290800000;
     Scheduler.environmentOf := fun _ =>
       Examples.environment [Examples.story 501 "US501" true "In-Progress"] [];
     Scheduler.polledAt := fun _ => 1709290800500;
     Scheduler.savedAt := 1709290800600 |}.

(** Between two passes: [trk_1] was polled two minutes before the pass
    above, [trk_2] never. *)
Definition idle : Scheduler.State :=
  {| Scheduler.world := twoTrackers;
     Scheduler.lastPollByTracker := {[ "trk_1" := 1709290680000 ]};
     Scheduler.pollInFlight := false;
     Scheduler.savedState := None |}.

End Scenarios.

(* ===================================================================== *)
(** * Facts about the built-ins *)
(* ===================================================================== *)

Lemma bind_Ok {A B} (r : Result A) (k : A -> Result B) (b : B) :
  bind r k = Ok b -> exists a, r = Ok a /\ k a = Ok b.
Proof. destruct r as [a|e]; cbn; [eauto | discriminate]. Qed.

Lemma compareStrings_refl (s : string) : compareStrings s s = 0.
Proof.
  induction s as [|c s IH]; cbn; [reflexivity|].
  rewrite Z.ltb_irrefl. exact IH.
Qed.

(** [slice(-n)] keeps the last [n] elements. *)
Lemma slice_last {A} (l : list A) (n : Z) :
  0 < n -> slice l (- n) None = skipn (length l - Z.to_nat n) l.
Proof.
  intros Hn. unfold slice, relativeIndex.
  assert ((- n <? 0) = true) as -> by (apply Z.ltb_lt; lia).
  set (len := Z.of_nat (length l)).
  assert (Z.to_nat (Z.max (len + - n) 0) = (length l - Z.to_nat n)%nat) as ->
    by (subst len; lia).
  apply firstn_all2. rewrite length_skipn. subst len. lia.
Qed.

(** [slice(0, n)] keeps the first [n] elements. *)
Lemma slice_prefix {A} (l : list A) (n : nat) :
  slice l 0 (Some (Z.of_nat n)) = firstn n l.
Proof.
  unfold slice, relativeIndex.
  assert ((Z.of_nat n <? 0) = false) as -> by (apply Z.ltb_ge; lia).
  assert ((0 <? 0) = false) as -> by reflexivity.
  assert (Z.to_nat (Z.min 0 (Z.of_nat (length l))) = 0%nat) as -> by lia.
  assert (Z.to_nat (Z.max (Z.min (Z.of_nat n) (Z.of_nat (length l))
                           - Z.min 0 (Z.of_nat (length l))) 0)
          = Nat.min n (length l)) as -> by lia.
  change (skipn 0 l) with l.
  destruct (Nat.le_gt_cases n (length l)) as [Hle|Hgt].
  - rewrite Nat.min_l by lia. reflexivity.
  - rewrite Nat.min_r by lia. rewrite firstn_all. symmetry. apply firstn_all2. lia.
Qed.

Section SortFacts.
Context {A : Type} (compareFn : A -> A -> option Z).

Lemma insertSorted_perm (x : A) (l : list A) :
  Permutation (insertSorted compareFn x l) (x :: l).
Proof.
  induction l as [|y l IH]; cbn; [reflexivity|].
  destruct (after compareFn x y); [|reflexivity].
  rewrite IH. apply perm_swap.
Qed.

(** Sorting rearranges. *)
Lemma sort_perm (l : list A) : Permutation (sort compareFn l) l.
Proof.
  induction l as [|x l IH]; cbn; [reflexivity|].
  rewrite insertSorted_perm. constructor. exact IH.
Qed.

(** A list in which no element has to come after its successor is left
    as it is. *)
Lemma sort_sorted (l : list A) :
  Sorted (fun a b => after compareFn a b = false) l -> sort compareFn l = l.
Proof.
  induction 1 as [|x l Hl IH Hhd]; [reflexivity|].
  cbn [sort]. rewrite IH.
  destruct Hhd as [|y l Hxy]; [reflexivity|].
  cbn [insertSorted]. rewrite Hxy. reflexivity.
Qed.
End SortFacts.

Section OrderedMapFacts.
Context {K V : Type} `{EqDecision K}.
Implicit Types (m : list (K * V)) (k : K) (v : V).

Lemma mapGet_mapSet k k' v m :
  mapGet k' (mapSet k v m) = if decide (k = k') then Some v else mapGet k' m.
Proof.
  induction m as [|[k0 v0] m IH]; cbn.
  - destruct (decide (k = k')); reflexivity.
  - destruct (decide (k0 = k)) as [->|Hne]; cbn.
    + destruct (decide (k = k')); reflexivity.
    + destruct (decide (k0 = k')) as [->|Hne'].
      * destruct (decide (k = k')); [congruence|reflexivity].
      * exact IH.
Qed.

Lemma mapKeys_mapSet k v m :
  mapKeys (mapSet k v m)
  = if bool_decide (k ∈ mapKeys m) then mapKeys m else mapKeys m ++ [k].
Proof.
  induction m as [|[k0 v0] m IH]; cbn; [reflexivity|].
  destruct (decide (k0 = k)) as [->|Hne]; cbn.
  - rewrite bool_decide_eq_true_2 by (left). reflexivity.
  - unfold mapKeys in *. rewrite IH.
    destruct (bool_decide (k ∈ map fst m)) eqn:Hin.
    + rewrite bool_decide_eq_true_2; [reflexivity|].
      apply bool_decide_eq_true_1 in Hin. right. exact Hin.
    + rewrite bool_decide_eq_false_2; [reflexivity|].
      apply bool_decide_eq_false_1 in Hin. intros Hc.
      apply elem_of_cons in Hc as [->|Hc]; [congruence|contradiction].
Qed.

Lemma mapGet_None_not_in_keys k m : mapGet k m = None <-> k ∉ mapKeys m.
Proof.
  induction m as [|[k0 v0] m IH]; cbn.
  - split; [intros _ Hc; inversion Hc|reflexivity].
  - destruct (decide (k0 = k)) as [->|Hne].
    + split; [discriminate|]. intros Hc. exfalso. apply Hc. left.
    + rewrite IH. split.
      * intros Hn Hc. apply elem_of_cons in Hc as [->|Hc]; [congruence|contradiction].
      * intros Hn Hc. apply Hn. right. exact Hc.
Qed.

Lemma mapSet_fresh k v m : k ∉ mapKeys m -> mapSet k v m = m ++ [(k, v)].
Proof.
  induction m as [|[k0 v0] m IH]; cbn; [reflexivity|].
  intros Hn. destruct (decide (k0 = k)) as [->|Hne].
  - exfalso. apply Hn. left.
  - rewrite IH; [reflexivity|]. intros Hc. apply Hn. right. exact Hc.
Qed.

Lemma In_mapSet k v k' v' m :
  In (k', v') (mapSet k v m) -> (k', v') = (k, v) \/ In (k', v') m.
Proof.
  induction m as [|[k0 v0] m IH]; cbn.
  - intros [Heq|[]]. left. congruence.
  - destruct (decide (k0 = k)) as [->|Hne]; cbn.
    + intros [Heq|Hin]; [left; congruence|right; right; exact Hin].
    + intros [Heq|Hin]; [right; left; exact Heq|].
      destruct (IH Hin) as [Heq|Hin']; [left; exact Heq|right; right; exact Hin'].
Qed.

Lemma NoDup_mapKeys_mapSet k v m : NoDup (mapKeys m) -> NoDup (mapKeys (mapSet k v m)).
Proof.
  intros Hnd. rewrite mapKeys_mapSet.
  destruct (bool_decide (k ∈ mapKeys m)) eqn:Hin; [exact Hnd|].
  apply bool_decide_eq_false_1 in Hin.
  apply NoDup_app. split; [exact Hnd|]. split.
  - intros y Hy Hc. apply list_elem_of_singleton in Hc as ->. contradiction.
  - apply NoDup_singleton.
Qed.

(** Two maps with the same keys in the same order and the same values are
    the same map. *)
Lemma orderedMap_ext m1 m2 :
  NoDup (mapKeys m1) -> mapKeys m1 = mapKeys m2 ->
  (forall k, mapGet k m1 = mapGet k m2) -> m1 = m2.
Proof.
  revert m2. induction m1 as [|[k1 v1] m1 IH]; intros [|[k2 v2] m2] Hnd Hkeys Hget;
    try discriminate; [reflexivity|].
  cbn in Hkeys. injection Hkeys as -> Hkeys.
  apply NoDup_cons in Hnd as [Hfresh Hnd].
  pose proof (Hget k2) as Hhead. cbn in Hhead.
  destruct (decide (k2 = k2)); [|congruence]. injection Hhead as ->.
  f_equal. apply IH; [assumption..|].
  intros k. specialize (Hget k). cbn in Hget.
  destruct (decide (k2 = k)) as [->|Hne]; [|exact Hget].
  assert (mapGet k m1 = None) as -> by (apply mapGet_None_not_in_keys; exact Hfresh).
  symmetry. apply mapGet_None_not_in_keys. unfold mapKeys in *.
  rewrite <- Hkeys. exact Hfresh.
Qed.

Context (key : V -> K).

Lemma find_append (f : V -> bool) (l1 l2 : list V) :
  find f (l1 ++ l2) = match find f l1 with Some x => Some x | None => find f l2 end.
Proof.
  induction l1 as [|x l1 IH]; cbn; [reflexivity|].
  destruct (f x); [reflexivity|exact IH].
Qed.

(** The value found under a key after a pass of [set] calls: the last
    element with that key, or else what was there. *)
Lemma mapGet_mapSetAll k (xs : list V) m :
  mapGet k (mapSetAll key xs m)
  = match find (fun x => bool_decide (key x = k)) (rev xs) with
    | Some x => Some x
    | None => mapGet k m
    end.
Proof.
  revert m. induction xs as [|x xs IH]; intros m; [reflexivity|].
  unfold mapSetAll in *. cbn [fold_left rev]. rewrite IH, find_append.
  destruct (find _ (rev xs)); [reflexivity|].
  cbn [find]. rewrite mapGet_mapSet.
  destruct (decide (key x = k)) as [Hk|Hk].
  - rewrite bool_decide_eq_true_2 by assumption. reflexivity.
  - rewrite bool_decide_eq_false_2 by assumption. reflexivity.
Qed.

Lemma In_mapSetAll (xs : list V) m k v :
  In (k, v) (mapSetAll key xs m) -> (In v xs /\ k = key v) \/ In (k, v) m.
Proof.
  revert m. induction xs as [|x xs IH]; intros m; [right; assumption|].
  unfold mapSetAll in *. cbn [fold_left]. intros Hin.
  destruct (IH _ Hin) as [[Hv Hk]|Hin']; [left; split; [right|]; assumption|].
  apply In_mapSet in Hin' as [[= -> ->]|Hin']; [left; split; [left|]; reflexivity|].
  right. exact Hin'.
Qed.

Lemma In_mapValues_mapSetAll (xs : list V) v :
  In v (mapValues (mapSetAll key xs [])) -> In v xs.
Proof.
  unfold mapValues. intros Hin. apply in_map_iff in Hin as ([k v'] & <- & Hin).
  apply In_mapSetAll in Hin as [[Hv _]|[]]. exact Hv.
Qed.

Lemma mapKeys_mapSetAll_known (xs : list V) m :
  (forall x, In x xs -> key x ∈ mapKeys m) ->
  mapKeys (mapSetAll key xs m) = mapKeys m.
Proof.
  revert m. induction xs as [|x xs IH]; intros m Hknown; [reflexivity|].
  unfold mapSetAll in *. cbn [fold_left].
  assert (Hx : mapKeys (mapSet (key x) x m) = mapKeys m).
  { rewrite mapKeys_mapSet, bool_decide_eq_true_2; [reflexivity|].
    apply Hknown. left. reflexivity. }
  rewrite IH; [exact Hx|].
  intros y Hy. rewrite Hx. apply Hknown. right. exact Hy.
Qed.

Lemma mapKeys_mapSetAll_incl (xs : list V) m k :
  k ∈ mapKeys m -> k ∈ mapKeys (mapSetAll key xs m).
Proof.
  revert m. induction xs as [|x xs IH]; intros m Hk; [exact Hk|].
  unfold mapSetAll in *. cbn [fold_left]. apply IH.
  rewrite mapKeys_mapSet. destruct (bool_decide _); [exact Hk|].
  apply elem_of_app. left. exact Hk.
Qed.

Lemma mapKeys_mapSetAll_mem (xs : list V) m x :
  In x xs -> key x ∈ mapKeys (mapSetAll key xs m).
Proof.
  revert m. induction xs as [|y xs IH]; intros m Hx; [contradiction|].
  unfold mapSetAll in *. cbn [fold_left].
  destruct Hx as [->|Hx]; [|apply IH; exact Hx].
  apply (mapKeys_mapSetAll_incl xs). rewrite mapKeys_mapSet.
  destruct (bool_decide (key x ∈ mapKeys m)) eqn:Hin.
  - apply bool_decide_eq_true_1 in Hin. exact Hin.
  - apply elem_of_app. right. left.
Qed.

Lemma NoDup_mapKeys_mapSetAll (xs : list V) m :
  NoDup (mapKeys m) -> NoDup (mapKeys (mapSetAll key xs m)).
Proof.
  revert m. induction xs as [|x xs IH]; intros m Hnd; [exact Hnd|].
  unfold mapSetAll in *. cbn [fold_left]. apply IH, NoDup_mapKeys_mapSet, Hnd.
Qed.

(** A second pass over the same elements leaves the map as it is. *)
Lemma mapSetAll_twice (xs : list V) :
  mapSetAll key xs (mapSetAll key xs []) = mapSetAll key xs [].
Proof.
  apply orderedMap_ext.
  - apply NoDup_mapKeys_mapSetAll, NoDup_mapKeys_mapSetAll. constructor.
  - apply mapKeys_mapSetAll_known. intros x Hx. apply mapKeys_mapSetAll_mem. exact Hx.
  - intros k. rewrite !mapGet_mapSetAll. destruct (find _ (rev xs)); reflexivity.
Qed.

(** Elements with pairwise distinct keys are stored in their order. *)
Lemma mapSetAll_distinct (xs : list V) m :
  NoDup (mapKeys m ++ map key xs) ->
  mapSetAll key xs m = m ++ map (fun x => (key x, x)) xs.
Proof.
  revert m. induction xs as [|x xs IH]; intros m Hnd; cbn.
  - rewrite app_nil_r. reflexivity.
  - unfold mapSetAll in *. cbn [fold_left].
    assert (Hfresh : key x ∉ mapKeys m).
    { apply NoDup_app in Hnd as (_ & Hdisj & _). intros Hc.
      apply (Hdisj _ Hc). left. }
    rewrite mapSet_fresh by exact Hfresh.
    rewrite IH.
    + rewrite <- app_assoc. reflexivity.
    + unfold mapKeys in *. rewrite map_app, <- app_assoc. exact Hnd.
Qed.

Lemma mapValues_pairs (xs : list V) : mapValues (map (fun x => (key x, x)) xs) = xs.
Proof.
  unfold mapValues. rewrite map_map. cbn. apply map_id.
Qed.

(** The keys of a map filled from the empty one are the keys of its
    values. *)
Lemma mapSetAll_keyed (xs : list V) m :
  Forall (fun entry => fst entry = key (snd entry)) m ->
  Forall (fun entry => fst entry = key (snd entry)) (mapSetAll key xs m).
Proof.
  intros Hm. apply Forall_forall. intros [k v] Hin%list_elem_of_In.
  apply In_mapSetAll in Hin as [[_ ->]|Hin]; [reflexivity|].
  rewrite Forall_forall in Hm. apply (Hm (k, v)), list_elem_of_In, Hin.
Qed.

Lemma keyed_values m :
  Forall (fun entry => fst entry = key (snd entry)) m ->
  map key (mapValues m) = mapKeys m.
Proof.
  unfold mapValues, mapKeys. induction 1 as [|[k v] m Hk _ IH]; [reflexivity|].
  cbn in *. rewrite IH. congruence.
Qed.

End OrderedMapFacts.

(* ===================================================================== *)
(** * The default sort of strings *)
(* ===================================================================== *)

Section DefaultSort.
Import AppState.

Lemma charCode_inj (x y : ascii) : charCode x = charCode y -> x = y.
Proof.
  unfold charCode. intros Heq. apply N2Z.inj in Heq.
  rewrite <- (ascii_N_embedding x), <- (ascii_N_embedding y), Heq. reflexivity.
Qed.

Lemma compareStrings_opp (a b : string) : compareStrings b a = - compareStrings a b.
Proof.
  revert b. induction a as [|x a IH]; intros [|y b]; cbn; try reflexivity.
  destruct (charCode x <? charCode y) eqn:Hxy, (charCode y <? charCode x) eqn:Hyx;
    try reflexivity; [|apply IH].
  apply Z.ltb_lt in Hxy, Hyx. lia.
Qed.

Lemma compareStrings_eq (a b : string) : compareStrings a b = 0 -> a = b.
Proof.
  revert b. induction a as [|x a IH]; intros [|y b]; cbn; try discriminate; [reflexivity|].
  destruct (charCode x <? charCode y) eqn:Hxy; [discriminate|].
  destruct (charCode y <? charCode x) eqn:Hyx; [discriminate|].
  intros Hrest. apply Z.ltb_ge in Hxy, Hyx.
  rewrite (charCode_inj x y) by lia. rewrite (IH b Hrest). reflexivity.
Qed.

Lemma compareStrings_le_trans (a b c : string) :
  compareStrings a b <= 0 -> compareStrings b c <= 0 -> compareStrings a c <= 0.
Proof.
  revert b c. induction a as [|x a IH]; intros [|y b] [|z c]; cbn; try lia.
  destruct (charCode x <? charCode y) eqn:Hxy, (charCode y <? charCode x) eqn:Hyx,
           (charCode y <? charCode z) eqn:Hyz, (charCode z <? charCode y) eqn:Hzy,
           (charCode x <? charCode z) eqn:Hxz, (charCode z <? charCode x) eqn:Hzx;
    try lia;
    repeat match goal with
           | Hlt : (_ <? _) = true |- _ => apply Z.ltb_lt in Hlt
           | Hge : (_ <? _) = false |- _ => apply Z.ltb_ge in Hge
           end;
    try lia.
  apply IH.
Qed.

Lemma ordered_le (a b : string) : ordered a b <-> compareStrings a b <= 0.
Proof.
  unfold ordered, after, defaultCompare. rewrite Z.ltb_ge. reflexivity.
Qed.

Lemma insertSorted_ordered (x : string) (l : list string) :
  Sorted ordered l -> Sorted ordered (insertSorted defaultCompare x l).
Proof.
  induction 1 as [|y l Hl IH Hhd]; cbn [insertSorted].
  - repeat constructor.
  - destruct (after defaultCompare x y) eqn:Hxy.
    + constructor; [exact IH|].
      assert (Hyx : ordered y x).
      { apply ordered_le. unfold after, defaultCompare in Hxy. apply Z.ltb_lt in Hxy.
        rewrite compareStrings_opp. lia. }
      destruct Hhd as [|z l Hyz]; cbn [insertSorted]; [repeat constructor; exact Hyx|].
      destruct (after defaultCompare x z); constructor; assumption.
    + constructor; [constructor; assumption|]. constructor. exact Hxy.
Qed.

Lemma sort_ordered (l : list string) : Sorted ordered (sort defaultCompare l).
Proof.
  induction l as [|x l IH]; cbn; [constructor|]. apply insertSorted_ordered, IH.
Qed.

Lemma ordered_perm_eq (l1 l2 : list string) :
  Sorted ordered l1 -> Sorted ordered l2 -> Permutation l1 l2 -> l1 = l2.
Proof.
  intros H1 H2.
  assert (Htrans : Relations_1.Transitive ordered).
  { intros a b c Hab Hbc. apply ordered_le in Hab, Hbc. apply ordered_le.
    eapply compareStrings_le_trans; eassumption. }
  apply Sorted_StronglySorted in H1, H2; try exact Htrans.
  revert l2 H2. induction H1 as [|x l1 Hl1 IH Hx]; intros l2 H2 Hperm.
  - apply Permutation_nil in Hperm. congruence.
  - destruct H2 as [|y l2 Hl2 Hy]; [apply Permutation_sym, Permutation_nil in Hperm;
                                     discriminate|].
    assert (Hxy : x = y).
    { assert (Hin1 : In y (x :: l1))
        by (eapply Permutation_in; [apply Permutation_sym; exact Hperm|left; reflexivity]).
      assert (Hin2 : In x (y :: l2))
        by (eapply Permutation_in; [exact Hperm|left; reflexivity]).
      destruct Hin1 as [Heq|Hin1]; [exact Heq|].
      destruct Hin2 as [Heq|Hin2]; [congruence|].
      rewrite List.Forall_forall in Hx, Hy.
      pose proof (Hx _ Hin1) as Hle1. pose proof (Hy _ Hin2) as Hle2.
      apply ordered_le in Hle1, Hle2. apply compareStrings_eq.
      rewrite compareStrings_opp in Hle2. lia. }
    subst y. f_equal. apply IH; [exact Hl2|].
    eapply Permutation_cons_inv. exact Hperm.
Qed.

(** The sorted project ids do not depend on the order in which the
    configuration lists them. *)
Lemma sortedProjectOids_permutation (c1 c2 : TrackerConfig.t) :
  Permutation (TrackerConfig.projectOids c1) (TrackerConfig.projectOids c2) ->
  sortedProjectOids c1 = sortedProjectOids c2.
Proof.
  intros Hperm. unfold sortedProjectOids.
  apply ordered_perm_eq; try apply sort_ordered.
  rewrite !sort_perm. exact Hperm.
Qed.

End DefaultSort.

(* ===================================================================== *)
(** * The tracker state store *)
(* ===================================================================== *)

Section StateStore.
Context `{JsRuntime}.

(** C5.  After [trimTrackerState], every history entry has a [changedAt]
    that parses to an instant at most 45 days before [now] (and was in the
    history before), and [seenChangeIds] is the suffix of the old list
    that holds its last 2000 entries, the whole list when there are no
    more than that. *)
Theorem trimTrackerState_bounds (now : Z) (state : TrackerPersistedState.t) :
  let trimmed := AppState.trimTrackerState now state in
  let seen := TrackerPersistedState.seenChangeIds state in
  let kept := TrackerPersistedState.seenChangeIds trimmed in
  (forall entry, In entry (TrackerPersistedState.history trimmed) ->
     In entry (TrackerPersistedState.history state)
     /\ exists changedAt,
          Date_parse (StoryChange.changedAt entry) = Some changedAt
          /\ now - changedAt <= 45 * (24 * 60 * 60 * 1000))
  /\ (exists evicted, seen = evicted ++ kept)
  /\ length kept = Nat.min 2000 (length seen)
  /\ ((length seen <= 2000)%nat -> kept = seen).
Proof.
  cbv zeta. unfold AppState.trimTrackerState.
  cbn [TrackerPersistedState.history TrackerPersistedState.seenChangeIds].
  rewrite (slice_last _ 2000) by lia.
  split; [|split; [|split]].
  - intros entry Hin. apply filter_In in Hin as [Hin Hkept].
    split; [exact Hin|]. unfold AppState.retained in Hkept.
    destruct (Date_parse (StoryChange.changedAt entry)) as [ts|]; [|discriminate].
    exists ts. split; [reflexivity|]. apply Z.leb_le in Hkept. lia.
  - eexists. symmetry. apply firstn_skipn.
  - rewrite length_skipn. lia.
  - intros Hle. replace (length _ - Z.to_nat 2000)%nat with 0%nat by lia. reflexivity.
Qed.

(** C4, as the code has it.  Merging a history with itself gives what
    merging it with nothing gives; and a history whose change ids are
    pairwise distinct and whose timestamps do not increase is returned
    unchanged by both merges. *)
Theorem mergeHistory_idempotent (history : list StoryChange.t) :
  AppState.mergeHistory history history = AppState.mergeHistory history []
  /\ (NoDup (map StoryChange.changeId history) ->
      AppState.newestFirst history ->
      AppState.mergeHistory history [] = history
      /\ AppState.mergeHistory history history = history).
Proof.
  assert (Hsame : AppState.mergeHistory history history = AppState.mergeHistory history []).
  { unfold AppState.mergeHistory. cbv zeta. rewrite mapSetAll_twice. reflexivity. }
  split; [exact Hsame|].
  intros Hnd Hsorted. rewrite Hsame.
  assert (AppState.mergeHistory history [] = history) as ->; [|auto].
  unfold AppState.mergeHistory. cbv zeta. cbn [mapSetAll fold_left].
  rewrite (mapSetAll_distinct StoryChange.changeId history []) by exact Hnd.
  cbn [app]. rewrite mapValues_pairs. apply sort_sorted. exact Hsorted.
Qed.

End StateStore.

(** Forty-six days after the older change and forty-four after the newer
    one, the older is dropped; of 2001 seen ids the first is evicted. *)
Example trimTrackerState_example :
  let now := 1709287200000 + 46 * 86400000 in
  let state :=
    {| TrackerPersistedState.scopeKey := "41529001|7001|9001";
       TrackerPersistedState.cursor := None;
       TrackerPersistedState.seenChangeIds := "first" :: repeat "later" 2000;
       TrackerPersistedState.lastNotificationAt := None;
       TrackerPersistedState.history :=
         [Examples.change "b2" "2024-03-03T10:00:00.000Z"; Examples.older];
       TrackerPersistedState.lastCheckedAt := None;
       TrackerPersistedState.testingRequiredStories := [] |} in
  let trimmed := @AppState.trimTrackerState IsoRuntime.runtime now state in
  TrackerPersistedState.history trimmed = [Examples.change "b2" "2024-03-03T10:00:00.000Z"]
  /\ TrackerPersistedState.seenChangeIds trimmed = repeat "later" 2000.
Proof. cbv zeta. split; vm_compute; reflexivity. Qed.

(** C4, as stated, fails: a history that lists an older change before a
    newer one is reordered by a merge with nothing and by a merge with
    itself. *)
Lemma mergeHistory_reorders_history :
  let history := [Examples.older; Examples.newer] in
  @AppState.mergeHistory IsoRuntime.runtime history [] = [Examples.newer; Examples.older]
  /\ @AppState.mergeHistory IsoRuntime.runtime history [] <> history
  /\ @AppState.mergeHistory IsoRuntime.runtime history history <> history.
Proof.
  cbv zeta. split; [vm_compute; reflexivity|].
  split; intros Heq; apply (f_equal (map StoryChange.changeId)) in Heq;
    vm_compute in Heq; discriminate.
Qed.

(** The amended C4 on a history of two changes, newest first. *)
Lemma mergeHistory_idempotent_witness :
  let history := [Examples.newer; Examples.older] in
  @AppState.mergeHistory IsoRuntime.runtime history [] = history
  /\ @AppState.mergeHistory IsoRuntime.runtime history history = history.
Proof.
  cbv zeta.
  apply (@mergeHistory_idempotent IsoRuntime.runtime [Examples.newer; Examples.older]).
  - vm_compute. repeat constructor; intros Hin; inversion Hin; subst;
      try discriminate; match goal with Hx : _ ∈ [] |- _ => inversion Hx end.
  - unfold AppState.newestFirst. repeat constructor.
Defined.

(* ===================================================================== *)
(** * The scope key *)
(* ===================================================================== *)

Section ScopeKey.
Import AppState.

Lemma append_delimiter_inj (d : ascii) (a a' r r' : string) :
  containsChar d a = false -> containsChar d a' = false ->
  a +:+ String d r = a' +:+ String d r' -> a = a' /\ r = r'.
Proof.
  revert a'. induction a as [|x a IH]; intros [|y a'] Ha Ha' Heq; cbn in *.
  - injection Heq as ->. auto.
  - injection Heq as -> _. rewrite Ascii.eqb_refl in Ha'. discriminate.
  - injection Heq as -> _. rewrite Ascii.eqb_refl in Ha. discriminate.
  - injection Heq as -> Heq.
    apply orb_false_iff in Ha as [_ Ha]. apply orb_false_iff in Ha' as [_ Ha'].
    destruct (IH a' Ha Ha' Heq) as [-> ->]. auto.
Qed.

Lemma containsChar_app (d : ascii) (a b : string) :
  containsChar d (a +:+ b) = containsChar d a || containsChar d b.
Proof.
  induction a as [|x a IH]; [reflexivity|].
  change (containsChar d (String x a +:+ b))
    with (Ascii.eqb x d || containsChar d (a +:+ b)).
  rewrite IH. apply orb_assoc.
Qed.

Lemma join_nonempty (sep x : string) (l : list string) :
  x <> "" -> join sep (x :: l) <> "".
Proof.
  intros Hx. destruct l as [|y l]; cbn; [assumption|].
  destruct x; [contradiction|]. discriminate.
Qed.

Lemma join_cons2 (sep x y : string) (l : list string) :
  join sep (x :: y :: l) = x +:+ sep +:+ join sep (y :: l).
Proof. reflexivity. Qed.

Lemma join_without_pipe (l : list string) :
  Forall plainProjectOid l -> containsChar "|" (join "," l) = false.
Proof.
  induction 1 as [|x l (_ & Hx & _) Hl IH]; [reflexivity|].
  destruct l as [|y l]; [exact Hx|].
  rewrite join_cons2, !containsChar_app, Hx, IH. reflexivity.
Qed.

(** Joining plain ids with commas loses nothing. *)
Lemma join_inj (l1 l2 : list string) :
  Forall plainProjectOid l1 -> Forall plainProjectOid l2 ->
  join "," l1 = join "," l2 -> l1 = l2.
Proof.
  intros H1. revert l2. induction H1 as [|x l1 (Hx & _ & Hxc) H1 IH]; intros l2 H2 Heq.
  - destruct H2 as [|y l2 (Hy & _) _]; [reflexivity|].
    symmetry in Heq. apply join_nonempty in Heq; [contradiction|assumption].
  - destruct H2 as [|y l2 (Hy & _ & Hyc) H2].
    { apply join_nonempty in Heq; [contradiction|assumption]. }
    destruct l1 as [|x' l1], l2 as [|y' l2].
    + cbn in Heq. congruence.
    + rewrite join_cons2 in Heq. cbn [join] in Heq. subst x.
      rewrite containsChar_app in Hxc. cbn in Hxc.
      rewrite orb_true_r in Hxc. discriminate.
    + rewrite join_cons2 in Heq. cbn [join] in Heq. subst y.
      rewrite containsChar_app in Hyc. cbn in Hyc.
      rewrite orb_true_r in Hyc. discriminate.
    + rewrite !join_cons2 in Heq.
      apply (append_delimiter_inj "," x y) in Heq as [-> Heq]; [|assumption..].
      f_equal. apply IH; assumption.
Qed.

(** Equal scopes have equal keys. *)
Lemma sameScope_createScopeKey (c1 c2 : TrackerConfig.t) :
  sameScope c1 c2 -> createScopeKey c1 = createScopeKey c2.
Proof.
  unfold sameScope, sortedProjectOids, createScopeKey. intros (-> & -> & ->). reflexivity.
Qed.

(** C9, as the code has it.  The project ids enter the scope key sorted, so
    their order in the configuration does not matter.  Two configurations
    with the same workspace id, the same sorted project ids and the same
    sprint id have the same scope key; and when the workspace ids hold no
    ["|"] and the project ids are non-empty and hold neither ["|"] nor
    [","], the scope keys are equal exactly when the scopes are. *)
Theorem createScopeKey_characterizes_scope (c1 c2 : TrackerConfig.t) :
  (Permutation (TrackerConfig.projectOids c1) (TrackerConfig.projectOids c2) ->
   sortedProjectOids c1 = sortedProjectOids c2)
  /\ (sameScope c1 c2 -> createScopeKey c1 = createScopeKey c2)
  /\ (containsChar "|" (TrackerConfig.workspaceOid c1) = false ->
      containsChar "|" (TrackerConfig.workspaceOid c2) = false ->
      Forall plainProjectOid (TrackerConfig.projectOids c1) ->
      Forall plainProjectOid (TrackerConfig.projectOids c2) ->
      (createScopeKey c1 = createScopeKey c2 <-> sameScope c1 c2)).
Proof.
  split; [apply sortedProjectOids_permutation|].
  split; [apply sameScope_createScopeKey|].
  intros Hw1 Hw2 Hp1 Hp2. split; [|apply sameScope_createScopeKey].
  unfold createScopeKey, sameScope, sortedProjectOids. intros Hkey.
  assert (Hs1 : Forall plainProjectOid (sort defaultCompare (TrackerConfig.projectOids c1)))
    by (rewrite sort_perm; assumption).
  assert (Hs2 : Forall plainProjectOid (sort defaultCompare (TrackerConfig.projectOids c2)))
    by (rewrite sort_perm; assumption).
  apply (append_delimiter_inj "|") in Hkey as [Hws Hkey]; [|assumption..].
  apply (append_delimiter_inj "|") in Hkey as [Hjoin Hit];
    [|apply join_without_pipe; assumption..].
  split; [assumption|]. split; [|assumption].
  apply join_inj; assumption.
Qed.

End ScopeKey.

(** C9, as stated, fails: a project id that holds a comma makes two
    configurations with different project sets share a scope key; and two
    configurations with the same set of project ids, one of which lists
    an id twice, have different scope keys. *)
Lemma createScopeKey_collision :
  let c1 := Examples.trackerOf "41529001" ["7001,7002"] "9001" in
  let c2 := Examples.trackerOf "41529001" ["7001"; "7002"] "9001" in
  let c3 := Examples.trackerOf "41529001" ["7001"; "7001"] "9001" in
  let c4 := Examples.trackerOf "41529001" ["7001"] "9001" in
  (AppState.createScopeKey c1 = AppState.createScopeKey c2
   /\ AppState.sortedProjectOids c1 <> AppState.sortedProjectOids c2
   /\ ~ AppState.sameScope c1 c2)
  /\ ((forall projectOid,
         In projectOid (TrackerConfig.projectOids c3)
         <-> In projectOid (TrackerConfig.projectOids c4))
      /\ AppState.createScopeKey c3 <> AppState.createScopeKey c4).
Proof.
  cbv zeta. split; [split; [reflexivity|split]|split].
  - vm_compute. discriminate.
  - intros (_ & Hprojects & _). vm_compute in Hprojects. discriminate.
  - intros projectOid. cbn. tauto.
  - vm_compute. discriminate.
Qed.

(** The amended C9 on two configurations that list the same numeric
    project ids in different orders. *)
Lemma createScopeKey_characterizes_scope_witness :
  let c1 := Examples.trackerOf "41529001" ["7002"; "7001"] "9001" in
  let c2 := Examples.trackerOf "41529001" ["7001"; "7002"] "9001" in
  AppState.createScopeKey c1 = "41529001|7001,7002|9001"
  /\ (AppState.createScopeKey c1 = AppState.createScopeKey c2 <-> AppState.sameScope c1 c2).
Proof.
  cbv zeta. split; [reflexivity|].
  apply createScopeKey_characterizes_scope; try reflexivity;
    repeat constructor; discriminate.
Defined.

(* ===================================================================== *)
(** * The remote data client: retry and back-off *)
(* ===================================================================== *)

Section Retry.
Import RallyClient.
Context {T : Type} (JSON_parse : string -> option T).
Context (transportRequest : Z -> TransportOutcome).

Lemma retryPolicy_retry (attempt : Z) (retries : nat) (result : Result T) :
  isAuthStatus (transportRequest attempt) = false ->
  retryPolicy transportRequest (attempt + 1) retries result ->
  retryPolicy transportRequest attempt (S retries) result.
Proof.
  intros Hnoauth. unfold retryPolicy. cbv zeta.
  replace (attempt + Z.of_nat (S retries)) with (attempt + 1 + Z.of_nat retries) by lia.
  intros (Hlast & Hauth & Honly & Htrans & Hend).
  split; [assumption|]. split; [|split; [assumption|split; [|assumption]]].
  - intros n Hn Hn401. destruct (Z.eq_dec n attempt) as [->|Hne]; [congruence|].
    apply Hauth; [lia|assumption].
  - intros n Hn Ht Hlt. destruct (Z.eq_dec n attempt) as [->|Hne]; [lia|].
    apply Htrans; [lia|assumption|assumption].
Qed.

Lemma retryPolicy_stop (attempt : Z) (result : Result T) :
  attempt <= MAX_RETRIES ->
  (isAuthStatus (transportRequest attempt) = true -> result = Throw invalidKey) ->
  (forall error, result = Throw error -> isAuthError error = true ->
     isAuthStatus (transportRequest attempt) = true) ->
  (isTransient (transportRequest attempt) = true ->
     attempt = MAX_RETRIES /\ result = Throw (transientError (transportRequest attempt))) ->
  retryPolicy transportRequest attempt 0 result.
Proof.
  intros Hle Hauth Honly Htrans. unfold retryPolicy. cbv zeta. rewrite Z.add_0_r.
  split; [assumption|]. split; [|split; [assumption|split; [|assumption]]].
  - intros n Hn Hn401. replace n with attempt in * by lia. auto.
  - intros n Hn Ht Hlt. replace n with attempt in * by lia.
    destruct (Htrans Ht). lia.
Qed.

(** With fuel for the attempts that remain, [request] returns, its trace
    is a run of consecutive attempts separated by their back-offs, and the
    policy holds of it. *)
Lemma requestFrom_policy (fuel : nat) (attempt : Z) :
  0 <= attempt <= MAX_RETRIES ->
  (Z.to_nat (MAX_RETRIES - attempt) < fuel)%nat ->
  exists result retries,
    requestFrom JSON_parse transportRequest fuel attempt
    = Some (result, traceFrom attempt retries)
    /\ retryPolicy transportRequest attempt retries result.
Proof.
  revert attempt. induction fuel as [|fuel IH]; intros attempt Hrange Hfuel; [lia|].
  cbn [requestFrom].
  assert (Hretry : attempt < MAX_RETRIES ->
            isAuthStatus (transportRequest attempt) = false ->
            exists result retries,
              match
                match requestFrom JSON_parse transportRequest fuel (attempt + 1) with
                | Some (result, events) => Some (result, Sleep (backoffMs attempt) :: events)
                | None => None
                end
              with
              | Some (result, events) => Some (result, Transport attempt :: events)
              | None => None
              end = Some (result, traceFrom attempt retries)
              /\ retryPolicy transportRequest attempt retries result).
  { intros Hlt Hnoauth.
    destruct (IH (attempt + 1)) as (result & retries & -> & Hp); [lia|lia|].
    exists result, (S retries). split; [reflexivity|].
    apply retryPolicy_retry; assumption. }
  assert (Hstop : forall result : Result T,
            (isAuthStatus (transportRequest attempt) = true -> result = Throw invalidKey) ->
            (forall error, result = Throw error -> isAuthError error = true ->
               isAuthStatus (transportRequest attempt) = true) ->
            (isTransient (transportRequest attempt) = true ->
               attempt = MAX_RETRIES
               /\ result = Throw (transientError (transportRequest attempt))) ->
            exists result' retries,
              Some (result, [Transport attempt]) = Some (result', traceFrom attempt retries)
              /\ retryPolicy transportRequest attempt retries result').
  { intros result Hauth Honly Htrans. exists result, 0%nat. split; [reflexivity|].
    apply retryPolicy_stop; [lia|assumption..]. }
  unfold isAuthStatus, isTransient, transientError in Hretry, Hstop.
  destruct (transportRequest attempt) as [status body|message].
  - destruct ((status =? 401) || (status =? 403)) eqn:Hauth.
    + cbn [isAuthError invalidKey]. apply Hstop.
      * reflexivity.
      * reflexivity.
      * intros Ht. exfalso. apply orb_true_iff in Hauth, Ht. lia.
    + destruct ((status =? 429) || (500 <=? status)) eqn:Htrans; cbn [andb].
      * destruct (attempt <? MAX_RETRIES) eqn:Hlt.
        -- apply Hretry; [apply Z.ltb_lt; assumption | reflexivity].
        -- assert ((status <? 200) || (300 <=? status) = true) as ->.
           { apply orb_true_iff in Htrans. apply orb_true_iff. lia. }
           cbn [isAuthError requestFailed].
           apply Hstop.
           ++ discriminate.
           ++ intros error [= <-]. discriminate.
           ++ intros _. split; [apply Z.ltb_ge in Hlt; lia | reflexivity].
      * destruct ((status <? 200) || (300 <=? status)) eqn:Hbad.
        -- cbn [isAuthError requestFailed].
           destruct (attempt <? MAX_RETRIES) eqn:Hlt.
           ++ apply Hretry; [apply Z.ltb_lt; assumption | reflexivity].
           ++ apply Hstop; [discriminate | intros error [= <-]; discriminate | discriminate].
        -- destruct (JSON_parse body) as [value|].
           ++ apply Hstop; [discriminate | discriminate | discriminate].
           ++ cbn [isAuthError nonJsonBody].
              destruct (attempt <? MAX_RETRIES) eqn:Hlt.
              ** apply Hretry; [apply Z.ltb_lt; assumption | reflexivity].
              ** apply Hstop; [discriminate | intros error [= <-]; discriminate | discriminate].
  - cbn [isAuthError].
    destruct (attempt <? MAX_RETRIES) eqn:Hlt.
    + apply Hretry; [apply Z.ltb_lt; assumption | reflexivity].
    + apply Hstop.
      * discriminate.
      * intros error [= <-]. discriminate.
      * intros _. split; [apply Z.ltb_ge in Hlt; lia | reflexivity].
Qed.

Lemma sleeps_traceFrom (attempt : Z) (retries : nat) :
  sleeps (traceFrom attempt retries)
  = map (fun n => backoffMs (attempt + Z.of_nat n)) (seq 0 retries).
Proof.
  revert attempt. induction retries as [|retries IH]; intros attempt; [reflexivity|].
  cbn [traceFrom]. change (sleeps (?a :: Sleep ?ms :: ?rest)) with (ms :: sleeps rest).
  rewrite IH. cbn [seq map]. rewrite Z.add_0_r. f_equal.
  rewrite <- seq_shift, map_map. apply map_ext. intros n. f_equal. lia.
Qed.

Lemma transportCalls_traceFrom (attempt : Z) (retries : nat) :
  transportCalls (traceFrom attempt retries)
  = map (fun n => attempt + Z.of_nat n) (seq 0 (S retries)).
Proof.
  revert attempt. induction retries as [|retries IH]; intros attempt.
  - cbn. rewrite Z.add_0_r. reflexivity.
  - cbn [traceFrom].
    change (transportCalls (Transport ?a :: Sleep ?ms :: ?rest))
      with (a :: transportCalls rest).
    rewrite IH.
    change (seq 0 (S (S retries))) with (0%nat :: seq 1 (S retries)).
    rewrite <- seq_shift. cbn [map]. rewrite map_map, Z.add_0_r. f_equal.
    apply map_ext. intros n. lia.
Qed.

(** C6.  Every request returns.  Its attempts are numbered from 0, at most
    [MAX_RETRIES = 3] of them are retries, and before retry [n + 1] it
    sleeps [backoffMs n], which starts at 500 ms, doubles with every
    attempt and never exceeds 4000 ms.  An attempt answered 401 or 403 is
    the last one and the request throws [RallyAuthError], which it throws
    in no other case.  An attempt that fails in the transport or is
    answered 429 or 500 and above is retried while fewer than three retries
    were made, and at the fourth attempt its error is thrown to the
    caller. *)
Theorem request_retry_policy :
  exists (result : Result T) (retries : nat),
    request JSON_parse transportRequest = Some (result, traceFrom 0 retries)
    /\ (retries <= 3)%nat
    /\ transportCalls (traceFrom 0 retries) = map Z.of_nat (seq 0 (S retries))
    /\ sleeps (traceFrom 0 retries) = firstn retries [500; 1000; 2000]
    /\ (forall n, 0 <= n <= Z.of_nat retries ->
          isAuthStatus (transportRequest n) = true ->
          n = Z.of_nat retries
          /\ result = Throw (RallyAuthError "Invalid or unauthorized Rally API key"))
    /\ (forall error, result = Throw error -> isAuthError error = true ->
          isAuthStatus (transportRequest (Z.of_nat retries)) = true)
    /\ (forall n, 0 <= n <= Z.of_nat retries ->
          isTransient (transportRequest n) = true -> n < 3 -> n < Z.of_nat retries)
    /\ (isTransient (transportRequest (Z.of_nat retries)) = true ->
          retries = 3%nat
          /\ result = Throw (transientError (transportRequest 3))
          /\ isAuthError (transientError (transportRequest 3)) = false)
    /\ backoffMs 0 = 500
    /\ (forall n, 0 <= n -> backoffMs (n + 1) = Z.min 4000 (2 * backoffMs n))
    /\ (forall n, backoffMs n <= 4000).
Proof.
  destruct (requestFrom_policy (S (Z.to_nat MAX_RETRIES)) 0) as (result & retries & Hrun & Hp);
    [unfold MAX_RETRIES; lia | unfold MAX_RETRIES; lia |].
  exists result, retries. unfold retryPolicy in Hp. cbv zeta in Hp.
  rewrite !Z.add_0_l in Hp. destruct Hp as (Hlast & Hauth & Honly & Htrans & Hend).
  unfold MAX_RETRIES in Hlast, Htrans, Hend.
  split; [exact Hrun|]. split; [lia|].
  split; [rewrite transportCalls_traceFrom; reflexivity|].
  split.
  { rewrite sleeps_traceFrom.
    destruct retries as [|[|[|[|retries]]]]; try reflexivity. lia. }
  split; [exact Hauth|]. split; [exact Honly|]. split; [exact Htrans|].
  split.
  { intros Ht. destruct (Hend Ht) as [Hthree ->].
    assert (retries = 3%nat) as -> by lia.
    change (Z.of_nat 3) with 3.
    split; [reflexivity|]. split; [reflexivity|].
    destruct (transportRequest 3); reflexivity. }
  split; [reflexivity|]. split.
  - intros n Hn. unfold backoffMs. rewrite Z.pow_add_r by lia.
    assert (0 < 2 ^ n) by (apply Z.pow_pos_nonneg; lia). lia.
  - intros n. unfold backoffMs. lia.
Qed.

End Retry.

(** A service that answers 503 four times: the request sleeps 500, 1000
    and 2000 ms between its attempts and then throws the last failure. *)
Example request_when_unavailable :
  RallyClient.request (fun _ : string => Some tt)
    (fun _ => RallyClient.Responds 503 "busy")
  = Some (Throw (Error "Rally request failed (503): busy"),
          [RallyClient.Transport 0; RallyClient.Sleep 500;
           RallyClient.Transport 1; RallyClient.Sleep 1000;
           RallyClient.Transport 2; RallyClient.Sleep 2000;
           RallyClient.Transport 3]).
Proof. reflexivity. Qed.

(** A 401 after one failed attempt ends the request at once. *)
Example request_when_unauthorized :
  RallyClient.request (fun _ : string => Some tt)
    (fun n => if n =? 0 then RallyClient.Fails "network down"
              else RallyClient.Responds 401 "")
  = Some (Throw (RallyAuthError "Invalid or unauthorized Rally API key"),
          [RallyClient.Transport 0; RallyClient.Sleep 500; RallyClient.Transport 1]).
Proof. reflexivity. Qed.

(* ===================================================================== *)
(** * The change extractor *)
(* ===================================================================== *)

Section Extractor.
Context `{JsRuntime}.
Import RallyClient ChangeFetcher.

(** A successful poll of a tracker with a sprint got its snapshots from
    [fetchSnapshots] at the computed lower bound, and its changes from
    them. *)
Lemma fetchStoryChanges_Ok service config cursor seenIds now latency result :
  truthy (Config.iterationOid config) = true ->
  fetchStoryChanges service config cursor seenIds now latency = Ok result ->
  exists currentStories snapshots storyMeta projectNames,
    fetchStoriesInIteration service config (Config.iterationOid config)
      (Config.projectOids config) = Ok currentStories
    /\ fetchSnapshots service config
         (computeSnapshotSince cursor (Config.iterationStartDate config))
         (Config.projectOids config) (Config.iterationOid config) = Ok snapshots
    /\ PollResult.currentStories result = sort byFormattedId currentStories
    /\ PollResult.newChanges result =
         changesOfSnapshots config seenIds currentStories storyMeta projectNames snapshots.
Proof.
  intros Hsprint. unfold fetchStoryChanges. rewrite Hsprint. cbn [negb].
  intros Hok.
  apply bind_Ok in Hok as (currentStories & Hstories & Hok).
  apply bind_Ok in Hok as (snapshots & Hsnapshots & Hok).
  apply bind_Ok in Hok as (storyMeta & _ & Hok).
  apply bind_Ok in Hok as (projectNames & _ & Hok).
  injection Hok as <-.
  exists currentStories, snapshots, storyMeta, projectNames. auto.
Qed.

(** Without a sprint the poll returns at once, with no story and no
    change. *)
Lemma fetchStoryChanges_no_sprint service config cursor seenIds now latency result :
  truthy (Config.iterationOid config) = false ->
  fetchStoryChanges service config cursor seenIds now latency = Ok result ->
  PollResult.currentStories result = [] /\ PollResult.newChanges result = [].
Proof.
  intros Hsprint. unfold fetchStoryChanges. rewrite Hsprint. cbn [negb].
  intros [= <-]. auto.
Qed.

Lemma dedupe_incl (changes : list StoryChange.t) change :
  In change (dedupe changes) -> In change changes.
Proof.
  unfold dedupe. rewrite sort_perm. apply In_mapValues_mapSetAll.
Qed.

(** What a change tells of the record it was made from. *)
Lemma changeOfSnapshot_Some config seenIds currentStoryById storyMeta projectNames
    snapshot change :
  changeOfSnapshot config seenIds currentStoryById storyMeta projectNames snapshot
  = Some change ->
  toFiniteNumber (getProp "ObjectID" snapshot) = Some (StoryChange.storyObjectId change)
  /\ StoryChange.changedAt change
     = toString (coalesce (getProp "_ValidFrom" snapshot) (JsString ""))
  /\ StoryChange.changedAt change <> ""
  /\ StoryChange.changedFields change = extractChangedFields snapshot
  /\ StoryChange.changedFields change <> []
  /\ StoryChange.changeId change
     = simpleHash (keyBase (StoryChange.storyObjectId change)
                     (StoryChange.changedAt change) (StoryChange.changedFields change))
  /\ StoryChange.changeId change ∉ seenIds.
Proof.
  unfold changeOfSnapshot.
  destruct (toFiniteNumber (getProp "ObjectID" snapshot)) as [storyObjectId|]; [|discriminate].
  destruct (truthy _) eqn:Hat; [|discriminate]. cbn [negb].
  destruct (length (extractChangedFields snapshot) =? 0)%nat eqn:Hfields; [discriminate|].
  destruct (bool_decide _) eqn:Hseen; [discriminate|].
  intros [= <-]. cbn.
  repeat split.
  - intros Hempty. rewrite Hempty in Hat. discriminate.
  - intros Hempty. rewrite Hempty in Hfields. discriminate.
  - apply bool_decide_eq_false_1 in Hseen. exact Hseen.
Qed.

(** A record with no changed field is skipped. *)
Lemma changeOfSnapshot_no_field config seenIds currentStoryById storyMeta projectNames
    snapshot :
  extractChangedFields snapshot = [] ->
  changeOfSnapshot config seenIds currentStoryById storyMeta projectNames snapshot = None.
Proof.
  intros Hnone. unfold changeOfSnapshot. rewrite Hnone.
  destruct (toFiniteNumber _); [|reflexivity].
  destruct (truthy _); reflexivity.
Qed.

(** Every change of a poll was made from a record of the feed queried at
    the computed lower bound. *)
Lemma newChanges_origin service config cursor seenIds now latency result change :
  fetchStoryChanges service config cursor seenIds now latency = Ok result ->
  In change (PollResult.newChanges result) ->
  exists snapshots snapshot currentStoryById storyMeta projectNames,
    fetchSnapshots service config
      (computeSnapshotSince cursor (Config.iterationStartDate config))
      (Config.projectOids config) (Config.iterationOid config) = Ok snapshots
    /\ In snapshot snapshots
    /\ changeOfSnapshot config seenIds currentStoryById storyMeta projectNames snapshot
       = Some change.
Proof.
  intros Hok Hin.
  destruct (truthy (Config.iterationOid config)) eqn:Hsprint.
  - destruct (fetchStoryChanges_Ok _ _ _ _ _ _ _ Hsprint Hok)
      as (stories & snapshots & storyMeta & projectNames & _ & Hfeed & _ & Hchanges).
    rewrite Hchanges in Hin. unfold changesOfSnapshots in Hin.
    apply dedupe_incl in Hin. rewrite sort_perm in Hin.
    apply list_elem_of_In, list_elem_of_omap in Hin as (snapshot & Hsnapshot & Hchange).
    exists snapshots, snapshot. do 3 eexists.
    split; [exact Hfeed|]. split; [apply list_elem_of_In; exact Hsnapshot|exact Hchange].
  - destruct (fetchStoryChanges_no_sprint _ _ _ _ _ _ _ Hsprint Hok) as [_ Hnone].
    rewrite Hnone in Hin. destruct Hin.
Qed.

(** C1, as the code has it.  The id of every change is [simpleHash] of
    [storyId:changedAt:fields], where [fields] are the changed field names
    joined by commas in the key order of the record's previous-values map;
    so two changes, of one extraction call or of two, with the same story
    id, the same timestamp and the same sequence of changed field names
    have the same id. *)
Theorem changeId_is_hash_of_record_key
    service1 config1 cursor1 seenIds1 now1 latency1 result1 change1
    service2 config2 cursor2 seenIds2 now2 latency2 result2 change2 :
  fetchStoryChanges service1 config1 cursor1 seenIds1 now1 latency1 = Ok result1 ->
  In change1 (PollResult.newChanges result1) ->
  fetchStoryChanges service2 config2 cursor2 seenIds2 now2 latency2 = Ok result2 ->
  In change2 (PollResult.newChanges result2) ->
  StoryChange.changeId change1
  = simpleHash (numberToString (StoryChange.storyObjectId change1) +:+ ":"
                  +:+ StoryChange.changedAt change1 +:+ ":"
                  +:+ join "," (StoryChange.changedFields change1))
  /\ (exists snapshots snapshot,
        fetchSnapshots service1 config1
          (computeSnapshotSince cursor1 (Config.iterationStartDate config1))
          (Config.projectOids config1) (Config.iterationOid config1) = Ok snapshots
        /\ In snapshot snapshots
        /\ toFiniteNumber (getProp "ObjectID" snapshot)
           = Some (StoryChange.storyObjectId change1)
        /\ toString (coalesce (getProp "_ValidFrom" snapshot) (JsString ""))
           = StoryChange.changedAt change1
        /\ extractChangedFields snapshot = StoryChange.changedFields change1)
  /\ (StoryChange.storyObjectId change1 = StoryChange.storyObjectId change2 ->
      StoryChange.changedAt change1 = StoryChange.changedAt change2 ->
      StoryChange.changedFields change1 = StoryChange.changedFields change2 ->
      StoryChange.changeId change1 = StoryChange.changeId change2).
Proof.
  intros Hok1 Hin1 Hok2 Hin2.
  destruct (newChanges_origin _ _ _ _ _ _ _ _ Hok1 Hin1)
    as (snapshots1 & snapshot1 & ? & ? & ? & Hfeed1 & Hrecord1 & Hchange1).
  destruct (newChanges_origin _ _ _ _ _ _ _ _ Hok2 Hin2)
    as (snapshots2 & snapshot2 & ? & ? & ? & _ & _ & Hchange2).
  apply changeOfSnapshot_Some in Hchange1 as (Hid1 & Hat1 & _ & Hfields1 & _ & Hhash1 & _).
  apply changeOfSnapshot_Some in Hchange2 as (_ & _ & _ & _ & _ & Hhash2 & _).
  split; [exact Hhash1|]. split.
  - exists snapshots1, snapshot1. auto.
  - intros Hid Hat Hfields. rewrite Hhash1, Hhash2, Hid, Hat, Hfields. reflexivity.
Qed.

(** C8, as the code has it.  The changed fields of every change are the
    keys of the previous-values object of its record that do not start
    with an underscore, in key order, and there is at least one; a record
    for which no such key is left yields no change. *)
Theorem changedFields_are_previous_value_keys
    service config cursor seenIds now latency result change :
  fetchStoryChanges service config cursor seenIds now latency = Ok result ->
  In change (PollResult.newChanges result) ->
  (exists snapshots snapshot,
     fetchSnapshots service config
       (computeSnapshotSince cursor (Config.iterationStartDate config))
       (Config.projectOids config) (Config.iterationOid config) = Ok snapshots
     /\ In snapshot snapshots
     /\ toFiniteNumber (getProp "ObjectID" snapshot) = Some (StoryChange.storyObjectId change)
     /\ StoryChange.changedFields change
        = List.filter (fun field => negb (startsWith "_" field))
            (Object_keys (extractPreviousValues snapshot))
     /\ StoryChange.changedFields change <> [])
  /\ (forall currentStoryById storyMeta projectNames snapshot,
        List.filter (fun field => negb (startsWith "_" field))
          (Object_keys (extractPreviousValues snapshot)) = [] ->
        changeOfSnapshot config seenIds currentStoryById storyMeta projectNames snapshot
        = None).
Proof.
  intros Hok Hin. split.
  - destruct (newChanges_origin _ _ _ _ _ _ _ _ Hok Hin)
      as (snapshots & snapshot & ? & ? & ? & Hfeed & Hrecord & Hchange).
    apply changeOfSnapshot_Some in Hchange as (Hid & _ & _ & Hfields & Hsome & _).
    exists snapshots, snapshot. auto.
  - intros currentStoryById storyMeta projectNames snapshot Hnone.
    apply changeOfSnapshot_no_field. exact Hnone.
Qed.

(** C2.  For a cursor that parses, [computeSnapshotSince] is the ISO
    timestamp of the later of the sprint start and the cursor minus
    15 minutes, and of the cursor minus 15 minutes when the sprint start
    does not parse.  The poll queries the feed with that bound, under the
    operator [$gte], which a record stamped with the bound itself
    satisfies. *)
Theorem computeSnapshotSince_lower_bound (cursor iterationStartDate : string) (cursorMs : Z) :
  Date_parse cursor = Some cursorMs ->
  let overlap := 15 * 60 * 1000 in
  let since := computeSnapshotSince cursor iterationStartDate in
  since = toISOString
            match Date_parse iterationStartDate with
            | Some iterationStart => Z.max iterationStart (cursorMs - overlap)
            | None => cursorMs - overlap
            end
  /\ (forall iterationOids,
        find_ValidFrom (snapshotQuery since iterationOids)
        = {| operator := op_gte; bound := since |})
  /\ (forall iterationOids validFrom,
        validFrom = since ->
        satisfies (find_ValidFrom (snapshotQuery since iterationOids)) validFrom = true)
  /\ (forall service config seenIds now latency result,
        Config.iterationStartDate config = iterationStartDate ->
        truthy (Config.iterationOid config) = true ->
        fetchStoryChanges service config cursor seenIds now latency = Ok result ->
        exists snapshots,
          fetchSnapshots service config since (Config.projectOids config)
            (Config.iterationOid config) = Ok snapshots)
  /\ (forall service config projectOids iterationOid iterationOids,
        resolveIterationOids service iterationOid (Config.iterationName config)
          (Config.iterationStartDate config) projectOids = Ok iterationOids ->
        projectOids <> [] -> iterationOids <> [] ->
        exists url,
          fetchSnapshots service config since projectOids iterationOid
          = postSnapshotQuery service url (snapshotQuery since iterationOids)).
Proof.
  intros Hcursor. cbv zeta. repeat split.
  - unfold computeSnapshotSince, SNAPSHOT_OVERLAP_MS. rewrite Hcursor.
    destruct (Date_parse iterationStartDate); [rewrite Z.max_comm|]; reflexivity.
  - intros iterationOids validFrom ->. unfold satisfies. cbn.
    rewrite compareStrings_refl. reflexivity.
  - intros service config seenIds now latency result <- Hsprint Hok.
    destruct (fetchStoryChanges_Ok _ _ _ _ _ _ _ Hsprint Hok)
      as (stories & snapshots & _ & _ & _ & Hfeed & _).
    exists snapshots. exact Hfeed.
  - intros service config projectOids iterationOid iterationOids Hresolve Hp Hi.
    unfold fetchSnapshots. rewrite Hresolve. cbn [bind].
    destruct projectOids; [congruence|]. destruct iterationOids; [congruence|].
    cbn. eexists. reflexivity.
Qed.

End Extractor.

(** C1 on two separate polls that both see the record [nameThenOwner]. *)
Lemma changeId_is_hash_of_record_key_witness :
  exists change,
    Examples.changesOf [Examples.nameThenOwner] = [change]
    /\ StoryChange.changeId change
       = ChangeFetcher.simpleHash "501:2024-03-01T10:00:00.000Z:Name,Owner"
    /\ StoryChange.changeId change = "z9syxx".
Proof.
  eexists. split; [vm_compute; reflexivity|].
  split; [|vm_compute; reflexivity].
  refine (proj1 (@changeId_is_hash_of_record_key IsoRuntime.runtime
            (Examples.service [] [Examples.nameThenOwner]) Examples.config
            Examples.sprintStart ∅ 1709290800000 120 _ _
            (Examples.service [] [Examples.nameThenOwner]) Examples.config
            "2024-03-01T11:00:00.000Z" ∅ 1709294400000 95 _ _ _ _ _ _)).
  - vm_compute. reflexivity.
  - left. reflexivity.
  - vm_compute. reflexivity.
  - left. reflexivity.
Defined.

(** C1, as stated, fails: two records of one story and one instant whose
    previous-values maps hold the same field names in different orders get
    different ids. *)
Lemma changeId_depends_on_key_order :
  exists change1 change2,
    Examples.changesOf [Examples.nameThenOwner] = [change1]
    /\ Examples.changesOf [Examples.ownerThenName] = [change2]
    /\ StoryChange.storyObjectId change1 = StoryChange.storyObjectId change2
    /\ StoryChange.changedAt change1 = StoryChange.changedAt change2
    /\ sort AppState.defaultCompare (StoryChange.changedFields change1)
       = sort AppState.defaultCompare (StoryChange.changedFields change2)
    /\ StoryChange.changeId change1 <> StoryChange.changeId change2.
Proof.
  do 2 eexists.
  split; [vm_compute; reflexivity|]. split; [vm_compute; reflexivity|].
  split; [reflexivity|]. split; [reflexivity|]. split; [reflexivity|].
  vm_compute. discriminate.
Qed.

(** C8 on a poll that sees the record [withUnderscoreKey]. *)
Lemma changedFields_are_previous_value_keys_witness :
  exists change,
    Examples.changesOf [Examples.withUnderscoreKey] = [change]
    /\ StoryChange.changedFields change = ["ScheduleState"]
    /\ exists snapshots snapshot,
         @RallyClient.fetchSnapshots IsoRuntime.runtime
           (Examples.service [] [Examples.withUnderscoreKey]) Examples.config
           (@ChangeFetcher.computeSnapshotSince IsoRuntime.runtime Examples.sprintStart
              (Config.iterationStartDate Examples.config))
           (Config.projectOids Examples.config) (Config.iterationOid Examples.config)
         = Ok snapshots
         /\ In snapshot snapshots
         /\ @toFiniteNumber IsoRuntime.runtime (getProp "ObjectID" snapshot)
            = Some (StoryChange.storyObjectId change)
         /\ StoryChange.changedFields change
            = List.filter (fun field => negb (startsWith "_" field))
                (Object_keys (ChangeFetcher.extractPreviousValues snapshot))
         /\ StoryChange.changedFields change <> [].
Proof.
  eexists. split; [vm_compute; reflexivity|].
  split; [reflexivity|].
  refine (proj1 (@changedFields_are_previous_value_keys IsoRuntime.runtime
            (Examples.service [] [Examples.withUnderscoreKey]) Examples.config
            Examples.sprintStart ∅ 1709290800000 120 _ _ _ _)).
  - vm_compute. reflexivity.
  - left. reflexivity.
Defined.

(** C8, as stated, fails: the previous-values map of [withUnderscoreKey]
    has the key [_ValidTo], which is not among the changed fields of the
    change made from it. *)
Lemma changedFields_skip_underscore_keys :
  exists change,
    Examples.changesOf [Examples.withUnderscoreKey] = [change]
    /\ Object_keys (ChangeFetcher.extractPreviousValues Examples.withUnderscoreKey)
       = ["_ValidTo"; "ScheduleState"]
    /\ StoryChange.changedFields change = ["ScheduleState"]
    /\ ~ In "_ValidTo" (StoryChange.changedFields change).
Proof.
  eexists. split; [vm_compute; reflexivity|].
  split; [reflexivity|]. split; [reflexivity|].
  cbn. intros [Heq|[]]. discriminate.
Qed.

(** C2 on a cursor ten hours into the sprint, and on one ten minutes into
    it, where the sprint start is the later bound. *)
Lemma computeSnapshotSince_lower_bound_witness :
  @Date_parse IsoRuntime.runtime "2024-03-01T10:00:00.000Z" = Some 1709287200000
  /\ @ChangeFetcher.computeSnapshotSince IsoRuntime.runtime "2024-03-01T10:00:00.000Z"
       Examples.sprintStart
     = toISOString (Z.max 1709251200000 (1709287200000 - 15 * 60 * 1000))
  /\ @ChangeFetcher.computeSnapshotSince IsoRuntime.runtime "2024-03-01T10:00:00.000Z"
       Examples.sprintStart
     = "2024-03-01T09:45:00.000Z"
  /\ @ChangeFetcher.computeSnapshotSince IsoRuntime.runtime "2024-03-01T00:10:00.000Z"
       Examples.sprintStart
     = Examples.sprintStart.
Proof.
  split; [reflexivity|]. split; [|split; vm_compute; reflexivity].
  exact (proj1 (@computeSnapshotSince_lower_bound IsoRuntime.runtime
                  "2024-03-01T10:00:00.000Z" Examples.sprintStart 1709287200000 eq_refl)).
Defined.

(* ===================================================================== *)
(** * The notification engine *)
(* ===================================================================== *)

Section Notifications.
Import NotificationEngine.

(** C10.  With permission granted, a call with one to five stories in all
    dispatches one notification per story, the added ones first, and
    nothing else; a call with more than five dispatches the summary alone,
    whose body names the formatted ids of the first five. *)
Theorem notifyTestingRequiredChange_dispatch
    (platform : Platform) (engine : NotificationEngine.t)
    (addedStories removedStories : list TestingRequiredStoryRef.t) :
  fst (ensurePermission platform engine) = true ->
  let count := (length addedStories + length removedStories)%nat in
  let dispatched :=
    fst (notifyTestingRequiredChange platform engine addedStories removedStories) in
  ((1 <= count <= 5)%nat ->
     dispatched
     = map (fun story => dispatchNotification platform (addedNotification story)) addedStories
       ++ map (fun story => dispatchNotification platform (removedNotification story))
            removedStories
     /\ length dispatched = count)
  /\ ((5 < count)%nat ->
        dispatched
        = [dispatchNotification platform
             {| title := "Testing required updated";
                body := "Stories changed: "
                          +:+ join ", " (map TestingRequiredStoryRef.formattedId
                                           (firstn 5 (addedStories ++ removedStories)))
                          +:+ ", ...";
                tag := "testing-required-summary" |}]).
Proof.
  intros Hperm. cbv zeta. unfold notifyTestingRequiredChange.
  destruct (ensurePermission platform engine) as [canNotify engine'].
  cbn [fst] in Hperm. subst canNotify. cbn [negb].
  assert (Hlen : length (map addedNotification addedStories
                         ++ map removedNotification removedStories)
                 = (length addedStories + length removedStories)%nat)
    by (rewrite length_app, !length_map; reflexivity).
  rewrite Hlen.
  assert (Hsome : (0 < length addedStories + length removedStories)%nat ->
            (length addedStories =? 0)%nat && (length removedStories =? 0)%nat = false).
  { intros Hpos. destruct addedStories, removedStories; cbn in *; try reflexivity; lia. }
  split.
  - intros [Hlo Hhi]. rewrite Hsome by lia.
    assert ((length addedStories + length removedStories =? 0)%nat = false) as ->
      by (apply Nat.eqb_neq; lia).
    assert ((5 <? length addedStories + length removedStories)%nat = false) as ->
      by (apply Nat.ltb_ge; lia).
    cbn [fst]. rewrite map_app, !map_map. split; [reflexivity|].
    rewrite length_app, !length_map. reflexivity.
  - intros Hmany. rewrite Hsome by lia.
    assert ((length addedStories + length removedStories =? 0)%nat = false) as ->
      by (apply Nat.eqb_neq; lia).
    assert ((5 <? length addedStories + length removedStories)%nat = true) as Hgt
      by (apply Nat.ltb_lt; lia).
    rewrite Hgt. cbn [fst]. unfold summaryNotification.
    rewrite Hlen, Hgt. rewrite (slice_prefix _ 5).
    do 4 f_equal.
    rewrite <- firstn_map, <- firstn_map, !map_app, !map_map. reflexivity.
Qed.

End Notifications.

(** C10 on one added story, and on four added and two removed ones. *)
Lemma notifyTestingRequiredChange_dispatch_witness :
  fst (NotificationEngine.ensurePermission Examples.grantedPlatform Examples.engine) = true
  /\ fst (NotificationEngine.notifyTestingRequiredChange Examples.grantedPlatform
            Examples.engine [Examples.ref 501 "US501"] [])
     = [NotificationEngine.DesktopNotification "US501" "US501 is ready for validation."]
  /\ fst (NotificationEngine.notifyTestingRequiredChange Examples.grantedPlatform
            Examples.engine
            [Examples.ref 1 "US1"; Examples.ref 2 "US2"; Examples.ref 3 "US3";
             Examples.ref 4 "US4"]
            [Examples.ref 5 "US5"; Examples.ref 6 "US6"])
     = [NotificationEngine.DesktopNotification "Testing required updated"
          "Stories changed: US1, US2, US3, US4, US5, ..."].
Proof.
  split; [reflexivity|]. split.
  - apply (proj1 (notifyTestingRequiredChange_dispatch Examples.grantedPlatform
                    Examples.engine [Examples.ref 501 "US501"] [] eq_refl)).
    cbn. lia.
  - apply (proj2 (notifyTestingRequiredChange_dispatch Examples.grantedPlatform
                    Examples.engine
                    [Examples.ref 1 "US1"; Examples.ref 2 "US2"; Examples.ref 3 "US3";
                     Examples.ref 4 "US4"]
                    [Examples.ref 5 "US5"; Examples.ref 6 "US6"] eq_refl)).
    cbn. lia.
Defined.

(* ===================================================================== *)
(** * The poll orchestrator *)
(* ===================================================================== *)

Section Stories.
Context `{JsRuntime}.
Import RallyClient.

Lemma forEach_invariant {A S} (P : S -> Prop) (xs : list A) (step : S -> A -> Result S)
    (acc result : S) :
  (forall s x s', P s -> step s x = Ok s' -> P s') ->
  P acc -> forEach xs step acc = Ok result -> P result.
Proof.
  intros Hstep. revert acc. induction xs as [|x xs IH]; intros acc Hacc; cbn.
  - intros [= <-]. exact Hacc.
  - intros Hok. apply bind_Ok in Hok as (s' & Hs' & Hok).
    apply (IH s'); [eapply Hstep; eassumption|exact Hok].
Qed.

Lemma collectStories_storiesById service query projectOids unique result :
  storiesById unique ->
  collectStories service query projectOids unique = Ok result ->
  storiesById result.
Proof.
  unfold collectStories. intros Hunique.
  apply forEach_invariant; [|exact Hunique].
  intros s projectOid s' [Hnd Hkeyed] Hstep.
  apply bind_Ok in Hstep as (stories & _ & [= <-]).
  split; [apply NoDup_mapKeys_mapSetAll; exact Hnd|apply mapSetAll_keyed; exact Hkeyed].
Qed.

Lemma storiesById_values unique :
  storiesById unique -> NoDup (map SprintStory.storyObjectId (mapValues unique)).
Proof.
  intros [Hnd Hkeyed]. rewrite (keyed_values _ _ Hkeyed). exact Hnd.
Qed.

(** [fetchStoriesInIteration] returns every story once. *)
Lemma fetchStoriesInIteration_unique service config iterationOid projectOids stories :
  fetchStoriesInIteration service config iterationOid projectOids = Ok stories ->
  NoDup (map SprintStory.storyObjectId stories).
Proof.
  unfold fetchStoriesInIteration. intros Hok.
  apply bind_Ok in Hok as (iterationOids & _ & Hok).
  destruct (_ || _); [injection Hok as <-; constructor|].
  apply bind_Ok in Hok as (unique & Hunique & Hok).
  apply collectStories_storiesById in Hunique; [|split; constructor].
  destruct (0 <? length unique)%nat.
  { injection Hok as <-. apply storiesById_values. exact Hunique. }
  destruct (negb _); [injection Hok as <-; constructor|].
  apply bind_Ok in Hok as (unique' & Hunique' & [= <-]).
  apply storiesById_values.
  eapply collectStories_storiesById; eassumption.
Qed.

(** The stories of a poll result have pairwise distinct ids. *)
Lemma currentStories_unique service config cursor seenIds now latency result :
  ChangeFetcher.fetchStoryChanges service config cursor seenIds now latency = Ok result ->
  NoDup (map SprintStory.storyObjectId (PollResult.currentStories result)).
Proof.
  intros Hok. destruct (truthy (Config.iterationOid config)) eqn:Hsprint.
  - destruct (fetchStoryChanges_Ok _ _ _ _ _ _ _ Hsprint Hok)
      as (stories & ? & ? & ? & Hstories & _ & -> & _).
    rewrite sort_perm. eapply fetchStoriesInIteration_unique. exact Hstories.
  - destruct (fetchStoryChanges_no_sprint _ _ _ _ _ _ _ Hsprint Hok) as [-> _].
    constructor.
Qed.

End Stories.

Section Classification.
Import Main.

Lemma storyRef_ids (stories : list SprintStory.t) :
  map TestingRequiredStoryRef.storyObjectId (map storyRef stories)
  = map SprintStory.storyObjectId stories.
Proof. rewrite map_map. reflexivity. Qed.

Lemma NoDup_map_filter {A B} (f : A -> B) (p : A -> bool) (l : list A) :
  NoDup (map f l) -> NoDup (map f (List.filter p l)).
Proof.
  induction l as [|x l IH]; cbn; [auto|].
  intros Hnd. apply NoDup_cons in Hnd as [Hx Hnd].
  destruct (p x); [|auto]. cbn. apply NoDup_cons. split; [|auto].
  intros Hc. apply Hx. apply list_elem_of_In in Hc. apply list_elem_of_In.
  apply in_map_iff in Hc as (y & Hy & Hin). apply filter_In in Hin as [Hin _].
  apply in_map_iff. eauto.
Qed.

(** The classification set computed from stories listed once lists every
    story once. *)
Lemma testingRequired_unique (stories : list SprintStory.t) :
  NoDup (map SprintStory.storyObjectId stories) ->
  NoDup (map TestingRequiredStoryRef.storyObjectId
           (map storyRef (getTestingRequiredStories stories))).
Proof.
  intros Hnd. rewrite storyRef_ids. apply NoDup_map_filter. exact Hnd.
Qed.

(** [has] on the map built from a list tests membership of the id. *)
Lemma has_byStoryObjectId (stories : list TestingRequiredStoryRef.t) (id : Z) :
  has id (byStoryObjectId stories) = true
  <-> In id (map TestingRequiredStoryRef.storyObjectId stories).
Proof.
  unfold has, byStoryObjectId.
  destruct (mapGet id _) as [story|] eqn:Hget.
  - split; [intros _|reflexivity].
    assert (Hin : id ∈ mapKeys (mapSetAll TestingRequiredStoryRef.storyObjectId stories [])).
    { destruct (decide (id ∈ mapKeys
                  (mapSetAll TestingRequiredStoryRef.storyObjectId stories [])))
        as [Hin|Hout]; [exact Hin|].
      apply mapGet_None_not_in_keys in Hout. congruence. }
    apply list_elem_of_In in Hin. unfold mapKeys in Hin.
    apply in_map_iff in Hin as ([k v] & Hk & Hin). cbn in Hk. subst k.
    apply In_mapSetAll in Hin as [[Hv ->]|[]].
    apply in_map_iff. eauto.
  - split; [discriminate|]. intros Hin. exfalso.
    apply mapGet_None_not_in_keys in Hget. apply Hget.
    apply in_map_iff in Hin as (story & <- & Hin).
    apply mapKeys_mapSetAll_mem. exact Hin.
Qed.

Lemma addedBetween_spec previous current story :
  In story (addedBetween previous current)
  <-> In story current
      /\ ~ In (TestingRequiredStoryRef.storyObjectId story)
             (map TestingRequiredStoryRef.storyObjectId previous).
Proof.
  unfold addedBetween. rewrite filter_In, negb_true_iff, <- not_true_iff_false.
  rewrite has_byStoryObjectId. reflexivity.
Qed.

Lemma removedBetween_spec previous current story :
  In story (removedBetween previous current)
  <-> In story previous
      /\ ~ In (TestingRequiredStoryRef.storyObjectId story)
             (map TestingRequiredStoryRef.storyObjectId current).
Proof.
  unfold removedBetween. rewrite filter_In, negb_true_iff, <- not_true_iff_false.
  rewrite has_byStoryObjectId. reflexivity.
Qed.

(** Two duplicate-free classification sets of different sizes differ by a
    story that entered or by one that left. *)
Lemma classification_changed previous current :
  NoDup (map TestingRequiredStoryRef.storyObjectId previous) ->
  NoDup (map TestingRequiredStoryRef.storyObjectId current) ->
  length current <> length previous ->
  ~ (addedBetween previous current = [] /\ removedBetween previous current = []).
Proof.
  intros Hprevious Hcurrent Hsize [Hadded Hremoved]. apply Hsize.
  assert (Hin : forall l l' : list TestingRequiredStoryRef.t,
            (forall story, In story l ->
               In (TestingRequiredStoryRef.storyObjectId story)
                  (map TestingRequiredStoryRef.storyObjectId l')) ->
            incl (map TestingRequiredStoryRef.storyObjectId l)
                 (map TestingRequiredStoryRef.storyObjectId l')).
  { intros l l' Hall id Hid. apply in_map_iff in Hid as (story & <- & Hstory). auto. }
  assert (Hcp : incl (map TestingRequiredStoryRef.storyObjectId current)
                     (map TestingRequiredStoryRef.storyObjectId previous)).
  { apply Hin. intros story Hstory.
    destruct (in_dec Z.eq_dec (TestingRequiredStoryRef.storyObjectId story)
                (map TestingRequiredStoryRef.storyObjectId previous)) as [Hyes|Hno];
      [exact Hyes|].
    assert (Hc : In story (addedBetween previous current))
      by (apply addedBetween_spec; auto).
    rewrite Hadded in Hc. destruct Hc. }
  assert (Hpc : incl (map TestingRequiredStoryRef.storyObjectId previous)
                     (map TestingRequiredStoryRef.storyObjectId current)).
  { apply Hin. intros story Hstory.
    destruct (in_dec Z.eq_dec (TestingRequiredStoryRef.storyObjectId story)
                (map TestingRequiredStoryRef.storyObjectId current)) as [Hyes|Hno];
      [exact Hyes|].
    assert (Hc : In story (removedBetween previous current))
      by (apply removedBetween_spec; auto).
    rewrite Hremoved in Hc. destruct Hc. }
  apply NoDup_ListNoDup in Hprevious, Hcurrent.
  pose proof (List.NoDup_incl_length Hcurrent Hcp) as Hle1.
  pose proof (List.NoDup_incl_length Hprevious Hpc) as Hle2.
  rewrite !length_map in Hle1, Hle2. lia.
Qed.

End Classification.

Section Orchestrator.
Context `{JsRuntime}.
Import Main.

Lemma trackers_pollFailed id error w :
  PersistedState.trackers (appState (pollFailed id error w))
  = PersistedState.trackers (appState w).
Proof. unfold pollFailed. destruct (isAuthError error); reflexivity. Qed.

Lemma notifyCalls_pollFailed id error w :
  notifyCalls (pollFailed id error w) = notifyCalls w.
Proof. unfold pollFailed. destruct (isAuthError error); reflexivity. Qed.

Lemma trackers_finishPoll id result current trackerState w :
  PersistedState.trackers (appState (finishPoll id result current trackerState w))
  = <[id := withTestingRequired current trackerState]>
      (PersistedState.trackers (appState w)).
Proof.
  unfold finishPoll. destruct (PollResult.errors result) as [[|first rest]|]; reflexivity.
Qed.

Lemma notifyCalls_finishPoll id result current trackerState w :
  notifyCalls (finishPoll id result current trackerState w) = notifyCalls w.
Proof.
  unfold finishPoll. destruct (PollResult.errors result) as [[|first rest]|]; reflexivity.
Qed.


(** A stored state of the same scope is the one worked on. *)
Lemma workingState_current tracker w stored :
  PersistedState.trackers (appState w) !! TrackerConfig.id tracker = Some stored ->
  TrackerPersistedState.scopeKey stored = AppState.createScopeKey tracker ->
  workingState tracker w = (stored, true).
Proof.
  intros Hstored Hscope. unfold workingState. rewrite Hstored, Hscope.
  rewrite String.eqb_refl. reflexivity.
Qed.


(** C7, as the code has it.  One poll of a tracker calls the notification
    engine at most once, and only after a successful fetch whose
    classification set differs in size from the previous one: the set of
    the state the poll works on, which is the stored one when its scope key
    is current.  The added list then holds exactly the current members
    whose id the previous set lacks and the removed list exactly the
    previous members whose id the current set lacks; they are not both
    empty when the previous set lists no story twice. *)
Theorem pollTracker_notification (env : Environment) (tracker : TrackerConfig.t)
    (w : World) :
  let trackerState := fst (workingState tracker w) in
  let previous := TrackerPersistedState.testingRequiredStories trackerState in
  (forall stored,
     PersistedState.trackers (appState w) !! TrackerConfig.id tracker = Some stored ->
     TrackerPersistedState.scopeKey stored = AppState.createScopeKey tracker ->
     previous = TrackerPersistedState.testingRequiredStories stored)
  /\ exists calls,
       notifyCalls (pollTracker env tracker w) = notifyCalls w ++ calls
       /\ (length calls <= 1)%nat
       /\ forall call, In call calls ->
            exists result,
              ChangeFetcher.fetchStoryChanges (service env) (configOf tracker (apiKey env))
                (pollCursor tracker trackerState)
                (list_to_set (TrackerPersistedState.seenChangeIds trackerState))
                (pollNow env) (apiLatencyMs env) = Ok result
              /\ let current :=
                   map storyRef (getTestingRequiredStories (PollResult.currentStories result)) in
                 length current <> length previous
                 /\ addedStories call = addedBetween previous current
                 /\ removedStories call = removedBetween previous current
                 /\ (forall story,
                       In story (addedStories call)
                       <-> In story current
                           /\ ~ In (TestingRequiredStoryRef.storyObjectId story)
                                  (map TestingRequiredStoryRef.storyObjectId previous))
                 /\ (forall story,
                       In story (removedStories call)
                       <-> In story previous
                           /\ ~ In (TestingRequiredStoryRef.storyObjectId story)
                                  (map TestingRequiredStoryRef.storyObjectId current))
                 /\ (NoDup (map TestingRequiredStoryRef.storyObjectId previous) ->
                     ~ (addedStories call = [] /\ removedStories call = [])).
Proof.
  cbv zeta. split.
  { intros stored Hstored Hscope.
    rewrite (workingState_current _ _ _ Hstored Hscope). reflexivity. }
  unfold pollTracker.
  destruct (workingState tracker w) as [trackerState stored]. cbn [fst] in *.
  destruct (ChangeFetcher.fetchStoryChanges _ _ _ _ _ _) as [result|error] eqn:Hfetch.
  - destruct (negb _) eqn:Hchanged.
    + exists [{| addedStories :=
                   addedBetween (TrackerPersistedState.testingRequiredStories trackerState)
                     (map storyRef
                        (getTestingRequiredStories (PollResult.currentStories result)));
                 removedStories :=
                   removedBetween (TrackerPersistedState.testingRequiredStories trackerState)
                     (map storyRef
                        (getTestingRequiredStories (PollResult.currentStories result))) |}].
      split.
      { destruct (notifyError env) as [error|].
        - rewrite notifyCalls_pollFailed. destruct stored; reflexivity.
        - rewrite notifyCalls_finishPoll. reflexivity. }
      split; [cbn; lia|].
      intros call [<-|[]]. exists result. split; [reflexivity|]. cbv zeta.
      assert (Hsize : length (map storyRef
                                (getTestingRequiredStories (PollResult.currentStories result)))
                      <> length (TrackerPersistedState.testingRequiredStories trackerState)).
      { apply negb_true_iff, Nat.eqb_neq in Hchanged. exact Hchanged. }
      split; [exact Hsize|]. cbn [addedStories removedStories].
      split; [reflexivity|]. split; [reflexivity|].
      split; [intros story; apply addedBetween_spec|].
      split; [intros story; apply removedBetween_spec|].
      intros Hprevious.
      apply classification_changed; [exact Hprevious| |exact Hsize].
      apply testingRequired_unique. eapply currentStories_unique. exact Hfetch.
    + exists []. rewrite notifyCalls_finishPoll, app_nil_r.
      split; [reflexivity|]. split; [cbn; lia|]. intros call [].
  - exists []. rewrite notifyCalls_pollFailed, app_nil_r.
    split; [reflexivity|]. split; [cbn; lia|]. intros call [].
Qed.

(** X10.  A poll keeps the classification sets free of duplicates: when
    no stored state lists a story id twice in its testing-required set,
    none does after the poll. *)
Lemma pollTracker_keeps_classification_unique (env : Environment)
    (tracker : TrackerConfig.t) (w : World) :
  (forall id stored,
     PersistedState.trackers (appState w) !! id = Some stored ->
     NoDup (map TestingRequiredStoryRef.storyObjectId
              (TrackerPersistedState.testingRequiredStories stored))) ->
  forall id stored,
    PersistedState.trackers (appState (pollTracker env tracker w)) !! id = Some stored ->
    NoDup (map TestingRequiredStoryRef.storyObjectId
             (TrackerPersistedState.testingRequiredStories stored)).
Proof.
  intros Hw id stored. unfold pollTracker.
  destruct (workingState tracker w) as [trackerState aliased] eqn:Hworking.
  assert (Hstate : NoDup (map TestingRequiredStoryRef.storyObjectId
                            (TrackerPersistedState.testingRequiredStories trackerState))).
  { unfold workingState in Hworking.
    destruct (PersistedState.trackers (appState w) !! TrackerConfig.id tracker)
      as [state|] eqn:Hstored.
    - destruct (negb _); injection Hworking as <- _; [constructor|].
      eapply Hw. exact Hstored.
    - injection Hworking as <- _. constructor. }
  destruct (ChangeFetcher.fetchStoryChanges _ _ _ _ _ _) as [result|error] eqn:Hfetch.
  - assert (Hcurrent : NoDup (map TestingRequiredStoryRef.storyObjectId
                                (map storyRef (getTestingRequiredStories
                                                 (PollResult.currentStories result)))))
      by (apply testingRequired_unique; eapply currentStories_unique; exact Hfetch).
    assert (Hfinish : forall trackerState' w',
              PersistedState.trackers (appState w') = PersistedState.trackers (appState w) ->
              PersistedState.trackers
                (appState (finishPoll (TrackerConfig.id tracker) result
                             (map storyRef (getTestingRequiredStories
                                              (PollResult.currentStories result)))
                             trackerState' w')) !! id = Some stored ->
              NoDup (map TestingRequiredStoryRef.storyObjectId
                       (TrackerPersistedState.testingRequiredStories stored))).
    { intros trackerState' w' Hsame. rewrite trackers_finishPoll, Hsame.
      destruct (decide (TrackerConfig.id tracker = id)) as [->|Hne].
      - rewrite lookup_insert_eq. intros [= <-]. exact Hcurrent.
      - rewrite lookup_insert_ne by exact Hne. apply Hw. }
    destruct (negb _).
    + destruct (notifyError env) as [error|].
      * rewrite trackers_pollFailed. destruct aliased; [|apply Hw].
        cbn. destruct (decide (TrackerConfig.id tracker = id)) as [->|Hne].
        -- rewrite lookup_insert_eq. intros [= <-]. exact Hstate.
        -- rewrite lookup_insert_ne by exact Hne. apply Hw.
      * apply Hfinish. reflexivity.
    + apply Hfinish. reflexivity.
  - rewrite trackers_pollFailed. apply Hw.
Qed.

End Orchestrator.


(** C7 on a tracker whose stored classification set holds story 400 while
    the sprint now holds stories 501 and 502 ready and in progress. *)
Lemma pollTracker_notification_witness :
  let w := Examples.world (Some Examples.currentState) in
  let env := Examples.environment
               [Examples.story 501 "US501" true "In-Progress";
                Examples.story 502 "US502" true "in_progress";
                Examples.story 503 "US503" false "In-Progress"] [] in
  Main.notifyCalls (@Main.pollTracker IsoRuntime.runtime env Examples.tracker w)
  = [{| Main.addedStories := [Examples.ref 501 "US501"; Examples.ref 502 "US502"];
        Main.removedStories := [Examples.ref 400 "US400"] |}]
  /\ exists calls,
       Main.notifyCalls (@Main.pollTracker IsoRuntime.runtime env Examples.tracker w)
       = Main.notifyCalls w ++ calls
       /\ (length calls <= 1)%nat.
Proof.
  cbv zeta. split; [vm_compute; reflexivity|].
  destruct (@pollTracker_notification IsoRuntime.runtime
              (Examples.environment
                 [Examples.story 501 "US501" true "In-Progress";
                  Examples.story 502 "US502" true "in_progress";
                  Examples.story 503 "US503" false "In-Progress"] [])
              Examples.tracker (Examples.world (Some Examples.currentState)))
    as (_ & calls & Hcalls & Hlen & _).
  exists calls. split; [exact Hcalls|exact Hlen].
Defined.

(** C7, as stated, fails.  With a stored set that lists story 400 twice
    and a sprint that holds story 400, the sizes differ and the engine is
    called with two empty lists.  With a stored state of another scope
    whose set holds story 400 and a sprint that holds story 501, the
    stored and the current set have the same size, yet the engine is
    called, and story 400 is not reported as removed. *)
Lemma pollTracker_notifies_beyond_claim :
  Main.notifyCalls
    (@Main.pollTracker IsoRuntime.runtime
       (Examples.environment [Examples.story 400 "US400" true "In-Progress"] [])
       Examples.tracker (Examples.world (Some Examples.duplicatedState)))
  = [{| Main.addedStories := []; Main.removedStories := [] |}]
  /\ length (TrackerPersistedState.testingRequiredStories Examples.staleState)
     = length (map Main.storyRef
                 (Main.getTestingRequiredStories
                    [Examples.story 501 "US501" true "In-Progress"]))
  /\ Main.notifyCalls
       (@Main.pollTracker IsoRuntime.runtime
          (Examples.environment [Examples.story 501 "US501" true "In-Progress"] [])
          Examples.tracker (Examples.world (Some Examples.staleState)))
     = [{| Main.addedStories := [Examples.ref 501 "US501"]; Main.removedStories := [] |}].
Proof.
  split; [vm_compute; reflexivity|]. split; [reflexivity|]. vm_compute. reflexivity.
Qed.

(** One story enters while another leaves: the sizes agree and the engine
    is not called. *)
Example pollTracker_same_size_swap :
  Main.notifyCalls
    (@Main.pollTracker IsoRuntime.runtime
       (Examples.environment [Examples.story 501 "US501" true "In-Progress"] [])
       Examples.tracker (Examples.world (Some Examples.currentState)))
  = [].
Proof. vm_compute. reflexivity. Qed.

(* ===================================================================== *)
(** * Histories: order and identity of the entries *)
(* ===================================================================== *)

Section SortAdjacent.
Context {A : Type} (compareFn : A -> A -> option Z).
Hypothesis antisymmetric :
  forall x y, after compareFn x y = true -> after compareFn y x = false.

Lemma insertSorted_adjacent (x : A) (l : list A) :
  Sorted (fun a b => after compareFn a b = false) l ->
  Sorted (fun a b => after compareFn a b = false) (insertSorted compareFn x l).
Proof.
  induction l as [|y rest IH]; intros Hsorted; cbn [insertSorted].
  - repeat constructor.
  - destruct (after compareFn x y) eqn:Hxy.
    + apply Sorted_inv in Hsorted as [Hrest Hhead].
      constructor; [apply IH; exact Hrest|].
      destruct rest as [|z rest']; cbn [insertSorted].
      * constructor. apply antisymmetric. exact Hxy.
      * destruct (after compareFn x z).
        -- constructor. apply HdRel_inv in Hhead. exact Hhead.
        -- constructor. apply antisymmetric. exact Hxy.
    + constructor; [exact Hsorted|]. constructor. exact Hxy.
Qed.

Lemma sort_adjacent (l : list A) :
  Sorted (fun a b => after compareFn a b = false) (sort compareFn l).
Proof.
  induction l as [|x rest IH]; cbn [sort]; [constructor|].
  apply insertSorted_adjacent. exact IH.
Qed.
End SortAdjacent.

Section OrderedMapLookup.
Context {K V : Type} `{EqDecision K}.

Lemma mapGet_In (k : K) (v : V) m : mapGet k m = Some v -> In (k, v) m.
Proof.
  induction m as [|[k' v'] rest IH]; cbn; [discriminate|].
  destruct (decide (k' = k)) as [->|Hne].
  - intros [= ->]. left. reflexivity.
  - intros Hget. right. apply IH. exact Hget.
Qed.

Lemma In_mapGet (k : K) (v : V) m :
  NoDup (mapKeys m) -> In (k, v) m -> mapGet k m = Some v.
Proof.
  induction m as [|[k' v'] rest IH]; cbn; [intros _ []|].
  intros Hnd [Heq|Hin].
  - injection Heq as -> ->. destruct (decide (k = k)); [reflexivity|contradiction].
  - apply NoDup_cons in Hnd as [Hfresh Hnd].
    destruct (decide (k' = k)) as [->|Hne].
    + exfalso. apply Hfresh. apply list_elem_of_In.
      change (In (fst (k, v)) (map fst rest)). apply in_map. exact Hin.
    + apply IH; assumption.
Qed.

Lemma mapKeys_mapSetAll_iff (key : V -> K) (xs : list V) m k :
  k ∈ mapKeys (mapSetAll key xs m) <-> k ∈ mapKeys m \/ In k (map key xs).
Proof.
  split.
  - intros Hin. apply list_elem_of_In, in_map_iff in Hin as ([k' v] & <- & Hin).
    apply In_mapSetAll in Hin as [[Hv ->]|Hm]; cbn [fst].
    + right. apply in_map. exact Hv.
    + left. apply list_elem_of_In. change (In (fst (k', v)) (map fst m)).
      apply in_map. exact Hm.
  - intros [Hm|Hxs].
    + apply mapKeys_mapSetAll_incl. exact Hm.
    + apply in_map_iff in Hxs as (x & <- & Hx). apply mapKeys_mapSetAll_mem. exact Hx.
Qed.

Lemma NoDup_map_eq {B} (f : V -> B) (l : list V) (x y : V) :
  NoDup (map f l) -> In x l -> In y l -> f x = f y -> x = y.
Proof.
  induction l as [|z rest IH]; cbn; [intros _ []|].
  intros Hnd Hx Hy Heq. apply NoDup_cons in Hnd as [Hfresh Hnd].
  destruct Hx as [->|Hx], Hy as [->|Hy].
  - reflexivity.
  - exfalso. apply Hfresh. rewrite Heq. apply list_elem_of_In, in_map. exact Hy.
  - exfalso. apply Hfresh. rewrite <- Heq. apply list_elem_of_In, in_map. exact Hx.
  - apply IH; assumption.
Qed.

(** With distinct keys in [xs], the entry found for the key of a member is
    the member. *)
Lemma find_key_member (key : V -> K) (xs : list V) (x : V) :
  NoDup (map key xs) -> In x xs ->
  find (fun y => bool_decide (key y = key x)) (rev xs) = Some x.
Proof.
  intros Hnd Hx.
  destruct (find _ (rev xs)) as [y|] eqn:Hfind.
  - apply find_some in Hfind as [Hy Hkey]. apply bool_decide_eq_true in Hkey.
    apply in_rev in Hy. f_equal. eapply NoDup_map_eq; eassumption.
  - exfalso. eapply find_none in Hfind; [|apply in_rev in Hx; exact Hx].
    apply bool_decide_eq_false in Hfind. apply Hfind. reflexivity.
Qed.

Lemma find_key_absent (key : V -> K) (xs : list V) (k : K) :
  ~ In k (map key xs) -> find (fun y => bool_decide (key y = k)) (rev xs) = None.
Proof.
  intros Habsent. destruct (find _ (rev xs)) as [y|] eqn:Hfind; [|reflexivity].
  apply find_some in Hfind as [Hy Hkey]. apply bool_decide_eq_true in Hkey.
  exfalso. apply Habsent. rewrite <- Hkey. apply in_map, in_rev. exact Hy.
Qed.
End OrderedMapLookup.

Section Histories.
Context `{JsRuntime}.
Import AppState.

Lemma byChangedAtDesc_antisymmetric (a b : StoryChange.t) :
  after byChangedAtDesc a b = true -> after byChangedAtDesc b a = false.
Proof.
  unfold after, byChangedAtDesc, sub.
  destruct (Date_parse (StoryChange.changedAt a)) as [ta|],
           (Date_parse (StoryChange.changedAt b)) as [tb|]; try discriminate.
  intros Hlt. apply Z.ltb_lt in Hlt. apply Z.ltb_ge. lia.
Qed.

(** The map that [mergeHistory] builds. *)
Lemma mergeHistory_map (existing incoming : list StoryChange.t) :
  let merged :=
    mapSetAll StoryChange.changeId incoming (mapSetAll StoryChange.changeId existing []) in
  NoDup (mapKeys merged)
  /\ Forall (fun entry => fst entry = StoryChange.changeId (snd entry)) merged
  /\ Permutation (mergeHistory existing incoming) (mapValues merged).
Proof.
  cbv zeta. split; [|split].
  - do 2 apply NoDup_mapKeys_mapSetAll. constructor.
  - do 2 apply mapSetAll_keyed. constructor.
  - apply sort_perm.
Qed.

Lemma mergeHistory_NoDup (existing incoming : list StoryChange.t) :
  NoDup (map StoryChange.changeId (mergeHistory existing incoming)).
Proof.
  destruct (mergeHistory_map existing incoming) as (Hnd & Hkeyed & Hperm).
  rewrite Hperm, (keyed_values _ _ Hkeyed). exact Hnd.
Qed.

Lemma mergeHistory_ids (existing incoming : list StoryChange.t) (id : string) :
  In id (map StoryChange.changeId (mergeHistory existing incoming))
  <-> In id (map StoryChange.changeId existing)
      \/ In id (map StoryChange.changeId incoming).
Proof.
  destruct (mergeHistory_map existing incoming) as (Hnd & Hkeyed & Hperm).
  rewrite Hperm, (keyed_values _ _ Hkeyed).
  rewrite <- list_elem_of_In, !mapKeys_mapSetAll_iff. cbn [mapKeys map].
  rewrite elem_of_nil. tauto.
Qed.

Lemma mergeHistory_newestFirst (existing incoming : list StoryChange.t) :
  newestFirst (mergeHistory existing incoming).
Proof. apply sort_adjacent. exact byChangedAtDesc_antisymmetric. Qed.

Lemma mergeHistory_stable (history : list StoryChange.t) :
  NoDup (map StoryChange.changeId history) -> newestFirst history ->
  mergeHistory history [] = history.
Proof.
  intros Hnd Hsorted. unfold mergeHistory. cbv zeta. cbn [mapSetAll fold_left].
  rewrite (mapSetAll_distinct StoryChange.changeId history []) by exact Hnd.
  cbn [app]. rewrite mapValues_pairs. apply sort_sorted. exact Hsorted.
Qed.

Lemma dedupe_mergeHistory (changes : list StoryChange.t) :
  ChangeFetcher.dedupe changes = mergeHistory changes [].
Proof. reflexivity. Qed.

Lemma newestFirst_parsed (history : list StoryChange.t) :
  newestFirst history ->
  Forall (fun change => Date_parse (StoryChange.changedAt change) <> None) history ->
  StronglySorted
    (fun a b => exists ta tb,
       Date_parse (StoryChange.changedAt a) = Some ta
       /\ Date_parse (StoryChange.changedAt b) = Some tb /\ tb <= ta)
    history.
Proof.
  intros Hsorted Hparsed. apply Sorted_StronglySorted.
  { intros a b c (ta & tb & Ha & Hb & Hab) (tb' & tc & Hb' & Hc & Hbc).
    rewrite Hb in Hb'. injection Hb' as <-. exists ta, tc. repeat split; try assumption. lia. }
  induction Hsorted as [|a rest Hrest IH Hhead]; [constructor|].
  apply Forall_cons in Hparsed as [Ha Hparsed].
  constructor; [apply IH; exact Hparsed|].
  destruct Hhead as [|b rest' Hab]; constructor.
  apply Forall_cons in Hparsed as [Hb _].
  unfold after, byChangedAtDesc, sub in Hab.
  destruct (Date_parse (StoryChange.changedAt a)) as [ta|]; [|contradiction].
  destruct (Date_parse (StoryChange.changedAt b)) as [tb|]; [|contradiction].
  exists ta, tb. repeat split. apply Z.ltb_ge in Hab. lia.
Qed.

(** X2.  Whatever the two lists hold, the history returned by
    [mergeHistory] lists every change id of either list exactly once, no
    entry is directly followed by a newer one (and none is followed by a
    newer one at any distance when every timestamp parses), and merging the
    result with nothing gives it back unchanged. *)
Theorem mergeHistory_distinct_newest_first (existing incoming : list StoryChange.t) :
  let merged := mergeHistory existing incoming in
  NoDup (map StoryChange.changeId merged)
  /\ (forall id,
        In id (map StoryChange.changeId merged)
        <-> In id (map StoryChange.changeId existing)
            \/ In id (map StoryChange.changeId incoming))
  /\ newestFirst merged
  /\ (Forall (fun change => Date_parse (StoryChange.changedAt change) <> None) merged ->
      StronglySorted
        (fun a b => exists ta tb,
           Date_parse (StoryChange.changedAt a) = Some ta
           /\ Date_parse (StoryChange.changedAt b) = Some tb /\ tb <= ta)
        merged)
  /\ mergeHistory merged [] = merged.
Proof.
  cbv zeta.
  split; [apply mergeHistory_NoDup|].
  split; [apply mergeHistory_ids|].
  split; [apply mergeHistory_newestFirst|].
  split; [apply newestFirst_parsed, mergeHistory_newestFirst|].
  apply mergeHistory_stable; [apply mergeHistory_NoDup|apply mergeHistory_newestFirst].
Qed.

(** X3.  On a change id that both lists hold, the incoming entry replaces
    the existing one: an entry of the merged history comes from the
    incoming list, or from the existing list under an id that no incoming
    entry has; every entry of an incoming list with distinct ids is in the
    merged history, and so is every existing entry of a list with distinct
    ids whose id is not incoming. *)
Theorem mergeHistory_incoming_replaces_existing (existing incoming : list StoryChange.t) :
  (forall change, In change (mergeHistory existing incoming) ->
     In change incoming
     \/ (In change existing
         /\ ~ In (StoryChange.changeId change) (map StoryChange.changeId incoming)))
  /\ (NoDup (map StoryChange.changeId incoming) ->
      forall change, In change incoming -> In change (mergeHistory existing incoming))
  /\ (NoDup (map StoryChange.changeId existing) ->
      forall change, In change existing ->
        ~ In (StoryChange.changeId change) (map StoryChange.changeId incoming) ->
        In change (mergeHistory existing incoming)).
Proof.
  destruct (mergeHistory_map existing incoming) as (Hnd & Hkeyed & Hperm).
  cbv zeta in Hnd, Hkeyed, Hperm.
  set (merged := mapSetAll StoryChange.changeId incoming
                   (mapSetAll StoryChange.changeId existing [])) in *.
  assert (Hget : forall change,
            In change (mergeHistory existing incoming)
            <-> mapGet (StoryChange.changeId change) merged = Some change).
  { intros change. rewrite Hperm. unfold mapValues. split.
    - intros Hin. apply in_map_iff in Hin as ([k c] & Heq & Hin). cbn in Heq. subst c.
      pose proof Hkeyed as Hk. rewrite List.Forall_forall in Hk.
      specialize (Hk _ Hin). cbn in Hk. subst k. apply In_mapGet; assumption.
    - intros Hsome. apply mapGet_In in Hsome.
      change change with (snd (StoryChange.changeId change, change)).
      apply in_map. exact Hsome. }
  assert (Hlookup : forall k,
            mapGet k merged
            = match find (fun x => bool_decide (StoryChange.changeId x = k)) (rev incoming) with
              | Some x => Some x
              | None => find (fun x => bool_decide (StoryChange.changeId x = k)) (rev existing)
              end).
  { intros k. unfold merged. rewrite !mapGet_mapSetAll. cbn [mapGet].
    destruct (find _ (rev incoming)); [reflexivity|].
    destruct (find _ (rev existing)); reflexivity. }
  split; [|split].
  - intros change Hin. apply Hget in Hin. rewrite Hlookup in Hin.
    destruct (find _ (rev incoming)) as [x|] eqn:Hincoming.
    + injection Hin as ->. left. apply find_some in Hincoming as [Hx _].
      apply in_rev. exact Hx.
    + right. split.
      * apply find_some in Hin as [Hx _]. apply in_rev. exact Hx.
      * intros Hid. apply in_map_iff in Hid as (x & Hkey & Hx).
        eapply find_none in Hincoming; [|apply in_rev in Hx; exact Hx].
        apply bool_decide_eq_false in Hincoming. contradiction.
  - intros Hdistinct change Hin. apply Hget. rewrite Hlookup.
    rewrite (find_key_member StoryChange.changeId incoming change Hdistinct Hin).
    reflexivity.
  - intros Hdistinct change Hin Habsent. apply Hget. rewrite Hlookup.
    rewrite (find_key_absent StoryChange.changeId incoming _ Habsent).
    apply (find_key_member StoryChange.changeId existing change Hdistinct Hin).
Qed.

End Histories.

(* ===================================================================== *)
(** * The change extractor: what a poll reports *)
(* ===================================================================== *)

Section Reported.
Context `{JsRuntime}.
Import RallyClient ChangeFetcher.

Lemma fetchStoryChanges_merged service config cursor seenIds now latency result :
  fetchStoryChanges service config cursor seenIds now latency = Ok result ->
  exists changes, PollResult.newChanges result = AppState.mergeHistory changes [].
Proof.
  intros Hok. destruct (truthy (Config.iterationOid config)) eqn:Hsprint.
  - destruct (fetchStoryChanges_Ok _ _ _ _ _ _ _ Hsprint Hok)
      as (stories & snapshots & storyMeta & projectNames & _ & _ & _ & ->).
    unfold changesOfSnapshots. eexists. apply dedupe_mergeHistory.
  - destruct (fetchStoryChanges_no_sprint _ _ _ _ _ _ _ Hsprint Hok) as [_ ->].
    exists []. reflexivity.
Qed.

(** The new changes of a poll have distinct ids, none of them seen. *)
Lemma fetchStoryChanges_reports_new service config cursor seenIds now latency result :
  fetchStoryChanges service config cursor seenIds now latency = Ok result ->
  NoDup (map StoryChange.changeId (PollResult.newChanges result))
  /\ forall change, In change (PollResult.newChanges result) ->
       StoryChange.changeId change ∉ seenIds.
Proof.
  intros Hok. split.
  - destruct (fetchStoryChanges_merged _ _ _ _ _ _ _ Hok) as (changes & ->).
    apply mergeHistory_NoDup.
  - intros change Hin.
    destruct (newChanges_origin _ _ _ _ _ _ _ _ Hok Hin)
      as (snapshots & snapshot & byId & storyMeta & projectNames & _ & _ & Hchange).
    apply changeOfSnapshot_Some in Hchange. tauto.
Qed.

(** X1.  The changes a poll reports have pairwise distinct ids, none of
    which is in the set of seen ids handed to the extractor; no change is
    directly followed by a newer one; each has a timestamp that is not the empty
    string and at least one changed field, and none of its changed fields
    starts with an underscore. *)
Theorem fetchStoryChanges_reports_unseen_changes_once
    service config cursor seenIds now latency result :
  fetchStoryChanges service config cursor seenIds now latency = Ok result ->
  NoDup (map StoryChange.changeId (PollResult.newChanges result))
  /\ AppState.newestFirst (PollResult.newChanges result)
  /\ (forall change, In change (PollResult.newChanges result) ->
        (StoryChange.changeId change ∉ seenIds)
        /\ StoryChange.changedAt change <> ""
        /\ StoryChange.changedFields change <> []
        /\ Forall (fun field => startsWith "_" field = false)
             (StoryChange.changedFields change)).
Proof.
  intros Hok.
  destruct (fetchStoryChanges_merged _ _ _ _ _ _ _ Hok) as (changes & Hmerged).
  split; [rewrite Hmerged; apply mergeHistory_NoDup|].
  split; [rewrite Hmerged; apply mergeHistory_newestFirst|].
  intros change Hin.
  destruct (newChanges_origin _ _ _ _ _ _ _ _ Hok Hin)
    as (snapshots & snapshot & byId & storyMeta & projectNames & _ & _ & Hchange).
  apply changeOfSnapshot_Some in Hchange
    as (_ & _ & Hat & Hfields & Hsome & _ & Hunseen).
  split; [exact Hunseen|]. split; [exact Hat|]. split; [exact Hsome|].
  rewrite Hfields. unfold extractChangedFields.
  apply List.Forall_forall. intros field Hfield.
  apply filter_In in Hfield as [_ Hfield]. apply negb_true_iff in Hfield. exact Hfield.
Qed.

End Reported.

(** X1 on a feed that holds the record [nameThenOwner] twice and the
    record [ownerThenName], whose change id is already seen: one change is
    reported. *)
Lemma fetchStoryChanges_reports_unseen_changes_once_witness :
  exists result,
    @ChangeFetcher.fetchStoryChanges IsoRuntime.runtime
      (Examples.service []
         [Examples.nameThenOwner; Examples.ownerThenName; Examples.nameThenOwner])
      Examples.config Examples.sprintStart {["421qk7"]} 1709290800000 120 = Ok result
    /\ map StoryChange.changeId (PollResult.newChanges result) = ["z9syxx"]
    /\ NoDup (map StoryChange.changeId (PollResult.newChanges result)).
Proof.
  eexists. split; [vm_compute; reflexivity|].
  split; [vm_compute; reflexivity|].
  refine (proj1 (@fetchStoryChanges_reports_unseen_changes_once IsoRuntime.runtime
                   (Examples.service []
                      [Examples.nameThenOwner; Examples.ownerThenName;
                       Examples.nameThenOwner])
                   Examples.config Examples.sprintStart {["421qk7"]} 1709290800000 120
                   _ _)).
  vm_compute. reflexivity.
Defined.

(* ===================================================================== *)
(** * Trimming *)
(* ===================================================================== *)

Section Trimming.
Context `{JsRuntime}.
Import AppState.

Lemma filter_subsumed {A} (p q : A -> bool) (l : list A) :
  (forall x, q x = true -> p x = true) ->
  List.filter q (List.filter p l) = List.filter q l.
Proof.
  intros Hpq. induction l as [|x rest IH]; cbn; [reflexivity|].
  destruct (p x) eqn:Hp; cbn.
  - rewrite IH. reflexivity.
  - destruct (q x) eqn:Hq; [|exact IH].
    apply Hpq in Hq. congruence.
Qed.

Lemma slice_last_twice {A} (l : list A) (n : Z) :
  0 < n -> slice (slice l (- n) None) (- n) None = slice l (- n) None.
Proof.
  intros Hn. rewrite !slice_last by exact Hn.
  rewrite length_skipn.
  replace (length l - (length l - Z.to_nat n) - Z.to_nat n)%nat with 0%nat by lia.
  reflexivity.
Qed.

(** X4.  A trim at a later instant subsumes an earlier one: trimming at
    [now2] a state already trimmed at [now1 <= now2] gives what trimming
    the original state at [now2] gives; in particular trimming twice at one
    instant is trimming once. *)
Theorem trimTrackerState_later_trim_subsumes (now1 now2 : Z)
    (state : TrackerPersistedState.t) :
  now1 <= now2 ->
  trimTrackerState now2 (trimTrackerState now1 state) = trimTrackerState now2 state.
Proof.
  intros Hle. unfold trimTrackerState.
  cbn [TrackerPersistedState.scopeKey TrackerPersistedState.cursor
       TrackerPersistedState.seenChangeIds TrackerPersistedState.lastNotificationAt
       TrackerPersistedState.history TrackerPersistedState.lastCheckedAt
       TrackerPersistedState.testingRequiredStories].
  change (-2000) with (- (2000)).
  rewrite slice_last_twice by lia.
  rewrite filter_subsumed; [reflexivity|].
  intros entry. unfold retained.
  destruct (Date_parse (StoryChange.changedAt entry)) as [ts|]; [|discriminate].
  intros Hkept. apply Z.leb_le in Hkept. apply Z.leb_le. lia.
Qed.

End Trimming.

(** X4 on the state of [trimTrackerState_example], trimmed 44 days and then
    46 days after the older of its two changes. *)
Lemma trimTrackerState_later_trim_subsumes_witness :
  let now1 := 1709287200000 + 44 * 86400000 in
  let now2 := 1709287200000 + 46 * 86400000 in
  let state :=
    {| TrackerPersistedState.scopeKey := "41529001|7001|9001";
       TrackerPersistedState.cursor := None;
       TrackerPersistedState.seenChangeIds := "first" :: repeat "later" 2000;
       TrackerPersistedState.lastNotificationAt := None;
       TrackerPersistedState.history :=
         [Examples.change "b2" "2024-03-03T10:00:00.000Z"; Examples.older];
       TrackerPersistedState.lastCheckedAt := None;
       TrackerPersistedState.testingRequiredStories := [] |} in
  now1 <= now2
  /\ @AppState.trimTrackerState IsoRuntime.runtime now2
       (@AppState.trimTrackerState IsoRuntime.runtime now1 state)
     = @AppState.trimTrackerState IsoRuntime.runtime now2 state.
Proof.
  cbv zeta. split; [lia|].
  apply (@trimTrackerState_later_trim_subsumes IsoRuntime.runtime). lia.
Defined.

(* ===================================================================== *)
(** * The poll orchestrator: what one poll stores *)
(* ===================================================================== *)

Section PollEffects.
Context `{JsRuntime}.
Import Main.

Lemma appState_pollFailed id error w : appState (pollFailed id error w) = appState w.
Proof. unfold pollFailed. destruct (isAuthError error); reflexivity. Qed.

Lemma currentStories_pollFailed id error w :
  currentStoriesByTracker (pollFailed id error w) = currentStoriesByTracker w.
Proof. unfold pollFailed. destruct (isAuthError error); reflexivity. Qed.

Lemma status_pollFailed id error w :
  statusByTracker (pollFailed id error w)
  = <[id := if isAuthError error then "Authentication failed. Update API key."
            else formatError error "Polling failed; retrying."]> (statusByTracker w).
Proof. unfold pollFailed. destruct (isAuthError error); reflexivity. Qed.


Lemma activeTrackerId_finishPoll id result current trackerState w :
  PersistedState.activeTrackerId (appState (finishPoll id result current trackerState w))
  = PersistedState.activeTrackerId (appState w).
Proof.
  unfold finishPoll. destruct (PollResult.errors result) as [[|first rest]|]; reflexivity.
Qed.

Lemma currentStories_finishPoll id result current trackerState w :
  currentStoriesByTracker (finishPoll id result current trackerState w)
  = currentStoriesByTracker w.
Proof.
  unfold finishPoll. destruct (PollResult.errors result) as [[|first rest]|]; reflexivity.
Qed.

Lemma status_finishPoll id result current trackerState w other :
  other <> id ->
  statusByTracker (finishPoll id result current trackerState w) !! other
  = statusByTracker w !! other.
Proof.
  intros Hne. unfold finishPoll.
  destruct (PollResult.errors result) as [[|first rest]|]; cbn;
    apply lookup_insert_ne; congruence.
Qed.

Lemma pollingStopped_finishPoll id result current trackerState w :
  pollingStopped (finishPoll id result current trackerState w) = pollingStopped w.
Proof.
  unfold finishPoll. destruct (PollResult.errors result) as [[|first rest]|]; reflexivity.
Qed.

Lemma pollTracker_elsewhere (env : Environment) (tracker : TrackerConfig.t)
    (w : World) (other : string) :
  other <> TrackerConfig.id tracker ->
  let after := pollTracker env tracker w in
  PersistedState.trackers (appState after) !! other
  = PersistedState.trackers (appState w) !! other
  /\ currentStoriesByTracker after !! other = currentStoriesByTracker w !! other
  /\ statusByTracker after !! other = statusByTracker w !! other
  /\ PersistedState.activeTrackerId (appState after)
     = PersistedState.activeTrackerId (appState w).
Proof.
  intros Hne. cbv zeta. unfold pollTracker.
  assert (Hne' : TrackerConfig.id tracker <> other) by congruence.
  destruct (workingState tracker w) as [trackerState aliased].
  destruct (ChangeFetcher.fetchStoryChanges _ _ _ _ _ _) as [result|error].
  - assert (Hfinish : forall trackerState' w',
              PersistedState.trackers (appState w') = PersistedState.trackers (appState w) ->
              PersistedState.activeTrackerId (appState w')
              = PersistedState.activeTrackerId (appState w) ->
              currentStoriesByTracker w'
              = <[TrackerConfig.id tracker := PollResult.currentStories result]>
                  (currentStoriesByTracker w) ->
              statusByTracker w' = statusByTracker w ->
              let after :=
                finishPoll (TrackerConfig.id tracker) result
                  (map storyRef (getTestingRequiredStories (PollResult.currentStories result)))
                  trackerState' w' in
              PersistedState.trackers (appState after) !! other
              = PersistedState.trackers (appState w) !! other
              /\ currentStoriesByTracker after !! other = currentStoriesByTracker w !! other
              /\ statusByTracker after !! other = statusByTracker w !! other
              /\ PersistedState.activeTrackerId (appState after)
                 = PersistedState.activeTrackerId (appState w)).
    { intros trackerState' w' Htrackers Hactive Hstories Hstatus. cbv zeta.
      rewrite trackers_finishPoll, currentStories_finishPoll, activeTrackerId_finishPoll,
        (status_finishPoll _ _ _ _ _ _ Hne), Htrackers, Hstories, Hstatus, Hactive.
      rewrite !lookup_insert_ne by exact Hne'. auto. }
    destruct (negb _).
    + destruct (notifyError env) as [error|].
      * rewrite trackers_pollFailed, currentStories_pollFailed, status_pollFailed,
          appState_pollFailed.
        rewrite lookup_insert_ne by exact Hne'.
        destruct aliased; cbn; rewrite !lookup_insert_ne by exact Hne'; auto.
      * apply Hfinish; reflexivity.
    + apply Hfinish; reflexivity.
  - rewrite appState_pollFailed, currentStories_pollFailed, status_pollFailed.
    rewrite lookup_insert_ne by exact Hne'. auto.
Qed.

(** What a poll stores for its tracker depends on the world only through
    the state stored for that tracker. *)
Lemma pollTracker_local (env : Environment) (tracker : TrackerConfig.t) (w1 w2 : World) :
  PersistedState.trackers (appState w1) !! TrackerConfig.id tracker
  = PersistedState.trackers (appState w2) !! TrackerConfig.id tracker ->
  PersistedState.trackers (appState (pollTracker env tracker w1)) !! TrackerConfig.id tracker
  = PersistedState.trackers (appState (pollTracker env tracker w2)) !! TrackerConfig.id tracker.
Proof.
  intros Hsame. unfold pollTracker.
  assert (Hworking : workingState tracker w1 = workingState tracker w2)
    by (unfold workingState; rewrite Hsame; reflexivity).
  rewrite Hworking. destruct (workingState tracker w2) as [trackerState aliased].
  destruct (ChangeFetcher.fetchStoryChanges _ _ _ _ _ _) as [result|error].
  - destruct (negb _).
    + destruct (notifyError env) as [error|].
      * rewrite !trackers_pollFailed. destruct aliased; cbn.
        -- rewrite !lookup_insert_eq. reflexivity.
        -- exact Hsame.
      * rewrite !trackers_finishPoll, !lookup_insert_eq. reflexivity.
    + rewrite !trackers_finishPoll, !lookup_insert_eq. reflexivity.
  - rewrite !trackers_pollFailed. exact Hsame.
Qed.

(** X5.  A poll of one tracker leaves every other tracker alone: the
    stored state, the story list and the status text kept under another
    tracker id are what they were, and so is the active tracker id. *)
Theorem pollTracker_touches_one_tracker (env : Environment) (tracker : TrackerConfig.t)
    (w : World) (other : string) :
  other <> TrackerConfig.id tracker ->
  let after := pollTracker env tracker w in
  PersistedState.trackers (appState after) !! other
  = PersistedState.trackers (appState w) !! other
  /\ currentStoriesByTracker after !! other = currentStoriesByTracker w !! other
  /\ statusByTracker after !! other = statusByTracker w !! other
  /\ PersistedState.activeTrackerId (appState after)
     = PersistedState.activeTrackerId (appState w).
Proof. apply pollTracker_elsewhere. Qed.


(** X7.  After a successful fetch (and no failure of the notification
    engine) the tracker's stored state has the scope key of its
    configuration; its cursor and its last-checked time are the cursor of
    the poll result, which is the clock reading taken at the end of the
    fetch when a sprint is selected; its classification set is the one of
    the fetched stories; its seen ids are those of the state worked on
    followed by the ids of the new changes; its history holds exactly the
    change ids of the previous history and of the new changes; and the
    story list kept for the tracker is the fetched one. *)
Theorem pollTracker_stores_poll_result (env : Environment) (tracker : TrackerConfig.t)
    (w : World) (result : PollResult.t) :
  let id := TrackerConfig.id tracker in
  let trackerState := fst (workingState tracker w) in
  ChangeFetcher.fetchStoryChanges (service env) (configOf tracker (apiKey env))
    (pollCursor tracker trackerState)
    (list_to_set (TrackerPersistedState.seenChangeIds trackerState))
    (pollNow env) (apiLatencyMs env) = Ok result ->
  notifyError env = None ->
  let after := pollTracker env tracker w in
  currentStoriesByTracker after !! id = Some (PollResult.currentStories result)
  /\ (truthy (TrackerConfig.iterationOid tracker) = true ->
      PollResult.cursor result = toISOString (pollNow env))
  /\ exists stored,
       PersistedState.trackers (appState after) !! id = Some stored
       /\ TrackerPersistedState.scopeKey stored = AppState.createScopeKey tracker
       /\ TrackerPersistedState.cursor stored = Some (PollResult.cursor result)
       /\ TrackerPersistedState.lastCheckedAt stored = Some (PollResult.cursor result)
       /\ TrackerPersistedState.testingRequiredStories stored
          = map storyRef (getTestingRequiredStories (PollResult.currentStories result))
       /\ TrackerPersistedState.seenChangeIds stored
          = TrackerPersistedState.seenChangeIds trackerState
            ++ map StoryChange.changeId (PollResult.newChanges result)
       /\ (forall changeId,
             In changeId (map StoryChange.changeId (TrackerPersistedState.history stored))
             <-> In changeId
                   (map StoryChange.changeId (TrackerPersistedState.history trackerState))
                 \/ In changeId (map StoryChange.changeId (PollResult.newChanges result))).
Proof.
  cbv zeta. unfold pollTracker.
  destruct (workingState tracker w) as [trackerState aliased]. cbn [fst].
  intros Hfetch Hnotify. rewrite Hfetch, Hnotify.
  assert (Hcursor : truthy (TrackerConfig.iterationOid tracker) = true ->
                    PollResult.cursor result = toISOString (pollNow env)).
  { intros Hsprint. unfold ChangeFetcher.fetchStoryChanges in Hfetch.
    cbn [configOf Config.iterationOid] in Hfetch. rewrite Hsprint in Hfetch.
    cbn [negb] in Hfetch.
    repeat (apply bind_Ok in Hfetch as (? & _ & Hfetch)).
    injection Hfetch as <-. reflexivity. }
  assert (Hrecorded :
            let recorded := recordPoll (AppState.createScopeKey tracker) result trackerState in
            TrackerPersistedState.seenChangeIds recorded
            = TrackerPersistedState.seenChangeIds trackerState
              ++ map StoryChange.changeId (PollResult.newChanges result)
            /\ (forall changeId,
                  In changeId (map StoryChange.changeId (TrackerPersistedState.history recorded))
                  <-> In changeId
                        (map StoryChange.changeId (TrackerPersistedState.history trackerState))
                      \/ In changeId
                           (map StoryChange.changeId (PollResult.newChanges result)))).
  { cbv zeta. unfold recordPoll.
    cbn [TrackerPersistedState.seenChangeIds TrackerPersistedState.history].
    destruct (PollResult.newChanges result) as [|change rest] eqn:Hnew.
    - cbn. rewrite app_nil_r. split; [reflexivity|]. tauto.
    - cbn [length Nat.ltb Nat.leb]. split; [reflexivity|].
      intros changeId. rewrite <- Hnew. apply mergeHistory_ids. }
  destruct Hrecorded as [Hseen Hhistory].
  assert (Hfinish : forall trackerState' w',
            currentStoriesByTracker w'
            = <[TrackerConfig.id tracker := PollResult.currentStories result]>
                (currentStoriesByTracker w) ->
            TrackerPersistedState.scopeKey trackerState' = AppState.createScopeKey tracker ->
            TrackerPersistedState.cursor trackerState' = Some (PollResult.cursor result) ->
            TrackerPersistedState.lastCheckedAt trackerState'
            = Some (PollResult.cursor result) ->
            TrackerPersistedState.seenChangeIds trackerState'
            = TrackerPersistedState.seenChangeIds
                (recordPoll (AppState.createScopeKey tracker) result trackerState) ->
            TrackerPersistedState.history trackerState'
            = TrackerPersistedState.history
                (recordPoll (AppState.createScopeKey tracker) result trackerState) ->
            let after :=
              finishPoll (TrackerConfig.id tracker) result
                (map storyRef (getTestingRequiredStories (PollResult.currentStories result)))
                trackerState' w' in
            currentStoriesByTracker after !! TrackerConfig.id tracker
            = Some (PollResult.currentStories result)
            /\ (truthy (TrackerConfig.iterationOid tracker) = true ->
                PollResult.cursor result = toISOString (pollNow env))
            /\ exists stored,
                 PersistedState.trackers (appState after) !! TrackerConfig.id tracker
                 = Some stored
                 /\ TrackerPersistedState.scopeKey stored = AppState.createScopeKey tracker
                 /\ TrackerPersistedState.cursor stored = Some (PollResult.cursor result)
                 /\ TrackerPersistedState.lastCheckedAt stored
                    = Some (PollResult.cursor result)
                 /\ TrackerPersistedState.testingRequiredStories stored
                    = map storyRef
                        (getTestingRequiredStories (PollResult.currentStories result))
                 /\ TrackerPersistedState.seenChangeIds stored
                    = TrackerPersistedState.seenChangeIds trackerState
                      ++ map StoryChange.changeId (PollResult.newChanges result)
                 /\ (forall changeId,
                       In changeId
                         (map StoryChange.changeId (TrackerPersistedState.history stored))
                       <-> In changeId
                             (map StoryChange.changeId
                                (TrackerPersistedState.history trackerState))
                           \/ In changeId
                                (map StoryChange.changeId (PollResult.newChanges result)))).
  { intros trackerState' w' Hstories Hscope Hcur Hchecked Hseen' Hhistory'. cbv zeta.
    rewrite currentStories_finishPoll, Hstories, lookup_insert_eq.
    split; [reflexivity|]. split; [exact Hcursor|].
    rewrite trackers_finishPoll, lookup_insert_eq. eexists. split; [reflexivity|].
    cbn [withTestingRequired TrackerPersistedState.scopeKey TrackerPersistedState.cursor
         TrackerPersistedState.lastCheckedAt TrackerPersistedState.testingRequiredStories
         TrackerPersistedState.seenChangeIds TrackerPersistedState.history].
    rewrite Hseen', Hhistory'. auto 10. }
  destruct (negb _); apply Hfinish; reflexivity.
Qed.


(** X9.  A poll keeps the seen ids and the history of every stored state
    consistent: when in every stored state the seen ids are pairwise
    distinct, the change ids of the history are pairwise distinct and every
    change of the history is among the seen ids, the same holds after the
    poll. *)
Theorem pollTracker_keeps_seen_ids_consistent (env : Environment)
    (tracker : TrackerConfig.t) (w : World) :
  let consistent (state : TrackerPersistedState.t) :=
    NoDup (TrackerPersistedState.seenChangeIds state)
    /\ NoDup (map StoryChange.changeId (TrackerPersistedState.history state))
    /\ incl (map StoryChange.changeId (TrackerPersistedState.history state))
         (TrackerPersistedState.seenChangeIds state) in
  (forall id stored,
     PersistedState.trackers (appState w) !! id = Some stored -> consistent stored) ->
  forall id stored,
    PersistedState.trackers (appState (pollTracker env tracker w)) !! id = Some stored ->
    consistent stored.
Proof.
  intros consistent Hw id stored. unfold pollTracker.
  destruct (workingState tracker w) as [trackerState aliased] eqn:Hworking.
  assert (Hstate : consistent trackerState).
  { unfold workingState in Hworking.
    destruct (PersistedState.trackers (appState w) !! TrackerConfig.id tracker)
      as [state|] eqn:Hstored.
    - destruct (negb _); injection Hworking as <- _.
      + repeat split; try constructor. intros x [].
      + eapply Hw. exact Hstored.
    - injection Hworking as <- _. repeat split; try constructor. intros x []. }
  destruct (ChangeFetcher.fetchStoryChanges _ _ _ _ _ _) as [result|error] eqn:Hfetch.
  - assert (Hrecorded : forall trackerState',
              TrackerPersistedState.seenChangeIds trackerState'
              = TrackerPersistedState.seenChangeIds
                  (recordPoll (AppState.createScopeKey tracker) result trackerState) ->
              TrackerPersistedState.history trackerState'
              = TrackerPersistedState.history
                  (recordPoll (AppState.createScopeKey tracker) result trackerState) ->
              consistent trackerState').
    { intros trackerState' Hseen Hhistory. unfold consistent. rewrite Hseen, Hhistory.
      unfold recordPoll.
      cbn [TrackerPersistedState.seenChangeIds TrackerPersistedState.history].
      destruct (0 <? length (PollResult.newChanges result))%nat; [|exact Hstate].
      destruct Hstate as (Hseen0 & Hhistory0 & Hincl0).
      destruct (fetchStoryChanges_reports_new _ _ _ _ _ _ _ Hfetch) as (Hnew & Hunseen).
      split; [|split].
      - apply NoDup_app. split; [exact Hseen0|]. split; [|exact Hnew].
        intros changeId Hold Hin. apply list_elem_of_In, in_map_iff in Hin as (change & <- & Hin).
        apply (Hunseen change Hin). apply elem_of_list_to_set. exact Hold.
      - apply mergeHistory_NoDup.
      - intros changeId Hin. apply mergeHistory_ids in Hin as [Hin|Hin].
        + apply in_or_app. left. apply Hincl0. exact Hin.
        + apply in_or_app. right. exact Hin. }
    assert (Hfinish : forall trackerState' w',
              PersistedState.trackers (appState w') = PersistedState.trackers (appState w) ->
              TrackerPersistedState.seenChangeIds trackerState'
              = TrackerPersistedState.seenChangeIds
                  (recordPoll (AppState.createScopeKey tracker) result trackerState) ->
              TrackerPersistedState.history trackerState'
              = TrackerPersistedState.history
                  (recordPoll (AppState.createScopeKey tracker) result trackerState) ->
              PersistedState.trackers
                (appState (finishPoll (TrackerConfig.id tracker) result
                             (map storyRef (getTestingRequiredStories
                                              (PollResult.currentStories result)))
                             trackerState' w')) !! id = Some stored ->
              consistent stored).
    { intros trackerState' w' Hsame Hseen Hhistory. rewrite trackers_finishPoll, Hsame.
      destruct (decide (TrackerConfig.id tracker = id)) as [->|Hne].
      - rewrite lookup_insert_eq. intros [= <-]. apply Hrecorded; assumption.
      - rewrite lookup_insert_ne by exact Hne. apply Hw. }
    destruct (negb _).
    + destruct (notifyError env) as [error|].
      * rewrite trackers_pollFailed. destruct aliased; [|apply Hw].
        cbn. destruct (decide (TrackerConfig.id tracker = id)) as [->|Hne].
        -- rewrite lookup_insert_eq. intros [= <-]. apply Hrecorded; reflexivity.
        -- rewrite lookup_insert_ne by exact Hne. apply Hw.
      * apply Hfinish; reflexivity.
    + apply Hfinish; reflexivity.
  - rewrite trackers_pollFailed. apply Hw.
Qed.

End PollEffects.

(** X5 on two trackers: a poll of [trk_1] leaves the state of [trk_2]. *)
Lemma pollTracker_touches_one_tracker_witness :
  let env := Examples.environment [Examples.story 501 "US501" true "In-Progress"]
               [Examples.nameThenOwner] in
  let after := @Main.pollTracker IsoRuntime.runtime env Examples.tracker
                 Scenarios.twoTrackers in
  "trk_2" <> TrackerConfig.id Examples.tracker
  /\ PersistedState.trackers (Main.appState after) !! "trk_2" = Some Examples.staleState
  /\ Main.statusByTracker after !! "trk_2" = Some "Stories: 0. Last poll 80ms."
  /\ Main.statusByTracker after !! "trk_1" = Some "Stories: 1. Last poll 120ms.".
Proof.
  cbv zeta.
  assert (Hother : "trk_2" <> TrackerConfig.id Examples.tracker) by discriminate.
  split; [exact Hother|].
  destruct (@pollTracker_touches_one_tracker IsoRuntime.runtime
              (Examples.environment [Examples.story 501 "US501" true "In-Progress"]
                 [Examples.nameThenOwner])
              Examples.tracker Scenarios.twoTrackers "trk_2" Hother)
    as (Hstate & _ & Hstatus & _).
  split; [rewrite Hstate; reflexivity|].
  split; [rewrite Hstatus; reflexivity|].
  vm_compute. reflexivity.
Defined.


(** X7 on a poll that sees one new change and one story that needs
    testing. *)
Lemma pollTracker_stores_poll_result_witness :
  let w := Examples.world (Some Examples.currentState) in
  let env := Examples.environment [Examples.story 400 "US400" true "In-Progress"]
               [Examples.nameThenOwner] in
  exists stored,
    PersistedState.trackers
      (Main.appState (@Main.pollTracker IsoRuntime.runtime env Examples.tracker w))
    !! "trk_1" = Some stored
    /\ TrackerPersistedState.cursor stored = Some "2024-03-01T11:00:00.000Z"
    /\ TrackerPersistedState.seenChangeIds stored = ["a1"; "z9syxx"]
    /\ map StoryChange.changeId (TrackerPersistedState.history stored) = ["a1"; "z9syxx"]
    /\ TrackerPersistedState.testingRequiredStories stored = [Examples.ref 400 "US400"].
Proof.
  cbv zeta.
  edestruct (fun result Hfetch =>
               @pollTracker_stores_poll_result IsoRuntime.runtime
                 (Examples.environment [Examples.story 400 "US400" true "In-Progress"]
                    [Examples.nameThenOwner])
                 Examples.tracker (Examples.world (Some Examples.currentState))
                 result Hfetch eq_refl)
    as (_ & _ & stored & Hstored & _).
  { vm_compute. reflexivity. }
  exists stored. split; [exact Hstored|].
  vm_compute in Hstored. injection Hstored as <-.
  repeat split; vm_compute; reflexivity.
Defined.


(** X9 on the stored state [currentState], whose history holds the seen
    change [a1], and a poll that finds one new change. *)
Lemma pollTracker_keeps_seen_ids_consistent_witness :
  let w := Examples.world (Some Examples.currentState) in
  let env := Examples.environment [] [Examples.nameThenOwner] in
  exists stored,
    PersistedState.trackers
      (Main.appState (@Main.pollTracker IsoRuntime.runtime env Examples.tracker w))
    !! "trk_1" = Some stored
    /\ TrackerPersistedState.seenChangeIds stored = ["a1"; "z9syxx"]
    /\ NoDup (TrackerPersistedState.seenChangeIds stored)
    /\ incl (map StoryChange.changeId (TrackerPersistedState.history stored))
         (TrackerPersistedState.seenChangeIds stored).
Proof.
  cbv zeta. eexists. split; [vm_compute; reflexivity|]. split; [reflexivity|].
  refine (let consistent :=
            @pollTracker_keeps_seen_ids_consistent IsoRuntime.runtime
              (Examples.environment [] [Examples.nameThenOwner])
              Examples.tracker (Examples.world (Some Examples.currentState)) _
              "trk_1" _ _ in
          conj (proj1 consistent) (proj2 (proj2 consistent))).
  - intros id stored Hstored. cbn in Hstored.
    apply lookup_singleton_Some in Hstored as [_ <-]. cbn.
    split; [|split].
    + repeat constructor. intros Hin. apply elem_of_nil in Hin. exact Hin.
    + repeat constructor. intros Hin. apply elem_of_nil in Hin. exact Hin.
    + intros id' Hin. exact Hin.
  - vm_compute. reflexivity.
Defined.

(** X10 on the stored state [currentState] and a sprint that holds two
    stories that need testing. *)
Lemma pollTracker_keeps_classification_unique_witness :
  let w := Examples.world (Some Examples.currentState) in
  let env := Examples.environment
               [Examples.story 501 "US501" true "In-Progress";
                Examples.story 502 "US502" true "in_progress"] [] in
  exists stored,
    PersistedState.trackers
      (Main.appState (@Main.pollTracker IsoRuntime.runtime env Examples.tracker w))
    !! "trk_1" = Some stored
    /\ TrackerPersistedState.testingRequiredStories stored
       = [Examples.ref 501 "US501"; Examples.ref 502 "US502"]
    /\ NoDup (map TestingRequiredStoryRef.storyObjectId
                (TrackerPersistedState.testingRequiredStories stored)).
Proof.
  cbv zeta. eexists. split; [vm_compute; reflexivity|]. split; [reflexivity|].
  refine (@pollTracker_keeps_classification_unique IsoRuntime.runtime
            (Examples.environment
               [Examples.story 501 "US501" true "In-Progress";
                Examples.story 502 "US502" true "in_progress"] [])
            Examples.tracker (Examples.world (Some Examples.currentState)) _
            "trk_1" _ _).
  - intros id stored Hstored. cbn in Hstored.
    apply lookup_singleton_Some in Hstored as [_ <-]. cbn.
    repeat constructor. intros Hin. apply elem_of_nil in Hin. exact Hin.
  - vm_compute. reflexivity.
Defined.

(* ===================================================================== *)
(** * The remote data client: what a request returns *)
(* ===================================================================== *)

Section RequestResult.
Import RallyClient Attempt.
Context {T : Type} (JSON_parse : string -> option T).
Context (transportRequest : Z -> TransportOutcome).

Lemma requestFrom_accepts (fuel : nat) (attempt : Z) (value : T) :
  accepted JSON_parse (transportRequest attempt) = Some value ->
  requestFrom JSON_parse transportRequest (S fuel) attempt
  = Some (Ok value, [Transport attempt]).
Proof.
  intros Haccepted. cbn [requestFrom].
  destruct (transportRequest attempt) as [status body|message]; cbn in Haccepted;
    [|discriminate].
  destruct ((200 <=? status) && (status <? 300)) eqn:Hrange; [|discriminate].
  apply andb_true_iff in Hrange as [Hlow Hhigh].
  apply Z.leb_le in Hlow. apply Z.ltb_lt in Hhigh.
  assert ((status =? 401) = false) as -> by (apply Z.eqb_neq; lia).
  assert ((status =? 403) = false) as -> by (apply Z.eqb_neq; lia).
  assert ((status =? 429) = false) as -> by (apply Z.eqb_neq; lia).
  assert ((500 <=? status) = false) as -> by (apply Z.leb_gt; lia).
  assert ((status <? 200) = false) as -> by (apply Z.ltb_ge; lia).
  assert ((300 <=? status) = false) as -> by (apply Z.leb_gt; lia).
  cbn. rewrite Haccepted. reflexivity.
Qed.

Lemma requestFrom_retries (fuel : nat) (attempt : Z) :
  isAuthStatus (transportRequest attempt) = false ->
  accepted JSON_parse (transportRequest attempt) = None ->
  attempt < MAX_RETRIES ->
  requestFrom JSON_parse transportRequest (S fuel) attempt
  = match requestFrom JSON_parse transportRequest fuel (attempt + 1) with
    | Some (result, events) =>
        Some (result, Transport attempt :: Sleep (backoffMs attempt) :: events)
    | None => None
    end.
Proof.
  intros Hauth Hrejected Hless. cbn [requestFrom].
  assert ((attempt <? MAX_RETRIES) = true) as -> by (apply Z.ltb_lt; exact Hless).
  destruct (transportRequest attempt) as [status body|message];
    cbn in Hauth, Hrejected.
  - rewrite Hauth.
    destruct ((status =? 429) || (500 <=? status)); cbn [andb].
    { destruct (requestFrom _ _ fuel (attempt + 1)) as [[result events]|]; reflexivity. }
    destruct ((status <? 200) || (300 <=? status)) eqn:Hrange.
    { cbn. destruct (requestFrom _ _ fuel (attempt + 1)) as [[result events]|]; reflexivity. }
    apply orb_false_iff in Hrange as [Hlow Hhigh].
    apply Z.ltb_ge in Hlow. apply Z.leb_gt in Hhigh.
    assert (((200 <=? status) && (status <? 300)) = true) as Hin
      by (apply andb_true_iff; split; [apply Z.leb_le|apply Z.ltb_lt]; lia).
    rewrite Hin in Hrejected. rewrite Hrejected. cbn.
    destruct (requestFrom _ _ fuel (attempt + 1)) as [[result events]|]; reflexivity.
  - cbn. destruct (requestFrom _ _ fuel (attempt + 1)) as [[result events]|]; reflexivity.
Qed.

Lemma requestFrom_gives_up (fuel : nat) (attempt : Z) :
  isAuthStatus (transportRequest attempt) = false ->
  accepted JSON_parse (transportRequest attempt) = None ->
  MAX_RETRIES <= attempt ->
  requestFrom JSON_parse transportRequest (S fuel) attempt
  = Some (Throw (failure (transportRequest attempt)), [Transport attempt]).
Proof.
  intros Hauth Hrejected Hlast. cbn [requestFrom].
  assert ((attempt <? MAX_RETRIES) = false) as -> by (apply Z.ltb_ge; exact Hlast).
  destruct (transportRequest attempt) as [status body|message];
    cbn in Hauth, Hrejected; cbn [failure].
  - rewrite Hauth. rewrite andb_false_r.
    destruct ((status <? 200) || (300 <=? status)) eqn:Hrange; [reflexivity|].
    apply orb_false_iff in Hrange as [Hlow Hhigh].
    apply Z.ltb_ge in Hlow. apply Z.leb_gt in Hhigh.
    assert (((200 <=? status) && (status <? 300)) = true) as Hin
      by (apply andb_true_iff; split; [apply Z.leb_le|apply Z.ltb_lt]; lia).
    rewrite Hin in Hrejected. rewrite Hrejected. reflexivity.
  - reflexivity.
Qed.

Lemma requestFrom_first_decisive (retries fuel : nat) (attempt : Z) :
  (retries < fuel)%nat ->
  attempt + Z.of_nat retries <= MAX_RETRIES ->
  (forall n, attempt <= n < attempt + Z.of_nat retries ->
     isAuthStatus (transportRequest n) = false
     /\ accepted JSON_parse (transportRequest n) = None) ->
  forall last : Result T * list Event,
    (forall fuel', requestFrom JSON_parse transportRequest (S fuel')
                     (attempt + Z.of_nat retries) = Some last) ->
    snd last = [Transport (attempt + Z.of_nat retries)] ->
    requestFrom JSON_parse transportRequest fuel attempt
    = Some (fst last, traceFrom attempt retries).
Proof.
  revert fuel attempt. induction retries as [|retries IH]; intros fuel attempt Hfuel Hmax Hfail
    [result events] Hlast Hevents; cbn [fst snd] in *.
  - destruct fuel as [|fuel]; [lia|].
    replace (attempt + Z.of_nat 0) with attempt in * by lia.
    rewrite Hlast. subst events. reflexivity.
  - destruct fuel as [|fuel]; [lia|].
    destruct (Hfail attempt) as [Hauth Hrejected]; [lia|].
    rewrite requestFrom_retries by (try assumption; lia).
    replace (attempt + Z.of_nat (S retries)) with (attempt + 1 + Z.of_nat retries) in * by lia.
    rewrite (IH fuel (attempt + 1) ltac:(lia) ltac:(lia)) with (last := (result, events)).
    + reflexivity.
    + intros n Hn. apply Hfail. lia.
    + exact Hlast.
    + exact Hevents.
Qed.

(** X11.  [request] returns the parsed body of the first accepted attempt:
    when attempt [k <= 3] is answered with a status from 200 to 299 and a
    body that parses, and no earlier attempt is accepted or is an
    authentication failure, the result is that value after [k] retries.
    Every other failure is retried, not only the transient ones: when none
    of the four attempts is accepted or an authentication failure (a 404
    or a body that does not parse included), the request makes all four
    attempts and throws the error of the last. *)
Theorem request_returns_first_accepted_attempt :
  (forall (k : nat) (value : T),
     (k <= 3)%nat ->
     (forall n, 0 <= n < Z.of_nat k ->
        isAuthStatus (transportRequest n) = false
        /\ accepted JSON_parse (transportRequest n) = None) ->
     accepted JSON_parse (transportRequest (Z.of_nat k)) = Some value ->
     request JSON_parse transportRequest = Some (Ok value, traceFrom 0 k))
  /\ ((forall n, 0 <= n <= 3 ->
         isAuthStatus (transportRequest n) = false
         /\ accepted JSON_parse (transportRequest n) = None) ->
      request JSON_parse transportRequest
      = Some (Throw (failure (transportRequest 3)), traceFrom 0 3)
      /\ isAuthError (failure (transportRequest 3)) = false).
Proof.
  assert (Hfuel : Z.to_nat MAX_RETRIES = 3%nat) by reflexivity.
  assert (Hmax : MAX_RETRIES = 3) by reflexivity.
  split.
  - intros k value Hk Hfail Haccepted. unfold request.
    apply (requestFrom_first_decisive k _ 0) with (last := (Ok value, [Transport (0 + Z.of_nat k)])).
    + lia.
    + lia.
    + exact Hfail.
    + intros fuel'. apply requestFrom_accepts. exact Haccepted.
    + reflexivity.
  - intros Hfail. split.
    + unfold request.
      apply (requestFrom_first_decisive 3 _ 0)
        with (last := (Throw (failure (transportRequest 3)), [Transport 3])).
      * lia.
      * lia.
      * intros n Hn. apply Hfail. lia.
      * intros fuel'. apply requestFrom_gives_up; try (apply Hfail; lia).
        change (0 + Z.of_nat 3) with 3. lia.
      * reflexivity.
    + destruct (transportRequest 3) as [status body|message]; cbn; [|reflexivity].
      destruct (_ || _); reflexivity.
Qed.

End RequestResult.

(** A 404 is retried three times like a 503; a success at the third attempt
    ends the request with its value. *)
Example request_when_not_found :
  RallyClient.request (fun _ : string => Some tt)
    (fun _ => RallyClient.Responds 404 "no such object")
  = Some (Throw (Error "Rally request failed (404): no such object"),
          [RallyClient.Transport 0; RallyClient.Sleep 500;
           RallyClient.Transport 1; RallyClient.Sleep 1000;
           RallyClient.Transport 2; RallyClient.Sleep 2000;
           RallyClient.Transport 3]).
Proof. reflexivity. Qed.

Example request_when_recovering :
  RallyClient.request (fun body : string => Some body)
    (fun n => if n <? 2 then RallyClient.Fails "network down"
              else RallyClient.Responds 200 "{}")
  = Some (Ok "{}",
          [RallyClient.Transport 0; RallyClient.Sleep 500;
           RallyClient.Transport 1; RallyClient.Sleep 1000;
           RallyClient.Transport 2]).
Proof. reflexivity. Qed.

(* ===================================================================== *)
(** * The remote data client: sprints and stories *)
(* ===================================================================== *)

Section Collected.
Context `{JsRuntime}.
Import RallyClient.

Lemma forEach_invariant_In {A S} (P : S -> Prop) (xs : list A) (step : S -> A -> Result S)
    (acc result : S) :
  (forall s x s', In x xs -> P s -> step s x = Ok s' -> P s') ->
  P acc -> forEach xs step acc = Ok result -> P result.
Proof.
  revert acc. induction xs as [|x xs IH]; intros acc Hstep Hacc; cbn.
  - intros [= <-]. exact Hacc.
  - intros Hok. apply bind_Ok in Hok as (s' & Hs' & Hok).
    apply (IH s'); [|eapply Hstep; [left; reflexivity|exact Hacc|exact Hs']|exact Hok].
    intros s x' s'' Hin. apply Hstep. right. exact Hin.
Qed.

Lemma awaitAll_Ok {A B} (f : A -> Result B) (xs : list A) (ys : list B) :
  awaitAll f xs = Ok ys ->
  forall y, In y ys -> exists x, In x xs /\ f x = Ok y.
Proof.
  revert ys. induction xs as [|x xs IH]; intros ys; cbn.
  - intros [= <-] y [].
  - intros Hok. apply bind_Ok in Hok as (y0 & Hy0 & Hok).
    apply bind_Ok in Hok as (ys' & Hys' & [= <-]).
    intros y [<-|Hin].
    + exists x. split; [left; reflexivity|exact Hy0].
    + destruct (IH ys' Hys' y Hin) as (x' & Hx' & Hfx'). exists x'. split; [right|]; assumption.
Qed.

Lemma NoDup_setAdd {K} `{EqDecision K} (x : K) (s : list K) :
  NoDup s -> NoDup (setAdd x s).
Proof.
  intros Hnd. unfold setAdd. destruct (bool_decide (x ∈ s)) eqn:Hin; [exact Hnd|].
  apply bool_decide_eq_false in Hin.
  apply NoDup_app. split; [exact Hnd|]. split.
  - intros y Hy Hx. apply list_elem_of_singleton in Hx. subst y. contradiction.
  - apply NoDup_singleton.
Qed.

Lemma In_setAdd {K} `{EqDecision K} (x y : K) (s : list K) :
  In y (setAdd x s) <-> y = x \/ In y s.
Proof.
  unfold setAdd. destruct (bool_decide (x ∈ s)) eqn:Hin.
  - apply bool_decide_eq_true, list_elem_of_In in Hin. split; [tauto|].
    intros [->|Hy]; assumption.
  - rewrite in_app_iff. cbn. split; [intros [Hy|[<-|[]]]|intros [->|Hy]]; tauto.
Qed.

Lemma toISOString_nonempty (t : Z) : exists c rest, toISOString t = String c rest.
Proof.
  unfold toISOString. destruct (civilFromDays (t / msPerDay)) as [[y m] d].
  match goal with |- context [?year +:+ "-" +:+ ?rest] =>
    destruct year as [|c year']; [exists "-"%char|exists c]; eexists; reflexivity
  end.
Qed.

(** The day of a date that parses is not the empty string. *)
Lemma isoDay_truthy (s day : string) : isoDay s = Ok day -> truthy day = true.
Proof.
  unfold isoDay. destruct (Date_parse s) as [t|]; [|discriminate].
  intros [= <-]. destruct (toISOString_nonempty t) as (c & rest & ->). reflexivity.
Qed.

(** X12.  The sprint ids resolved for a tracker are pairwise distinct; each
    is the number of the selected sprint or the object id of a sprint that
    [listProjectIterations] returned for one of the tracker's projects
    under the same name (compared trimmed, without case) and, when the
    tracker has a start date, the same start day; the number of the
    selected sprint is always among them; and without a selected sprint or
    without projects nothing is resolved. *)
Theorem resolveIterationOids_sound (service : Service)
    (iterationOid iterationName iterationStartDate : string)
    (projectOids : list string) (resolved : list Z) :
  resolveIterationOids service iterationOid iterationName iterationStartDate projectOids
  = Ok resolved ->
  NoDup resolved
  /\ (forall oid, In oid resolved ->
        stringToNumber iterationOid = Some oid
        \/ exists projectOid iterations iteration,
             In projectOid projectOids
             /\ listProjectIterations service projectOid = Ok iterations
             /\ In iteration iterations
             /\ toLowerCase (trim (IterationOption.name iteration))
                = toLowerCase (trim iterationName)
             /\ stringToNumber (IterationOption.objectId iteration) = Some oid
             /\ (iterationStartDate <> "" ->
                 exists day,
                   isoDay iterationStartDate = Ok day
                   /\ match IterationOption.startDate iteration with
                      | Some startDate =>
                          if truthy startDate then isoDay startDate = Ok day else day = ""
                      | None => day = ""
                      end))
  /\ (iterationOid <> "" -> projectOids <> [] ->
      forall oid, stringToNumber iterationOid = Some oid -> In oid resolved)
  /\ (iterationOid = "" \/ projectOids = [] -> resolved = []).
Proof.
  unfold resolveIterationOids.
  destruct (String.eqb_spec iterationOid "") as [->|Hselected].
  { cbn. intros [= <-]. repeat split; try constructor; try contradiction;
      try (intros oid []); try (intros _ [= ]); auto. }
  unfold truthy at 1. rewrite (proj2 (String.eqb_neq _ _) Hselected). cbn [negb orb].
  destruct projectOids as [|projectOid projectOids'] eqn:Hprojects.
  { cbn. intros [= <-]. repeat split; try constructor; try contradiction;
      try (intros oid []); try (intros _ [= ]); auto. }
  rewrite <- Hprojects. assert (Hsome : (length projectOids =? 0)%nat = false)
    by (rewrite Hprojects; reflexivity).
  rewrite Hsome. clear Hsome.
  set (resolved0 := match stringToNumber iterationOid with
                    | Some selectedOid => setAdd selectedOid []
                    | None => []
                    end).
  assert (Hresolved0 : NoDup resolved0
                       /\ (forall oid, In oid resolved0 <-> stringToNumber iterationOid = Some oid)).
  { subst resolved0. destruct (stringToNumber iterationOid) as [selected|].
    - split; [apply NoDup_setAdd; constructor|].
      intros oid. rewrite In_setAdd. cbn. split; [intros [->|[]]; reflexivity|].
      intros [= ->]. left. reflexivity.
    - split; [constructor|]. intros oid. cbn. split; [intros []|discriminate]. }
  destruct Hresolved0 as [Hnd0 Hin0].
  set (invariant := fun resolved : list Z =>
         NoDup resolved
         /\ (forall oid, In oid resolved0 -> In oid resolved)
         /\ (forall oid, In oid resolved ->
               stringToNumber iterationOid = Some oid
               \/ exists projectOid iterations iteration,
                    In projectOid projectOids
                    /\ listProjectIterations service projectOid = Ok iterations
                    /\ In iteration iterations
                    /\ toLowerCase (trim (IterationOption.name iteration))
                       = toLowerCase (trim iterationName)
                    /\ stringToNumber (IterationOption.objectId iteration) = Some oid
                    /\ (iterationStartDate <> "" ->
                        exists day,
                          isoDay iterationStartDate = Ok day
                          /\ match IterationOption.startDate iteration with
                             | Some startDate =>
                                 if truthy startDate then isoDay startDate = Ok day
                                 else day = ""
                             | None => day = ""
                             end))).
  assert (Hstart : invariant resolved0).
  { split; [exact Hnd0|]. split; [auto|]. intros oid Hoid. left. apply Hin0. exact Hoid. }
  assert (Hend : invariant resolved ->
                 NoDup resolved
                 /\ (forall oid, In oid resolved ->
                       stringToNumber iterationOid = Some oid
                       \/ exists projectOid iterations iteration,
                            In projectOid projectOids
                            /\ listProjectIterations service projectOid = Ok iterations
                            /\ In iteration iterations
                            /\ toLowerCase (trim (IterationOption.name iteration))
                               = toLowerCase (trim iterationName)
                            /\ stringToNumber (IterationOption.objectId iteration) = Some oid
                            /\ (iterationStartDate <> "" ->
                                exists day,
                                  isoDay iterationStartDate = Ok day
                                  /\ match IterationOption.startDate iteration with
                                     | Some startDate =>
                                         if truthy startDate then isoDay startDate = Ok day
                                         else day = ""
                                     | None => day = ""
                                     end))
                 /\ (iterationOid <> "" -> projectOids <> [] ->
                     forall oid, stringToNumber iterationOid = Some oid -> In oid resolved)
                 /\ (iterationOid = "" \/ projectOids = [] -> resolved = [])).
  { intros (Hnd & Hkeeps & Horigin). split; [exact Hnd|]. split; [exact Horigin|].
    split.
    - intros _ _ oid Hoid. apply Hkeeps, Hin0. exact Hoid.
    - intros [Hnone|Hnone]; [contradiction|]. rewrite Hprojects in Hnone. discriminate. }
  intros Hok. apply Hend. clear Hend.
  apply bind_Ok in Hok as (selectedStart & HselectedStart & Hok).
  destruct (negb (truthy (toLowerCase (trim iterationName)))).
  { injection Hok as <-. exact Hstart. }
  apply bind_Ok in Hok as (iterationsByProject & Hlisted & Hok).
  revert Hok. apply forEach_invariant_In; [|exact Hstart].
  intros s iteration s' Hiteration (Hnd & Hkeeps & Horigin) Hstep.
  destruct (String.eqb_spec (toLowerCase (trim (IterationOption.name iteration)))
              (toLowerCase (trim iterationName))) as [Hname|Hname];
    cbn [negb] in Hstep; [|injection Hstep as <-; repeat split; assumption].
  apply bind_Ok in Hstep as (skip & Hskip & Hstep).
  destruct skip; [injection Hstep as <-; repeat split; assumption|].
  destruct (stringToNumber (IterationOption.objectId iteration)) as [oid|] eqn:Hoid;
    [|injection Hstep as <-; repeat split; assumption].
  injection Hstep as <-.
  split; [apply NoDup_setAdd; exact Hnd|].
  split; [intros oid' Hoid'; apply In_setAdd; right; apply Hkeeps; exact Hoid'|].
  intros oid' Hoid'. apply In_setAdd in Hoid' as [->|Hoid']; [|apply Horigin; exact Hoid'].
  right. apply in_concat in Hiteration as (iterations & Hiterations & Hiteration).
  destruct (awaitAll_Ok _ _ _ Hlisted iterations Hiterations) as (project & Hproject & Hanswer).
  exists project, iterations, iteration.
  split; [exact Hproject|]. split; [exact Hanswer|]. split; [exact Hiteration|].
  split; [exact Hname|]. split; [exact Hoid|].
  intros Hdated.
  assert (Htruthy : truthy iterationStartDate = true)
    by (unfold truthy; rewrite (proj2 (String.eqb_neq _ _) Hdated); reflexivity).
  rewrite Htruthy in HselectedStart. exists selectedStart. split; [exact HselectedStart|].
  assert (Hday : truthy selectedStart = true).
  { eapply isoDay_truthy. exact HselectedStart. }
  rewrite Hday in Hskip.
  apply bind_Ok in Hskip as (iterationStart & Hstarted & Hskip).
  injection Hskip as Hskip. apply negb_false_iff, String.eqb_eq in Hskip. subst iterationStart.
  destruct (IterationOption.startDate iteration) as [startDate|].
  - destruct (truthy startDate); [exact Hstarted|]. injection Hstarted as <-. reflexivity.
  - injection Hstarted as <-. reflexivity.
Qed.

Lemma collectStories_origin service query projectOids unique result :
  collectStories service query projectOids unique = Ok result ->
  forall entry, In entry result ->
    In entry unique
    \/ exists projectOid answer,
         In projectOid projectOids
         /\ fetchStoriesForQuery service projectOid query = Ok answer
         /\ In (snd entry) answer.
Proof.
  unfold collectStories.
  apply (forEach_invariant_In
           (fun collected : list (Z * SprintStory.t) =>
              forall entry, In entry collected ->
                In entry unique
                \/ exists projectOid answer,
                     In projectOid projectOids
                     /\ fetchStoriesForQuery service projectOid query = Ok answer
                     /\ In (snd entry) answer)); [|auto].
  intros s projectOid s' Hproject Hs Hstep [id story] Hentry.
  apply bind_Ok in Hstep as (stories & Hstories & [= <-]).
  apply In_mapSetAll in Hentry as [[Hstory _]|Hentry]; [|apply Hs; exact Hentry].
  right. exists projectOid, stories. auto.
Qed.

(** X13.  The stories returned for a sprint have pairwise distinct ids, and
    all of them were returned by [fetchStoriesForQuery] for projects of the
    tracker under one and the same query: the answers to the query by
    sprint ids and to the fallback query by sprint name are never mixed.
    Without projects nothing is fetched. *)
Theorem fetchStoriesInIteration_one_query (service : Service) (config : Config.t)
    (iterationOid : string) (projectOids : list string) (stories : list SprintStory.t) :
  fetchStoriesInIteration service config iterationOid projectOids = Ok stories ->
  NoDup (map SprintStory.storyObjectId stories)
  /\ (exists query,
        forall story, In story stories ->
          exists projectOid answer,
            In projectOid projectOids
            /\ fetchStoriesForQuery service projectOid query = Ok answer
            /\ In story answer)
  /\ (projectOids = [] -> stories = []).
Proof.
  intros Hok. split; [eapply fetchStoriesInIteration_unique; exact Hok|].
  assert (Hfrom : forall query unique,
            collectStories service query projectOids [] = Ok unique ->
            forall story, In story (mapValues unique) ->
              exists projectOid answer,
                In projectOid projectOids
                /\ fetchStoriesForQuery service projectOid query = Ok answer
                /\ In story answer).
  { intros query unique Hunique story Hstory.
    apply in_map_iff in Hstory as (entry & <- & Hentry).
    destruct (collectStories_origin _ _ _ _ _ Hunique entry Hentry) as [[]|Horigin].
    exact Horigin. }
  unfold fetchStoriesInIteration in Hok.
  apply bind_Ok in Hok as (iterationOids & Hresolved & Hok).
  split.
  - destruct (_ || _); [injection Hok as <-; exists ""; intros story []|].
    apply bind_Ok in Hok as (unique & Hunique & Hok).
    destruct (0 <? length unique)%nat eqn:Hfound.
    { injection Hok as <-. eexists. eapply Hfrom. exact Hunique. }
    destruct (negb _); [injection Hok as <-; exists ""; intros story []|].
    apply bind_Ok in Hok as (unique' & Hunique' & [= <-]).
    destruct unique as [|entry unique]; [|discriminate].
    eexists. eapply Hfrom. exact Hunique'.
  - intros ->. rewrite orb_true_r in Hok. injection Hok as <-. reflexivity.
Qed.

End Collected.

(** X12 on a tracker of two projects: besides the selected sprint 9001,
    only the sprint 9100 of the second project has its name and start
    day. *)
Lemma resolveIterationOids_sound_witness :
  @RallyClient.resolveIterationOids IsoRuntime.runtime Scenarios.twoProjects
    "9001" "Sprint 12" Examples.sprintStart ["7001"; "7002"] = Ok [9001; 9100]
  /\ NoDup [9001; 9100]
  /\ In 9001 [9001; 9100].
Proof.
  assert (Hresolved :
            @RallyClient.resolveIterationOids IsoRuntime.runtime Scenarios.twoProjects
              "9001" "Sprint 12" Examples.sprintStart ["7001"; "7002"] = Ok [9001; 9100])
    by (vm_compute; reflexivity).
  split; [exact Hresolved|].
  destruct (@resolveIterationOids_sound IsoRuntime.runtime Scenarios.twoProjects
              "9001" "Sprint 12" Examples.sprintStart ["7001"; "7002"] [9001; 9100]
              Hresolved)
    as (Hdistinct & _ & Hselected & _).
  split; [exact Hdistinct|].
  apply Hselected; [discriminate|discriminate|reflexivity].
Defined.

(** X13 on the same tracker: the queries by sprint id find nothing, so the
    stories are those of the query by name, story 601 once. *)
Lemma fetchStoriesInIteration_one_query_witness :
  exists stories,
    @RallyClient.fetchStoriesInIteration IsoRuntime.runtime Scenarios.twoProjects
      Examples.config "9001" ["7001"; "7002"] = Ok stories
    /\ stories = [Examples.story 601 "US601" true "Defined"]
    /\ NoDup (map SprintStory.storyObjectId stories).
Proof.
  eexists. split; [vm_compute; reflexivity|]. split; [reflexivity|].
  refine (proj1 (@fetchStoriesInIteration_one_query IsoRuntime.runtime Scenarios.twoProjects
                   Examples.config "9001" ["7001"; "7002"] _ _)).
  vm_compute. reflexivity.
Defined.

(* ===================================================================== *)
(** * The notification engine: permission and volume *)
(* ===================================================================== *)

Section Permission.
Import NotificationEngine.

(** X14.  The answer of [ensurePermission] is the permission flag the
    engine holds afterwards.  A positive answer is remembered: every later
    call answers yes and leaves the engine as it is, whatever the platform
    would say then.  And the answer is positive only when the engine held
    the permission already or the platform grants it. *)
Theorem ensurePermission_is_remembered (platform : Platform) (engine : t) :
  let answer := fst (ensurePermission platform engine) in
  let engine' := snd (ensurePermission platform engine) in
  permissionReady engine' = answer
  /\ (answer = true ->
      forall later, ensurePermission later engine' = (true, engine'))
  /\ (answer = true ->
      permissionReady engine = true
      \/ (isTauriAvailable platform = true
          /\ (isPermissionGranted platform = true \/ requestPermission platform = granted))
      \/ (isTauriAvailable platform = false
          /\ (webPermission platform = Some granted
              \/ (webPermission platform = Some prompt
                  /\ webRequestPermission platform = granted)))).
Proof.
  cbv zeta. unfold ensurePermission.
  destruct engine as [ready]. cbn [permissionReady].
  destruct ready; cbn [fst snd permissionReady].
  { split; [reflexivity|]. split; [reflexivity|]. auto. }
  destruct (isTauriAvailable platform); cbn [negb].
  - destruct (isPermissionGranted platform); cbn [fst snd permissionReady].
    + split; [reflexivity|]. split; [reflexivity|]. auto 6.
    + destruct (requestPermission platform); cbn;
        (split; [reflexivity|]); (split; [try discriminate; reflexivity|]);
        try discriminate; auto 6.
  - destruct (webPermission platform) as [[| |]|]; cbn [fst snd permissionReady].
    + split; [reflexivity|]. split; [reflexivity|]. auto 6.
    + split; [reflexivity|]. split; discriminate.
    + destruct (webRequestPermission platform); cbn;
        (split; [reflexivity|]); (split; [try discriminate; reflexivity|]);
        try discriminate; auto 7.
    + split; [reflexivity|]. split; discriminate.
Qed.

(** X15.  Whatever the two lists hold, a call of
    [notifyTestingRequiredChange] hands at most five notifications to the
    platform; it hands over none when permission is refused; with two empty
    lists it does not even ask for permission; and the engine is
    afterwards the one it was or the one [ensurePermission] leaves. *)
Theorem notifyTestingRequiredChange_at_most_five (platform : Platform) (engine : t)
    (addedStories removedStories : list TestingRequiredStoryRef.t) :
  let outcome := notifyTestingRequiredChange platform engine addedStories removedStories in
  (length (fst outcome) <= 5)%nat
  /\ (fst (ensurePermission platform engine) = false -> fst outcome = [])
  /\ (addedStories = [] -> removedStories = [] -> outcome = ([], engine))
  /\ (snd outcome = engine \/ snd outcome = snd (ensurePermission platform engine)).
Proof.
  cbv zeta. unfold notifyTestingRequiredChange.
  destruct ((length addedStories =? 0)%nat && (length removedStories =? 0)%nat) eqn:Hnone.
  { cbn. split; [lia|]. split; [reflexivity|]. split; [reflexivity|]. left. reflexivity. }
  destruct (ensurePermission platform engine) as [canNotify engine']. cbn [fst snd].
  set (notifications := map addedNotification addedStories
                        ++ map removedNotification removedStories).
  split; [|split; [|split]].
  - destruct canNotify; cbn [negb]; [|cbn; lia].
    destruct (length notifications =? 0)%nat; [cbn; lia|].
    destruct (5 <? length notifications)%nat eqn:Hmany; [cbn; lia|].
    cbn [fst]. rewrite length_map. apply Nat.ltb_ge in Hmany. exact Hmany.
  - intros ->. reflexivity.
  - intros -> ->. discriminate.
  - right. destruct canNotify; cbn [negb]; [|reflexivity].
    destruct (length notifications =? 0)%nat; [reflexivity|].
    destruct (5 <? length notifications)%nat; reflexivity.
Qed.

End Permission.

Section TeamsChannel.
Import NotificationEngine Teams.

(** X16.  Without a webhook URL, or with one that is blank, nothing is
    posted to Teams.  With one, every post goes to the trimmed URL, and as
    many messages are posted as notifications are dispatched on the desktop
    for the same lists when permission is held: for one to five changes the
    texts posted are, in order, the bodies of those notifications; for more
    than five there is one post. *)
Theorem notifyTeamsTestingRequiredChange_mirrors_desktop
    (platform : Platform) (engine : NotificationEngine.t)
    (addedStories removedStories : list TestingRequiredStoryRef.t)
    (teamsWebhookUrl : option string) :
  let posts := notifyTeamsTestingRequiredChange addedStories removedStories teamsWebhookUrl in
  let dispatched :=
    fst (notifyTestingRequiredChange platform engine addedStories removedStories) in
  let count := (length addedStories + length removedStories)%nat in
  ((teamsWebhookUrl = None \/ exists url, teamsWebhookUrl = Some url /\ trim url = "") ->
   posts = [])
  /\ (forall url, teamsWebhookUrl = Some url -> trim url <> "" ->
        Forall (fun post => webhookUrl post = trim url) posts
        /\ ((5 < count)%nat -> length posts = 1%nat)
        /\ (fst (ensurePermission platform engine) = true ->
            length posts = length dispatched
            /\ ((count <= 5)%nat -> map text posts = map bodyOf dispatched))).
Proof.
  cbv zeta. unfold notifyTeamsTestingRequiredChange. split.
  - intros [->|(url & -> & Hblank)]; [reflexivity|]. cbn. rewrite Hblank. reflexivity.
  - intros url -> Hurl. cbn [fmap option_fmap option_map].
    assert (Htruthy : truthy (trim url) = true)
      by (unfold truthy; rewrite (proj2 (String.eqb_neq _ _) Hurl); reflexivity).
    rewrite Htruthy. cbn [negb].
    set (messages := map _ addedStories ++ map _ removedStories).
    assert (Hcount : length messages = (length addedStories + length removedStories)%nat)
      by (subst messages; rewrite length_app, !length_map; reflexivity).
    rewrite <- Hcount.
    split; [|split].
    + destruct (length messages =? 0)%nat; [constructor|].
      destruct (5 <? length messages)%nat; [repeat constructor|].
      apply List.Forall_forall. intros post Hpost.
      apply in_map_iff in Hpost as (message & <- & _). reflexivity.
    + intros Hmany. apply Nat.ltb_lt in Hmany. rewrite Hmany.
      destruct (length messages =? 0)%nat eqn:Hnone; [|reflexivity].
      apply Nat.eqb_eq in Hnone. apply Nat.ltb_lt in Hmany. lia.
    + intros Hpermitted. unfold notifyTestingRequiredChange.
      destruct (ensurePermission platform engine) as [canNotify engine'].
      cbn [fst] in Hpermitted. subst canNotify. cbn [negb].
      set (notifications := map addedNotification addedStories
                            ++ map removedNotification removedStories).
      assert (Hsame : length notifications = length messages)
        by (subst notifications messages; rewrite !length_app, !length_map; reflexivity).
      rewrite Hsame.
      destruct (length messages =? 0)%nat eqn:Hnone.
      { apply Nat.eqb_eq in Hnone.
        assert (((length addedStories =? 0)%nat && (length removedStories =? 0)%nat) = true)
          as -> by (apply andb_true_iff; split; apply Nat.eqb_eq; lia).
        cbn. auto. }
      assert (((length addedStories =? 0)%nat && (length removedStories =? 0)%nat) = false)
        as ->.
      { apply andb_false_iff. apply Nat.eqb_neq in Hnone.
        destruct (Nat.eq_dec (length addedStories) 0%nat) as [Hzero|Hsome].
        - right. apply Nat.eqb_neq. lia.
        - left. apply Nat.eqb_neq. exact Hsome. }
      destruct (5 <? length messages)%nat eqn:Hmany.
      { cbn [fst length]. split; [reflexivity|]. intros Hfew.
        apply Nat.ltb_lt in Hmany. lia. }
      cbn [fst]. rewrite !length_map. split; [symmetry; exact Hsame|].
      intros _. rewrite !map_map. subst notifications messages.
      rewrite !map_app, !map_map. cbn [text].
      f_equal; apply map_ext; intros story; unfold dispatchNotification;
        destruct (negb (isTauriAvailable platform)); reflexivity.
Qed.

End TeamsChannel.

(* ===================================================================== *)
(** * The remote data client: paged listings *)
(* ===================================================================== *)

Section PagedListing.
Import RallyClient Paging.
Context {Row Item : Type}.
Context (wsapiGet : Z -> Result (list Row)).
Context (toItem : Row -> Item).

Lemma pageStart_next (i : nat) : pageStart i + pageSize = pageStart (S i).
Proof. unfold pageStart, pageSize. lia. Qed.

Lemma pagesFrom_turns (fuel k : nat) (all : list Item) :
  (1 <= fuel)%nat -> (k + fuel = 26)%nat ->
  exists (result : Result (list Item)) (turns : nat),
    pagesFrom wsapiGet toItem fuel (pageStart k) all
    = Some (result, map pageStart (seq k turns))
    /\ (1 <= turns <= fuel)%nat
    /\ (forall i, (k <= i)%nat -> (S i < k + turns)%nat ->
          exists rows, wsapiGet (pageStart i) = Ok rows /\ (200 <= length rows)%nat)
    /\ match wsapiGet (pageStart (k + turns - 1)) with
       | Throw error => result = Throw error
       | Ok rows =>
           ((length rows < 200)%nat \/ (k + turns = 26)%nat)
           /\ result = Ok (all ++ concat (map (itemsOf wsapiGet toItem) (seq k turns)))
       end.
Proof.
  revert k all. induction fuel as [|fuel IH]; intros k all Hfuel Hsum; [lia|].
  cbn [pagesFrom].
  destruct (wsapiGet (pageStart k)) as [rows|error] eqn:Hpage.
  - cbv zeta.
    destruct (Z.of_nat (length rows) <? pageSize) eqn:Hshort.
    { exists (Ok (all ++ map toItem rows)), 1%nat. split; [reflexivity|].
      split; [lia|]. split; [intros i Hlow Hhigh; lia|].
      replace (k + 1 - 1)%nat with k by lia. rewrite Hpage.
      apply Z.ltb_lt in Hshort. unfold pageSize in Hshort.
      split; [left; lia|]. cbn. unfold itemsOf. rewrite Hpage, app_nil_r. reflexivity. }
    apply Z.ltb_ge in Hshort. unfold pageSize in Hshort.
    rewrite pageStart_next.
    destruct (5001 <? pageStart (S k)) eqn:Hcap.
    { exists (Ok (all ++ map toItem rows)), 1%nat. split; [reflexivity|].
      split; [lia|]. split; [intros i Hlow Hhigh; lia|].
      replace (k + 1 - 1)%nat with k by lia. rewrite Hpage.
      apply Z.ltb_lt in Hcap. unfold pageStart, pageSize in Hcap.
      split; [right; lia|]. cbn. unfold itemsOf. rewrite Hpage, app_nil_r. reflexivity. }
    apply Z.ltb_ge in Hcap. unfold pageStart, pageSize in Hcap.
    destruct (IH (S k) (all ++ map toItem rows)) as (result & turns & Hrun & Hturns & Hfull & Hlast);
      [lia|lia|].
    rewrite Hrun. exists result, (S turns). split; [reflexivity|].
    split; [lia|]. split.
    + intros i Hlow Hhigh. destruct (Nat.eq_dec i k) as [->|Hne].
      * exists rows. split; [exact Hpage|lia].
      * apply Hfull; lia.
    + replace (k + S turns - 1)%nat with (S k + turns - 1)%nat by lia.
      destruct (wsapiGet (pageStart (S k + turns - 1))) as [lastRows|error]; [|exact Hlast].
      destruct Hlast as [Hwhy ->]. split; [destruct Hwhy; [left|right]; lia|].
      cbn [seq map concat]. unfold itemsOf at 2. rewrite Hpage, app_assoc. reflexivity.
  - exists (Throw error), 1%nat. split; [reflexivity|].
    split; [lia|]. split; [intros i Hlow Hhigh; lia|].
    replace (k + 1 - 1)%nat with k by lia. rewrite Hpage. reflexivity.
Qed.

(** X17.  A paged listing asks for the pages that start at rows 1, 201,
    401, ... in this order, at least one and at most 26 of them.  It stops
    at the first page with fewer than 200 rows, at the first request that
    fails, or after the page that starts at row 5001; every page before the
    last one read held at least 200 rows.  When the last request fails, its
    error is thrown and the rows read so far are lost; otherwise the
    listing returns the items of all pages read, in order. *)
Theorem pagesFrom_reads_until_short_page :
  exists (result : Result (list Item)) (turns : nat),
    pagesFrom wsapiGet toItem 26 1 [] = Some (result, map pageStart (seq 0 turns))
    /\ (1 <= turns <= 26)%nat
    /\ (forall i, (S i < turns)%nat ->
          exists rows, wsapiGet (pageStart i) = Ok rows /\ (200 <= length rows)%nat)
    /\ match wsapiGet (pageStart (turns - 1)) with
       | Throw error => result = Throw error
       | Ok rows =>
           ((length rows < 200)%nat \/ turns = 26%nat)
           /\ result = Ok (concat (map (itemsOf wsapiGet toItem) (seq 0 turns)))
       end.
Proof.
  destruct (pagesFrom_turns 26 0 []) as (result & turns & Hrun & Hturns & Hfull & Hlast);
    [lia|lia|].
  exists result, turns. split; [exact Hrun|]. split; [exact Hturns|].
  split; [intros i Hi; apply Hfull; lia|].
  exact Hlast.
Qed.

End PagedListing.

(** X17 on a query with 203 stories: the page at row 1 is full, the page at
    row 201 holds three rows and ends the listing. *)
Lemma pagesFrom_reads_until_short_page_witness :
  exists stories,
    Paging.fetchStoriesForQuery "https://rally1.rallydev.com" Scenarios.storyPages
    = Some (Ok stories, [1; 201])
    /\ length stories = 203%nat
    /\ exists result turns,
         Paging.fetchStoriesForQuery "https://rally1.rallydev.com" Scenarios.storyPages
         = Some (result, map Paging.pageStart (seq 0 turns))
         /\ (1 <= turns <= 26)%nat.
Proof.
  eexists. split; [vm_compute; reflexivity|]. split; [reflexivity|].
  unfold Paging.fetchStoriesForQuery.
  match goal with
  | |- context [Paging.pagesFrom ?wsapiGet ?toItem 26 1 []] =>
      destruct (pagesFrom_reads_until_short_page wsapiGet toItem)
        as (result & turns & Hrun & Hturns & _)
  end.
  exists result, turns. split; [exact Hrun|exact Hturns].
Defined.

(* ===================================================================== *)
(** * The stored documents: what is read back *)
(* ===================================================================== *)

Section Trim.

Lemma trimEnd_idempotent (s : string) : trimEnd (trimEnd s) = trimEnd s.
Proof.
  induction s as [|c rest IH]; [reflexivity|]. cbn [trimEnd].
  destruct (trimEnd rest) as [|d rest'] eqn:Hrest.
  - destruct (isWhiteSpace c) eqn:Hc; [reflexivity|]. cbn. rewrite Hc. reflexivity.
  - change (trimEnd (String c (String d rest')))
      with (match trimEnd (String d rest') with
            | EmptyString => if isWhiteSpace c then EmptyString else String c EmptyString
            | rest'' => String c rest''
            end).
    rewrite IH. reflexivity.
Qed.

Lemma trimStart_head (s : string) :
  trimStart s = "" \/ exists c rest, trimStart s = String c rest /\ isWhiteSpace c = false.
Proof.
  induction s as [|c rest IH]; [left; reflexivity|]. cbn.
  destruct (isWhiteSpace c) eqn:Hc; [exact IH|]. right. eauto.
Qed.

Lemma trimEnd_head (c : ascii) (rest : string) :
  isWhiteSpace c = false -> exists rest', trimEnd (String c rest) = String c rest'.
Proof.
  intros Hc. cbn. destruct (trimEnd rest); [rewrite Hc|]; eauto.
Qed.

(** A trimmed string is either empty or begins with a character that is
    not white space. *)
Lemma trim_head (s : string) :
  trim s = "" \/ exists c rest, trim s = String c rest /\ isWhiteSpace c = false.
Proof.
  unfold trim. destruct (trimStart_head s) as [->|(c & rest & -> & Hc)]; [left; reflexivity|].
  right. destruct (trimEnd_head c rest Hc) as (rest' & ->). eauto.
Qed.

Lemma trim_idempotent (s : string) : trim (trim s) = trim s.
Proof.
  destruct (trim_head s) as [->|(c & rest & Heq & Hc)]; [reflexivity|].
  unfold trim at 1. rewrite Heq. cbn [trimStart]. rewrite Hc.
  rewrite <- Heq. unfold trim. apply trimEnd_idempotent.
Qed.

Lemma length_zero (s : string) : (String.length s =? 0)%nat = true <-> s = "".
Proof.
  destruct s; cbn; [tauto|]. split; discriminate.
Qed.

Lemma truthy_true (s : string) : truthy s = true <-> s <> "".
Proof.
  unfold truthy. rewrite negb_true_iff. destruct (String.eqb_spec s ""); split; congruence.
Qed.

Lemma nonBlank_true (s : string) : Storage.nonBlank s = true <-> trim s <> "".
Proof.
  unfold Storage.nonBlank. destruct (trim s); cbn; split; congruence.
Qed.

End Trim.

Section Classified.
Context `{JsRuntime}.
Import Storage.

Lemma sanitizeStoryRef_saved (story : TestingRequiredStoryRef.t) :
  sanitizeStoryRef (savedStoryRef story)
  = if nonBlank (TestingRequiredStoryRef.formattedId story)
    then Some {| TestingRequiredStoryRef.storyObjectId :=
                   TestingRequiredStoryRef.storyObjectId story;
                 TestingRequiredStoryRef.formattedId :=
                   trim (TestingRequiredStoryRef.formattedId story) |}
    else None.
Proof.
  unfold sanitizeStoryRef, savedStoryRef, nonBlank, getProp. cbn [mapGet].
  rewrite (decide_True (P := "storyObjectId" = "storyObjectId")) by reflexivity.
  rewrite (decide_False (P := "storyObjectId" = "formattedId")) by discriminate.
  rewrite (decide_True (P := "formattedId" = "formattedId")) by reflexivity.
  cbn. destruct (trim (TestingRequiredStoryRef.formattedId story)); reflexivity.
Qed.

Lemma sanitizeStoryRef_trimmed (item : JsValue) (story : TestingRequiredStoryRef.t) :
  sanitizeStoryRef item = Some story ->
  TestingRequiredStoryRef.formattedId story <> ""
  /\ trim (TestingRequiredStoryRef.formattedId story)
     = TestingRequiredStoryRef.formattedId story.
Proof.
  unfold sanitizeStoryRef. destruct item as [| | | | |items|record]; try discriminate.
  destruct (toFiniteNumber _) as [storyObjectId|]; [|discriminate].
  destruct (String.length _ =? 0)%nat eqn:Hblank; [discriminate|].
  intros [= <-]. cbn. split.
  - intros Hempty. rewrite Hempty in Hblank. discriminate.
  - destruct (getProp "formattedId" record); try reflexivity. apply trim_idempotent.
Qed.

(** X18.  Every entry that [sanitizeTestingRequiredStories] returns has a
    formatted id that is not empty and carries no white space around it; a
    value that is not an array gives the empty list.  Of a classification
    set read back from storage the entries with a blank formatted id are
    dropped and the others come back with the formatted id trimmed, so a
    set whose formatted ids are not blank and trimmed is read back
    unchanged; in particular what the function returns is read back
    unchanged after being saved. *)
Theorem sanitizeTestingRequiredStories_round_trip
    (value : JsValue) (stories : list TestingRequiredStoryRef.t) :
  (forall story, In story (sanitizeTestingRequiredStories value) ->
     TestingRequiredStoryRef.formattedId story <> ""
     /\ trim (TestingRequiredStoryRef.formattedId story)
        = TestingRequiredStoryRef.formattedId story)
  /\ ((forall items, value <> JsArray items) -> sanitizeTestingRequiredStories value = [])
  /\ sanitizeTestingRequiredStories (savedStoryRefs stories)
     = map (fun story =>
              {| TestingRequiredStoryRef.storyObjectId :=
                   TestingRequiredStoryRef.storyObjectId story;
                 TestingRequiredStoryRef.formattedId :=
                   trim (TestingRequiredStoryRef.formattedId story) |})
         (List.filter (fun story => nonBlank (TestingRequiredStoryRef.formattedId story))
            stories)
  /\ (Forall (fun story =>
                TestingRequiredStoryRef.formattedId story <> ""
                /\ trim (TestingRequiredStoryRef.formattedId story)
                   = TestingRequiredStoryRef.formattedId story) stories ->
      sanitizeTestingRequiredStories (savedStoryRefs stories) = stories)
  /\ sanitizeTestingRequiredStories
       (savedStoryRefs (sanitizeTestingRequiredStories value))
     = sanitizeTestingRequiredStories value.
Proof.
  assert (Htrimmed : forall story, In story (sanitizeTestingRequiredStories value) ->
            TestingRequiredStoryRef.formattedId story <> ""
            /\ trim (TestingRequiredStoryRef.formattedId story)
               = TestingRequiredStoryRef.formattedId story).
  { intros story Hin. unfold sanitizeTestingRequiredStories in Hin.
    destruct value as [| | | | |items|record]; try destruct Hin.
    apply list_elem_of_In, list_elem_of_omap in Hin as (item & _ & Hitem).
    eapply sanitizeStoryRef_trimmed. exact Hitem. }
  assert (Hsaved : forall saved,
            sanitizeTestingRequiredStories (savedStoryRefs saved)
            = map (fun story =>
                     {| TestingRequiredStoryRef.storyObjectId :=
                          TestingRequiredStoryRef.storyObjectId story;
                        TestingRequiredStoryRef.formattedId :=
                          trim (TestingRequiredStoryRef.formattedId story) |})
                (List.filter
                   (fun story => nonBlank (TestingRequiredStoryRef.formattedId story))
                   saved)).
  { intros saved. unfold sanitizeTestingRequiredStories, savedStoryRefs.
    induction saved as [|story rest IH]; [reflexivity|].
    cbn [map List.filter].
    change (omap sanitizeStoryRef (savedStoryRef story :: map savedStoryRef rest))
      with (match sanitizeStoryRef (savedStoryRef story) with
            | Some kept => kept :: omap sanitizeStoryRef (map savedStoryRef rest)
            | None => omap sanitizeStoryRef (map savedStoryRef rest)
            end).
    rewrite sanitizeStoryRef_saved.
    destruct (nonBlank _); cbn [map]; rewrite <- IH; reflexivity. }
  assert (Hfixed : forall saved,
            Forall (fun story =>
                      TestingRequiredStoryRef.formattedId story <> ""
                      /\ trim (TestingRequiredStoryRef.formattedId story)
                         = TestingRequiredStoryRef.formattedId story) saved ->
            sanitizeTestingRequiredStories (savedStoryRefs saved) = saved).
  { intros saved Hall. rewrite Hsaved.
    induction Hall as [|story rest [Hsome Htrim] _ IH]; [reflexivity|].
    cbn [List.filter].
    assert (nonBlank (TestingRequiredStoryRef.formattedId story) = true) as ->
      by (apply nonBlank_true; rewrite Htrim; exact Hsome).
    cbn [map]. rewrite IH, Htrim. destruct story; reflexivity. }
  split; [exact Htrimmed|]. split.
  { intros Hother. destruct value; try reflexivity. exfalso. eapply Hother. reflexivity. }
  split; [apply Hsaved|]. split; [apply Hfixed|].
  apply Hfixed. apply List.Forall_forall. exact Htrimmed.
Qed.

End Classified.

(** A stored set with a well-formed entry, one whose formatted id carries
    white space, one whose formatted id is blank and one that is not an
    object. *)
Example sanitizeTestingRequiredStories_example :
  @Storage.sanitizeTestingRequiredStories IsoRuntime.runtime
    (JsArray [Storage.savedStoryRef (Examples.ref 501 "US501");
              JsObject [("storyObjectId", JsString "502"); ("formattedId", JsString " US502 ")];
              Storage.savedStoryRef (Examples.ref 503 "  ");
              JsString "US504"])
  = [Examples.ref 501 "US501"; Examples.ref 502 "US502"].
Proof. vm_compute. reflexivity. Qed.

Section Hydrated.
Import Storage.

Lemma orElse_nonempty (value : option string) (fallback : string) :
  fallback <> "" -> orElse value fallback <> "".
Proof.
  intros Hfallback. unfold orElse. destruct value as [s|]; [|exact Hfallback].
  destruct (truthy s) eqn:Hs; [|exact Hfallback]. apply truthy_true. exact Hs.
Qed.

Lemma orElse_Some (s fallback : string) : s <> "" -> orElse (Some s) fallback = s.
Proof.
  intros Hs. unfold orElse. apply truthy_true in Hs. rewrite Hs. reflexivity.
Qed.

Lemma orElse_again (value : option string) (fallback : string) :
  orElse (Some (orElse value fallback)) fallback = orElse value fallback.
Proof.
  unfold orElse at 1. destruct (truthy (orElse value fallback)) eqn:Hresult; [reflexivity|].
  unfold orElse in *. destruct value as [s|]; [|reflexivity].
  destruct (truthy s) eqn:Hs; [congruence|reflexivity].
Qed.

Lemma append_nonempty (c : ascii) (a b : string) : String c a +:+ b <> "".
Proof. discriminate. Qed.

Lemma nonBlank_append (c : ascii) (a b : string) :
  isWhiteSpace c = false -> nonBlank (String c a +:+ b) = true.
Proof.
  intros Hc. apply nonBlank_true. unfold trim.
  change (String c a +:+ b) with (String c (a +:+ b)). cbn [trimStart]. rewrite Hc.
  destruct (trimEnd_head c (a +:+ b) Hc) as (rest & ->). discriminate.
Qed.

Lemma nonBlank_nonempty (s : string) : nonBlank s = true -> s <> "".
Proof. intros Hs ->. discriminate. Qed.

Lemma default_Some {A} (fallback value : A) : default fallback (Some value) = value.
Proof. reflexivity. Qed.

Lemma filter_idempotent {A} (p : A -> bool) (l : list A) :
  List.filter p (List.filter p l) = List.filter p l.
Proof.
  induction l as [|x rest IH]; cbn; [reflexivity|].
  destruct (p x) eqn:Hp; cbn; rewrite ?Hp, IH; reflexivity.
Qed.

(** X19.  A tracker that [hydrateTracker] accepts has a workspace, a
    sprint and at least one project; its id, name, creation time and base
    URL are not empty; its poll interval is 1, 5 or 10 minutes; none of its
    project names is blank; and its webhook URL, when it has one, is
    trimmed and not empty.  The tracker is stable under saving and
    loading: hydrating the entry written for it gives the same tracker
    again, at whatever position and time. *)
Theorem hydrateTracker_well_formed (now : Z) (timezone : string)
    (tracker : PartialTracker.t) (index : Z) (stored : StoredTracker.t) :
  hydrateTracker now timezone tracker index = Some stored ->
  let config := StoredTracker.config stored in
  TrackerConfig.workspaceOid config <> ""
  /\ TrackerConfig.iterationOid config <> ""
  /\ TrackerConfig.projectOids config <> []
  /\ TrackerConfig.id config <> ""
  /\ TrackerConfig.name config <> ""
  /\ TrackerConfig.createdAt config <> ""
  /\ TrackerConfig.baseUrl config <> ""
  /\ In (TrackerConfig.pollIntervalMinutes config) [1; 5; 10]
  /\ Forall (fun name => trim name <> "") (TrackerConfig.projectNames config)
  /\ (forall url, StoredTracker.teamsWebhookUrl stored = Some url ->
        url <> "" /\ trim url = url)
  /\ forall now' index',
       hydrateTracker now' timezone (savedTracker stored) index' = Some stored.
Proof.
  unfold hydrateTracker.
  destruct (truthy (default "" (PartialTracker.workspaceOid tracker))) eqn:Hworkspace;
    [|discriminate].
  destruct (truthy (default "" (PartialTracker.iterationOid tracker))) eqn:Hiteration;
    [|discriminate].
  cbn [negb orb].
  destruct (length (default [] (PartialTracker.projectOids tracker)) =? 0)%nat eqn:Hprojects;
    [discriminate|].
  intros [= <-]. cbv zeta.
  cbn [StoredTracker.config StoredTracker.teamsWebhookUrl TrackerConfig.workspaceOid
       TrackerConfig.iterationOid TrackerConfig.projectOids TrackerConfig.id
       TrackerConfig.name TrackerConfig.createdAt TrackerConfig.baseUrl
       TrackerConfig.pollIntervalMinutes TrackerConfig.projectNames].
  set (id := orElse (PartialTracker.id tracker) _).
  set (name := match PartialTracker.name tracker with Some _ => _ | None => _ end).
  set (createdAt := orElse (PartialTracker.createdAt tracker) _).
  set (baseUrl := orElse (PartialTracker.baseUrl tracker) _).
  set (minutes := match PartialTracker.pollIntervalMinutes tracker with
                  | Some _ => _ | None => _ end).
  set (webhook := match PartialTracker.teamsWebhookUrl tracker with
                  | Some _ => _ | None => _ end).
  assert (Hid : id <> "") by (apply orElse_nonempty, append_nonempty).
  assert (Hname : name <> ""
                  /\ (nonBlank name = false ->
                      name = orElse (PartialTracker.iterationName tracker) ""
                      /\ name <> "")).
  { assert (Hfallback : forall fallbackIndex,
              let fallback :=
                orElse (PartialTracker.iterationName tracker)
                  ("Sprint " +:+ numberToString fallbackIndex) in
              fallback <> ""
              /\ (nonBlank fallback = false ->
                  fallback = orElse (PartialTracker.iterationName tracker) "")).
    { intros fallbackIndex. cbv zeta. split; [apply orElse_nonempty, append_nonempty|].
      unfold orElse. destruct (PartialTracker.iterationName tracker) as [s|].
      - destruct (truthy s); [reflexivity|].
        intros Hblank. rewrite nonBlank_append in Hblank by reflexivity. discriminate.
      - intros Hblank. rewrite nonBlank_append in Hblank by reflexivity. discriminate. }
    subst name. destruct (PartialTracker.name tracker) as [given|].
    - destruct (nonBlank given) eqn:Hgiven.
      + split; [apply nonBlank_nonempty; exact Hgiven|]. congruence.
      + destruct (Hfallback (index + 1)) as [Hsome Hblank]. split; [exact Hsome|].
        intros Hb. split; [apply Hblank; exact Hb|exact Hsome].
    - destruct (Hfallback (index + 1)) as [Hsome Hblank]. split; [exact Hsome|].
      intros Hb. split; [apply Hblank; exact Hb|exact Hsome]. }
  destruct Hname as [Hname Hblank].
  assert (HcreatedAt : createdAt <> "").
  { apply orElse_nonempty. destruct (toISOString_nonempty now) as (c & rest & ->).
    discriminate. }
  assert (HbaseUrl : baseUrl <> "") by (apply orElse_nonempty; discriminate).
  assert (Hminutes : minutes = 1 \/ minutes = 5 \/ minutes = 10).
  { subst minutes. destruct (PartialTracker.pollIntervalMinutes tracker) as [given|]; [|auto].
    destruct (Z.eqb_spec given 1) as [->|_]; [auto|].
    destruct (Z.eqb_spec given 10) as [->|_]; cbn; auto. }
  assert (Hwebhook : forall url, webhook = Some url -> url <> "" /\ trim url = url).
  { subst webhook. intros url.
    destruct (PartialTracker.teamsWebhookUrl tracker) as [given|]; [|discriminate].
    destruct (nonBlank given) eqn:Hgiven; [|discriminate].
    intros [= <-]. split; [apply nonBlank_true; exact Hgiven|apply trim_idempotent]. }
  apply truthy_true in Hworkspace, Hiteration.
  split; [exact Hworkspace|]. split; [exact Hiteration|].
  split; [destruct (default [] (PartialTracker.projectOids tracker)); [discriminate|congruence]|].
  split; [exact Hid|]. split; [exact Hname|]. split; [exact HcreatedAt|].
  split; [exact HbaseUrl|].
  split; [destruct Hminutes as [Heq|[Heq|Heq]]; rewrite Heq; cbn; auto|].
  split.
  { destruct (PartialTracker.projectNames tracker) as [names|]; [|constructor].
    apply List.Forall_forall. intros projectName Hin. apply filter_In in Hin as [_ Hin].
    apply nonBlank_true. exact Hin. }
  split; [exact Hwebhook|].
  intros now' index'. unfold savedTracker.
  cbn [StoredTracker.config StoredTracker.teamsWebhookUrl PartialTracker.workspaceOid
       PartialTracker.iterationOid PartialTracker.projectOids PartialTracker.projectNames
       PartialTracker.id PartialTracker.name PartialTracker.createdAt PartialTracker.baseUrl
       PartialTracker.teamsWebhookUrl PartialTracker.iterationName
       PartialTracker.iterationStartDate PartialTracker.pollIntervalMinutes
       PartialTracker.timezone TrackerConfig.workspaceOid TrackerConfig.iterationOid
       TrackerConfig.projectOids TrackerConfig.id TrackerConfig.name TrackerConfig.createdAt
       TrackerConfig.baseUrl TrackerConfig.pollIntervalMinutes TrackerConfig.projectNames
       TrackerConfig.iterationName TrackerConfig.iterationStartDate TrackerConfig.timezone].
  rewrite !default_Some.
  apply truthy_true in Hworkspace, Hiteration. rewrite Hworkspace, Hiteration, Hprojects.
  cbn [negb orb].
  rewrite (orElse_Some id) by exact Hid.
  rewrite (orElse_Some createdAt) by exact HcreatedAt.
  rewrite (orElse_Some baseUrl) by exact HbaseUrl.
  rewrite !orElse_again.
  assert (Hsame : (if nonBlank name then name
                   else orElse (Some (orElse (PartialTracker.iterationName tracker) ""))
                          ("Sprint " +:+ numberToString (index' + 1))) = name).
  { destruct (nonBlank name) eqn:Hb; [reflexivity|].
    destruct (Hblank eq_refl) as [Heq Hsome]. rewrite <- Heq. apply orElse_Some. exact Hsome. }
  rewrite Hsame.
  assert (Hminutes' : (if (minutes =? 1) || (minutes =? 10) then minutes else 5) = minutes)
    by (destruct Hminutes as [Heq|[Heq|Heq]]; rewrite Heq; reflexivity).
  rewrite Hminutes'.
  assert (Hwebhook' : match webhook with
                      | Some url => if nonBlank url then Some (trim url) else None
                      | None => None
                      end = webhook).
  { destruct webhook as [url|] eqn:Hurl; [|reflexivity].
    destruct (Hwebhook url eq_refl) as [Hsome Htrim].
    assert (nonBlank url = true) as -> by (apply nonBlank_true; rewrite Htrim; exact Hsome).
    rewrite Htrim. reflexivity. }
  rewrite Hwebhook'.
  assert (Hnames : List.filter nonBlank
                     match PartialTracker.projectNames tracker with
                     | Some names => List.filter nonBlank names
                     | None => []
                     end
                   = match PartialTracker.projectNames tracker with
                     | Some names => List.filter nonBlank names
                     | None => []
                     end).
  { destruct (PartialTracker.projectNames tracker); [apply filter_idempotent|reflexivity]. }
  rewrite Hnames. reflexivity.
Qed.

End Hydrated.

(** X19 on an entry written by an older version, found at position 2 of
    the stored list. *)
Lemma hydrateTracker_well_formed_witness :
  exists stored,
    Storage.hydrateTracker 1709290800000 "UTC" Scenarios.olderEntry 2 = Some stored
    /\ stored
       = {| Storage.StoredTracker.config :=
              {| TrackerConfig.id := "trk_legacy_2";
                 TrackerConfig.name := "Sprint 12";
                 TrackerConfig.projectNames := ["Platform"];
                 TrackerConfig.createdAt := "2024-03-01T11:00:00.000Z";
                 TrackerConfig.baseUrl := "https://rally1.rallydev.com";
                 TrackerConfig.workspaceOid := "41529001";
                 TrackerConfig.projectOids := ["7001"];
                 TrackerConfig.iterationOid := "9001";
                 TrackerConfig.iterationName := "Sprint 12";
                 TrackerConfig.iterationStartDate := "";
                 TrackerConfig.pollIntervalMinutes := 5;
                 TrackerConfig.timezone := "UTC" |};
            Storage.StoredTracker.teamsWebhookUrl :=
              Some "https://example.webhook.office.com/hook" |}
    /\ Storage.hydrateTracker 1709300000000 "UTC" (Storage.savedTracker stored) 0
       = Some stored.
Proof.
  eexists. split; [vm_compute; reflexivity|]. split; [reflexivity|].
  refine (proj2 (proj2 (proj2 (proj2 (proj2 (proj2 (proj2 (proj2 (proj2 (proj2
            (hydrateTracker_well_formed 1709290800000 "UTC" Scenarios.olderEntry 2 _ _))))))))))
            1709300000000 0).
  vm_compute. reflexivity.
Defined.

(* ===================================================================== *)
(** * The status line *)
(* ===================================================================== *)

Lemma mapValues_by_keys {K V} `{EqDecision K} (m : list (K * V)) (fallback : V) :
  NoDup (mapKeys m) ->
  mapValues m = map (fun k => default fallback (mapGet k m)) (mapKeys m).
Proof.
  unfold mapValues, mapKeys. induction m as [|[k v] rest IH]; intros Hnd; [reflexivity|].
  cbn [map fst snd mapGet] in Hnd |- *. apply NoDup_cons in Hnd as [Hfresh Hnd].
  destruct (decide (k = k)); [|contradiction]. cbn [default from_option id]. f_equal.
  rewrite IH by exact Hnd. apply map_ext_in. intros k' Hk'.
  destruct (decide (k = k')) as [<-|_]; [|reflexivity].
  exfalso. apply Hfresh, list_elem_of_In. exact Hk'.
Qed.

Section StatusLine.
Import Main Status.

Lemma canonicalScheduleState_cases (scheduleState : option string) :
  In (canonicalScheduleState scheduleState) states.
Proof.
  unfold canonicalScheduleState, states. cbv zeta.
  repeat match goal with |- context [if ?b then _ else _] => destruct b end;
    cbn; auto 10.
Qed.

Lemma canonicalScheduleState_inProgress (scheduleState : option string) :
  canonicalScheduleState scheduleState = "In-Progress"
  <-> isInProgressScheduleState (default "" scheduleState) = true.
Proof.
  unfold canonicalScheduleState, isInProgressScheduleState. cbv zeta.
  set (normalized := replaceSeparators false (toLowerCase (trim (default "" scheduleState)))).
  destruct (String.eqb_spec normalized "in-progress") as [->|Hne].
  - cbn. tauto.
  - repeat match goal with |- context [if ?b then _ else _] => destruct b end;
      split; discriminate.
Qed.

(** The number of [stories] counted under [state]. *)
Lemma countStates_fold (stories : list SprintStory.t) (counts : list (string * Z)) :
  mapKeys counts = states ->
  let counted :=
    fold_left
      (fun counts story =>
         let state := canonicalScheduleState (SprintStory.scheduleState story) in
         mapSet state (default 0 (mapGet state counts) + 1) counts)
      stories counts in
  mapKeys counted = states
  /\ forall state,
       default 0 (mapGet state counted)
       = default 0 (mapGet state counts)
         + Z.of_nat
             (length
                (List.filter
                   (fun story =>
                      (canonicalScheduleState (SprintStory.scheduleState story) =? state)%string)
                   stories)).
Proof.
  revert counts. induction stories as [|story rest IH]; intros counts Hkeys; cbv zeta.
  - cbn. split; [exact Hkeys|]. intros state. lia.
  - cbn [fold_left List.filter].
    set (state := canonicalScheduleState (SprintStory.scheduleState story)).
    assert (Hkeys' : mapKeys (mapSet state (default 0 (mapGet state counts) + 1) counts)
                     = states).
    { rewrite mapKeys_mapSet, Hkeys.
      rewrite bool_decide_eq_true_2; [reflexivity|].
      apply list_elem_of_In, canonicalScheduleState_cases. }
    destruct (IH _ Hkeys') as [Hkept Hcounted]. split; [exact Hkept|].
    intros other. rewrite Hcounted, mapGet_mapSet.
    fold state. destruct (decide (state = other)) as [Heq|Hne].
    + rewrite <- Heq, String.eqb_refl. cbn -[Z.add Z.of_nat]. lia.
    + rewrite (proj2 (String.eqb_neq _ _) Hne). lia.
Qed.

Lemma tally_total {A} (stateOf : A -> string) (items : list A) :
  (forall item, In (stateOf item) states) ->
  fold_right Z.add 0
    (map (fun state =>
            Z.of_nat (length (List.filter (fun item => (stateOf item =? state)%string) items)))
       states)
  = Z.of_nat (length items).
Proof.
  intros Hstates. induction items as [|item rest IH]; [reflexivity|].
  cbn [List.filter length]. rewrite Nat2Z.inj_succ, <- IH. unfold states. cbn [map fold_right].
  specialize (Hstates item). unfold states in Hstates. cbn in Hstates.
  destruct Hstates as [<-|[<-|[<-|[<-|[<-|[<-|[]]]]]]]; cbn [String.eqb Ascii.eqb Bool.eqb];
    cbn [length]; lia.
Qed.

(** X20.  The status line accounts for every story exactly once: the
    counts are kept for the six states Backlogged, Defined, In-Progress,
    Completed, Accepted and Unknown, in this order; the count of a state is
    the number of stories whose schedule state is canonically that state;
    the six counts add up to the number of stories; a story counts as
    In-Progress exactly when the classifier of the testing-required set
    takes it for in progress, so that count is at least the size of the
    testing-required set. *)
Theorem summarizeProjectStatus_counts_every_story_once (stories : list SprintStory.t) :
  let counts := countStates stories in
  mapKeys counts = states
  /\ (forall state, In state states ->
        mapGet state counts
        = Some (Z.of_nat
                  (length
                     (List.filter
                        (fun story =>
                           (canonicalScheduleState (SprintStory.scheduleState story)
                            =? state)%string)
                        stories))))
  /\ fold_right Z.add 0 (mapValues counts) = Z.of_nat (length stories)
  /\ (forall story,
        canonicalScheduleState (SprintStory.scheduleState story) = "In-Progress"
        <-> isInProgressScheduleState (default "" (SprintStory.scheduleState story)) = true)
  /\ Z.of_nat (length (getTestingRequiredStories stories))
     <= default 0 (mapGet "In-Progress" counts).
Proof.
  cbv zeta. unfold countStates. cbv zeta.
  set (initial := fold_left (fun counts state => mapSet state 0 counts) states []).
  assert (Hinitial : initial = map (fun state => (state, 0)) states)
    by (vm_compute; reflexivity).
  assert (Hkeys0 : mapKeys initial = states) by (rewrite Hinitial; reflexivity).
  assert (Hzero : forall state, default 0 (mapGet state initial) = 0).
  { intros state. rewrite Hinitial. unfold states. cbn [map mapGet].
    repeat destruct (decide _); reflexivity. }
  destruct (countStates_fold stories initial Hkeys0) as [Hkeys Hcounted].
  set (counts := fold_left _ stories initial) in *.
  assert (Hcount : forall state,
            default 0 (mapGet state counts)
            = Z.of_nat
                (length
                   (List.filter
                      (fun story =>
                         (canonicalScheduleState (SprintStory.scheduleState story)
                          =? state)%string)
                      stories))).
  { intros state. rewrite Hcounted, Hzero. lia. }
  assert (Hpresent : forall state, In state states ->
            mapGet state counts = Some (default 0 (mapGet state counts))).
  { intros state Hstate. destruct (mapGet state counts) as [v|] eqn:Hget; [reflexivity|].
    apply mapGet_None_not_in_keys in Hget. exfalso. apply Hget.
    rewrite Hkeys. apply list_elem_of_In. exact Hstate. }
  split; [exact Hkeys|].
  split; [intros state Hstate; rewrite (Hpresent state Hstate), Hcount; reflexivity|].
  split.
  { assert (Hnd : NoDup (mapKeys counts))
      by (rewrite Hkeys; unfold states; apply NoDup_ListNoDup;
          repeat constructor; cbn; intuition discriminate).
    rewrite (mapValues_by_keys counts 0 Hnd), Hkeys.
    rewrite (map_ext _ _ Hcount).
    apply (tally_total (fun story => canonicalScheduleState (SprintStory.scheduleState story))).
    intros story. apply canonicalScheduleState_cases. }
  split; [intros story; apply canonicalScheduleState_inProgress|].
  rewrite Hcount. apply inj_le. unfold getTestingRequiredStories.
  clear. induction stories as [|story rest IH]; [cbn; lia|].
  cbn [List.filter].
  destruct (SprintStory.ready story) as [[|]|].
  - destruct (isInProgressScheduleState _) eqn:Hprogress.
    + apply canonicalScheduleState_inProgress in Hprogress. rewrite Hprogress.
      cbn. lia.
    + destruct (_ =? _)%string; cbn; lia.
  - destruct (_ =? _)%string; cbn; lia.
  - destruct (_ =? _)%string; cbn; lia.
Qed.

End StatusLine.

Example summarizeProjectStatus_example :
  Status.summarizeProjectStatus
    [Examples.story 501 "US501" true "In-Progress";
     Examples.story 502 "US502" false "in progress";
     Examples.story 503 "US503" true "Defined";
     Examples.story 504 "US504" false "Released"]
  = "Stories: 4 | Backlogged: 0 | Defined: 1 | In-Progress: 2 | Completed: 0 | Accepted: 0 | Unknown: 1".
Proof. vm_compute. reflexivity. Qed.

(* ===================================================================== *)
(** * The polling pass *)
(* ===================================================================== *)

Section PollingPass.
Context `{JsRuntime}.
Import Main Scheduler.

(** What the pass reads and writes under one tracker id. *)
Lemma pollIfDue_elsewhere (force : bool) (apiKey : string) (pass : Pass) (s : State)
    (tracker : TrackerConfig.t) (id : string) :
  id <> TrackerConfig.id tracker ->
  let after := pollIfDue force apiKey pass s tracker in
  lastPollByTracker after !! id = lastPollByTracker s !! id
  /\ PersistedState.trackers (appState (world after)) !! id
     = PersistedState.trackers (appState (world s)) !! id
  /\ currentStoriesByTracker (world after) !! id = currentStoriesByTracker (world s) !! id
  /\ statusByTracker (world after) !! id = statusByTracker (world s) !! id.
Proof.
  intros Hne. cbv zeta. unfold pollIfDue.
  destruct (negb force && _); [auto|].
  cbn [world lastPollByTracker].
  destruct (pollTracker_elsewhere (withApiKey apiKey (environmentOf pass tracker)) tracker
              (world s) id Hne) as (Hstate & Hstories & Hstatus & _).
  rewrite lookup_insert_ne by congruence. auto.
Qed.

Lemma fold_pollIfDue_elsewhere (force : bool) (apiKey : string) (pass : Pass)
    (trackers : list TrackerConfig.t) (s : State) (id : string) :
  ~ In id (map TrackerConfig.id trackers) ->
  let after := fold_left (pollIfDue force apiKey pass) trackers s in
  lastPollByTracker after !! id = lastPollByTracker s !! id
  /\ PersistedState.trackers (appState (world after)) !! id
     = PersistedState.trackers (appState (world s)) !! id
  /\ currentStoriesByTracker (world after) !! id = currentStoriesByTracker (world s) !! id
  /\ statusByTracker (world after) !! id = statusByTracker (world s) !! id.
Proof.
  revert s. induction trackers as [|tracker rest IH]; intros s Habsent; cbv zeta; [auto|].
  cbn [fold_left]. cbn [map In] in Habsent.
  destruct (IH (pollIfDue force apiKey pass s tracker)) as (Hlast & Hstate & Hstories & Hstatus);
    [tauto|].
  destruct (pollIfDue_elsewhere force apiKey pass s tracker id)
    as (Hlast' & Hstate' & Hstories' & Hstatus'); [intros ->; tauto|].
  cbv zeta in *. rewrite Hlast, Hstate, Hstories, Hstatus. auto.
Qed.

Lemma fold_pollIfDue_at (force : bool) (apiKey : string) (pass : Pass)
    (trackers : list TrackerConfig.t) (s : State) (tracker : TrackerConfig.t) :
  NoDup (map TrackerConfig.id trackers) -> In tracker trackers ->
  let id := TrackerConfig.id tracker in
  let after := fold_left (pollIfDue force apiKey pass) trackers s in
  if negb force
     && (passNow pass - default 0 (lastPollByTracker s !! id)
         <? TrackerConfig.pollIntervalMinutes tracker * 60 * 1000)
  then
    lastPollByTracker after !! id = lastPollByTracker s !! id
    /\ PersistedState.trackers (appState (world after)) !! id
       = PersistedState.trackers (appState (world s)) !! id
    /\ currentStoriesByTracker (world after) !! id = currentStoriesByTracker (world s) !! id
    /\ statusByTracker (world after) !! id = statusByTracker (world s) !! id
  else
    lastPollByTracker after !! id = Some (polledAt pass tracker)
    /\ PersistedState.trackers (appState (world after)) !! id
       = PersistedState.trackers
           (appState (pollTracker (withApiKey apiKey (environmentOf pass tracker)) tracker
                        (world s))) !! id.
Proof.
  revert s. induction trackers as [|first rest IH]; intros s Hnd Hin; [destruct Hin|].
  cbn [map] in Hnd. apply NoDup_cons in Hnd as [Hfresh Hnd].
  cbv zeta. cbn [fold_left]. destruct Hin as [->|Hin].
  - destruct (fold_pollIfDue_elsewhere force apiKey pass rest
                (pollIfDue force apiKey pass s tracker) (TrackerConfig.id tracker))
      as (Hlast & Hstate & Hstories & Hstatus).
    { intros Hin. apply Hfresh, list_elem_of_In. exact Hin. }
    cbv zeta in *. rewrite Hlast, Hstate, Hstories, Hstatus. unfold pollIfDue.
    destruct (negb force && _); [auto|].
    cbn [world lastPollByTracker]. rewrite lookup_insert_eq. auto.
  - assert (Hne : TrackerConfig.id tracker <> TrackerConfig.id first).
    { intros Heq. apply Hfresh. rewrite <- Heq. apply list_elem_of_In, in_map. exact Hin. }
    destruct (pollIfDue_elsewhere force apiKey pass s first (TrackerConfig.id tracker) Hne)
      as (Hlast & Hstate & Hstories & Hstatus).
    specialize (IH (pollIfDue force apiKey pass s first) Hnd Hin).
    cbv zeta in *. rewrite Hlast in IH.
    destruct (negb force && _).
    + rewrite Hstate, Hstories, Hstatus in IH. exact IH.
    + destruct IH as [IHlast IHstate]. split; [exact IHlast|].
      rewrite IHstate. apply pollTracker_local. exact Hstate.
Qed.

(** X21.  A polling pass that starts (no pass in flight, at least one
    tracker, an API key) over trackers with pairwise distinct ids polls a
    tracker when the pass is forced or when at least its poll interval has
    gone by since its last poll (a tracker never polled counts as polled
    at time 0), and only then.  A tracker that is not due keeps its last
    poll time, its stored state, its story list and its status text.  A
    tracker that is due gets the time after its poll as last poll time,
    and the state stored for it is the one its own poll gives on the state
    it had before the pass: the polls of the other trackers, failed ones
    included, do not bear on it.  The pass ends with no pass in flight and
    with the trimmed state of all trackers saved. *)
Theorem pollDueTrackers_polls_due_trackers (force : bool) (apiKey : string)
    (trackers : list TrackerConfig.t) (pass : Pass) (s : State) :
  pollInFlight s = false -> trackers <> [] -> apiKey <> "" ->
  NoDup (map TrackerConfig.id trackers) ->
  let after := pollDueTrackers force apiKey trackers pass s in
  pollInFlight after = false
  /\ savedState after
     = Some (AppState.savePersistedState (savedAt pass) (appState (world after)))
  /\ forall tracker, In tracker trackers ->
       let id := TrackerConfig.id tracker in
       if negb force
          && (passNow pass - default 0 (lastPollByTracker s !! id)
              <? TrackerConfig.pollIntervalMinutes tracker * 60 * 1000)
       then
         lastPollByTracker after !! id = lastPollByTracker s !! id
         /\ PersistedState.trackers (appState (world after)) !! id
            = PersistedState.trackers (appState (world s)) !! id
         /\ currentStoriesByTracker (world after) !! id
            = currentStoriesByTracker (world s) !! id
         /\ statusByTracker (world after) !! id = statusByTracker (world s) !! id
       else
         lastPollByTracker after !! id = Some (polledAt pass tracker)
         /\ PersistedState.trackers (appState (world after)) !! id
            = PersistedState.trackers
                (appState (pollTracker (withApiKey apiKey (environmentOf pass tracker))
                             tracker (world s))) !! id.
Proof.
  intros Hidle Hsome Hkey Hnd. cbv zeta. unfold pollDueTrackers.
  rewrite Hidle.
  assert ((length trackers =? 0)%nat = false) as ->
    by (destruct trackers; [contradiction|reflexivity]).
  assert (truthy apiKey = true) as ->
    by (unfold truthy; rewrite (proj2 (String.eqb_neq _ _) Hkey); reflexivity).
  cbn [orb negb world lastPollByTracker pollInFlight savedState].
  split; [reflexivity|]. split; [reflexivity|].
  intros tracker Hin.
  exact (fold_pollIfDue_at force apiKey pass trackers
           {| world := world s;
              lastPollByTracker := lastPollByTracker s;
              pollInFlight := true;
              savedState := savedState s |} tracker Hnd Hin).
Qed.

End PollingPass.

(** X21 on a pass over two trackers, two minutes after the poll of the
    first, whose interval is five minutes: only the second is polled. *)
Lemma pollDueTrackers_polls_due_trackers_witness :
  let after := @Scheduler.pollDueTrackers IsoRuntime.runtime false "key"
                 [Examples.tracker; Scenarios.secondTracker] Scenarios.pass Scenarios.idle in
  Scheduler.lastPollByTracker after !! "trk_1" = Some 1709290680000
  /\ PersistedState.trackers (Main.appState (Scheduler.world after)) !! "trk_1"
     = Some Examples.currentState
  /\ Scheduler.lastPollByTracker after !! "trk_2" = Some 1709290800500
  /\ Scheduler.pollInFlight after = false.
Proof.
  cbv zeta.
  destruct (@pollDueTrackers_polls_due_trackers IsoRuntime.runtime false "key"
              [Examples.tracker; Scenarios.secondTracker] Scenarios.pass Scenarios.idle)
    as (Hflight & _ & Hpolled).
  - reflexivity.
  - discriminate.
  - discriminate.
  - repeat constructor; cbn; rewrite ?elem_of_cons, ?elem_of_nil; intuition discriminate.
  - pose proof (Hpolled Examples.tracker (or_introl eq_refl)) as Hfirst.
    pose proof (Hpolled Scenarios.secondTracker (or_intror (or_introl eq_refl))) as Hsecond.
    cbv zeta in Hfirst, Hsecond.
    change (negb false
            && (Scheduler.passNow Scenarios.pass
                - default 0 (Scheduler.lastPollByTracker Scenarios.idle
                             !! TrackerConfig.id Examples.tracker)
                <? TrackerConfig.pollIntervalMinutes Examples.tracker * 60 * 1000))
      with true in Hfirst.
    change (negb false
            && (Scheduler.passNow Scenarios.pass
                - default 0 (Scheduler.lastPollByTracker Scenarios.idle
                             !! TrackerConfig.id Scenarios.secondTracker)
                <? TrackerConfig.pollIntervalMinutes Scenarios.secondTracker * 60 * 1000))
      with false in Hsecond.
    destruct Hfirst as (Hlast & Hstate & _). destruct Hsecond as (Hlast' & _).
    split; [etransitivity; [exact Hlast|reflexivity]|].
    split; [etransitivity; [exact Hstate|reflexivity]|].
    split; [exact Hlast'|exact Hflight].
Defined.

(* ===================================================================== *)
(** * The change extractor: ids and names *)
(* ===================================================================== *)

Section ChangeIds.
Import ChangeFetcher Numerals.

Lemma toInt32_range (x : Z) : - 2 ^ 31 <= toInt32 x < 2 ^ 31.
Proof.
  unfold toInt32. pose proof (Z.mod_pos_bound (x + 2 ^ 31) (2 ^ 32) ltac:(lia)). lia.
Qed.

Lemma simpleHashLoop_range (value : string) :
  - 2 ^ 31 <= simpleHashLoop value < 2 ^ 31.
Proof.
  unfold simpleHashLoop.
  assert (Hfold : forall codes hash,
            - 2 ^ 31 <= hash < 2 ^ 31 ->
            - 2 ^ 31 <= fold_left (fun hash code => toInt32 (hash * 31 + code)) codes hash
              < 2 ^ 31).
  { induction codes as [|code rest IH]; intros hash Hhash; [exact Hhash|].
    cbn [fold_left]. apply IH, toInt32_range. }
  apply Hfold. lia.
Qed.

Lemma charCode_digitChar (d : Z) :
  0 <= d < 36 ->
  charCode (digitChar d) = if d <? 10 then 48 + d else 87 + d.
Proof.
  intros Hd. unfold digitChar, charCode.
  destruct (d <? 10) eqn:Hlow.
  - apply Z.ltb_lt in Hlow. rewrite N_ascii_embedding by lia. lia.
  - apply Z.ltb_ge in Hlow. rewrite N_ascii_embedding by lia. lia.
Qed.

(** Reading the numeral from the left with [acc] read so far. *)
Lemma parse_digit (d acc : Z) (rest : list Z) :
  0 <= d < 36 ->
  fold_left (fun acc code => acc * 36 + (if code <? 58 then code - 48 else code - 87))
    (charCode (digitChar d) :: rest) acc
  = fold_left (fun acc code => acc * 36 + (if code <? 58 then code - 48 else code - 87))
      rest (acc * 36 + d).
Proof.
  intros Hd. cbn [fold_left]. rewrite charCode_digitChar by exact Hd. f_equal.
  destruct (d <? 10) eqn:Hlow.
  - apply Z.ltb_lt in Hlow. assert ((48 + d <? 58) = true) as -> by (apply Z.ltb_lt; lia). lia.
  - apply Z.ltb_ge in Hlow. assert ((87 + d <? 58) = false) as -> by (apply Z.ltb_ge; lia). lia.
Qed.

Lemma toStringRadixLoop_parse (fuel : nat) (n : Z) (acc : string) :
  0 <= n < 36 ^ Z.of_nat fuel ->
  fold_left (fun acc code => acc * 36 + (if code <? 58 then code - 48 else code - 87))
    (charCodes (toStringRadixLoop fuel 36 n acc)) 0
  = fold_left (fun acc code => acc * 36 + (if code <? 58 then code - 48 else code - 87))
      (charCodes acc) n.
Proof.
  revert n acc. induction fuel as [|fuel IH]; intros n acc Hn.
  - cbn in Hn. assert (n = 0) as -> by lia. reflexivity.
  - cbn [toStringRadixLoop]. destruct (n <? 36) eqn:Hsmall.
    + apply Z.ltb_lt in Hsmall. cbn [charCodes].
      rewrite parse_digit by lia. f_equal.
    + apply Z.ltb_ge in Hsmall.
      assert (Hdiv : 0 <= n / 36 < 36 ^ Z.of_nat fuel).
      { rewrite Nat2Z.inj_succ, Z.pow_succ_r in Hn by lia.
        split; [apply Z.div_pos; lia|apply Z.div_lt_upper_bound; lia]. }
      rewrite (IH _ _ Hdiv). cbn [charCodes].
      pose proof (Z.mod_pos_bound n 36 ltac:(lia)).
      rewrite parse_digit by lia. f_equal.
      pose proof (Z.div_mod n 36 ltac:(lia)). lia.
Qed.

Lemma toStringRadixLoop_length (fuel : nat) (k : nat) (n : Z) (acc : string) :
  (1 <= k)%nat -> 0 <= n < 36 ^ Z.of_nat k ->
  (String.length (toStringRadixLoop fuel 36 n acc) <= k + String.length acc)%nat.
Proof.
  revert k n acc. induction fuel as [|fuel IH]; intros k n acc Hk Hn; [cbn; lia|].
  cbn [toStringRadixLoop]. destruct (n <? 36) eqn:Hsmall; [cbn; lia|].
  apply Z.ltb_ge in Hsmall.
  destruct k as [|[|k]]; [lia|cbn in Hn; lia|].
  assert (Hdiv : 0 <= n / 36 < 36 ^ Z.of_nat (S k)).
  { rewrite (Nat2Z.inj_succ (S k)), Z.pow_succ_r in Hn by lia.
    split; [apply Z.div_pos; lia|apply Z.div_lt_upper_bound; lia]. }
  specialize (IH (S k) (n / 36) (String (digitChar (n mod 36)) acc) ltac:(lia) Hdiv).
  cbn [String.length] in IH. lia.
Qed.

Lemma toStringRadixLoop_alphabet (fuel : nat) (n : Z) (acc : string) :
  0 <= n ->
  Forall (fun code => 48 <= code <= 57 \/ 97 <= code <= 122) (charCodes acc) ->
  Forall (fun code => 48 <= code <= 57 \/ 97 <= code <= 122)
    (charCodes (toStringRadixLoop fuel 36 n acc)).
Proof.
  revert n acc. induction fuel as [|fuel IH]; intros n acc Hn Hacc; [exact Hacc|].
  assert (Hdigit : forall d, 0 <= d < 36 ->
            48 <= charCode (digitChar d) <= 57 \/ 97 <= charCode (digitChar d) <= 122).
  { intros d Hd. rewrite charCode_digitChar by exact Hd.
    destruct (d <? 10) eqn:Hlow; [apply Z.ltb_lt in Hlow|apply Z.ltb_ge in Hlow]; lia. }
  cbn [toStringRadixLoop]. destruct (n <? 36) eqn:Hsmall.
  - apply Z.ltb_lt in Hsmall. cbn [charCodes]. constructor; [apply Hdigit; lia|exact Hacc].
  - apply IH; [apply Z.div_pos; lia|].
    cbn [charCodes]. constructor; [|exact Hacc].
    apply Hdigit. apply Z.mod_pos_bound. lia.
Qed.

Lemma toStringRadixLoop_nonempty (fuel : nat) (n : Z) (acc : string) :
  (String.length acc <= String.length (toStringRadixLoop fuel 36 n acc))%nat.
Proof.
  revert n acc. induction fuel as [|fuel IH]; intros n acc; [cbn; lia|].
  cbn [toStringRadixLoop]. destruct (n <? 36); [cbn; lia|].
  specialize (IH (n / 36) (String (digitChar (n mod 36)) acc)). cbn [String.length] in IH. lia.
Qed.

(** X22.  A change id is the base-36 numeral of the absolute value of the
    32-bit hash of its key: it reads back as that number, it has one to
    six characters, all of them digits or lower-case letters, and two
    keys get the same id exactly when their hashes agree up to the sign. *)
Theorem simpleHash_is_base36_of_hash (value : string) :
  let hash := simpleHashLoop value in
  - 2 ^ 31 <= hash < 2 ^ 31
  /\ parseInt36 (simpleHash value) = Z.abs hash
  /\ (1 <= String.length (simpleHash value) <= 6)%nat
  /\ Forall (fun code => 48 <= code <= 57 \/ 97 <= code <= 122)
       (charCodes (simpleHash value))
  /\ forall other,
       simpleHash value = simpleHash other
       <-> Z.abs hash = Z.abs (simpleHashLoop other).
Proof.
  cbv zeta.
  assert (Hparse : forall key, parseInt36 (simpleHash key) = Z.abs (simpleHashLoop key)).
  { intros key. unfold parseInt36, simpleHash, toStringRadix.
    set (n := Z.abs (simpleHashLoop key)).
    assert (Hn : 0 <= n) by (subst n; lia).
    rewrite toStringRadixLoop_parse; [reflexivity|].
    split; [exact Hn|].
    rewrite Nat2Z.inj_succ, Z2Nat.id by apply Z.log2_nonneg.
    destruct (Z.eq_dec n 0) as [->|Hpos]; [reflexivity|].
    pose proof (Z.log2_spec n ltac:(lia)) as [_ Hupper].
    eapply Z.lt_le_trans; [exact Hupper|].
    apply Z.pow_le_mono_l. pose proof (Z.log2_nonneg n). lia. }
  pose proof (simpleHashLoop_range value) as Hrange.
  split; [exact Hrange|]. split; [apply Hparse|].
  split.
  { unfold simpleHash, toStringRadix. split.
    - pose proof (toStringRadixLoop_nonempty (Z.to_nat (Z.log2 (Z.abs (simpleHashLoop value))))
                    (Z.abs (simpleHashLoop value) / 36)
                    (String (digitChar (Z.abs (simpleHashLoop value) mod 36)) "")) as Hlong.
      cbn [toStringRadixLoop]. destruct (_ <? 36); [cbn; lia|].
      cbn [String.length] in Hlong. lia.
    - pose proof (toStringRadixLoop_length
                    (S (Z.to_nat (Z.log2 (Z.abs (simpleHashLoop value))))) 6
                    (Z.abs (simpleHashLoop value)) "" ltac:(lia)) as Hshort.
      cbn [String.length] in Hshort. rewrite Nat.add_0_r in Hshort. apply Hshort.
      change (36 ^ Z.of_nat 6) with 2176782336. change (2 ^ 31) with 2147483648 in Hrange.
      lia. }
  split.
  { unfold simpleHash, toStringRadix. apply toStringRadixLoop_alphabet; [lia|constructor]. }
  intros other. split.
  - intros Hsame. rewrite <- !Hparse, Hsame. reflexivity.
  - intros Hsame. unfold simpleHash. rewrite Hsame. reflexivity.
Qed.

End ChangeIds.

Section Names.
Import ChangeFetcher.

Lemma firstNonBlank_Some (fields : list string) (record : list (string * JsValue))
    (name : string) :
  firstNonBlank fields record = Some name ->
  trim name <> "" /\ exists field, In field fields /\ getProp field record = JsString name.
Proof.
  induction fields as [|field rest IH]; cbn [firstNonBlank]; [discriminate|].
  destruct (nonBlankString (getProp field record)) as [value|] eqn:Hvalue.
  - intros [= ->]. unfold nonBlankString in Hvalue.
    destruct (getProp field record) as [| | | |s| |] eqn:Hprop; try discriminate.
    destruct (0 <? String.length (trim s))%nat eqn:Hblank; [|discriminate].
    injection Hvalue as ->. split.
    + intros Hempty. rewrite Hempty in Hblank. discriminate.
    + exists field. split; [left; reflexivity|exact Hprop].
  - intros Hrest. destruct (IH Hrest) as (Hname & field' & Hin & Hprop).
    split; [exact Hname|]. exists field'. split; [right; exact Hin|exact Hprop].
Qed.

(** X23.  The owner and status names that the extractors read from a
    record are never blank: a name is returned only for a string, and is
    then that string trimmed and not empty, or for an object, and is then
    the value of one of its name fields, a string that is not blank; every
    other value (null, a number, a boolean, an array, the empty string)
    gives no name. *)
Theorem extracted_names_are_not_blank (value : JsValue) (name : string) :
  extractOwnerName value = Some name \/ extractStatusName value = Some name ->
  trim name <> ""
  /\ match value with
     | JsString s => name = trim s
     | JsObject record =>
         exists field,
           In field ["_refObjectName"; "DisplayName"; "Name"; "UserName"]
           /\ getProp field record = JsString name
     | _ => False
     end.
Proof.
  assert (Hstring : forall s,
            (if (0 <? String.length (trim s))%nat then Some (trim s) else None) = Some name ->
            trim name <> "" /\ name = trim s).
  { intros s. destruct (0 <? String.length (trim s))%nat eqn:Hblank; [|discriminate].
    intros [= <-]. split; [|reflexivity]. rewrite trim_idempotent.
    intros Hempty. rewrite Hempty in Hblank. discriminate. }
  unfold extractOwnerName, extractStatusName.
  destruct value as [| |b|n|s|items|record]; cbn [falsy];
    try (intros [Hsome|Hsome]; discriminate).
  - destruct b; intros [Hsome|Hsome]; discriminate.
  - destruct (n =? 0); intros [Hsome|Hsome]; discriminate.
  - destruct (s =? "")%string; [intros [Hsome|Hsome]; discriminate|].
    intros [Hsome|Hsome]; apply Hstring; exact Hsome.
  - intros [Hsome|Hsome]; apply firstNonBlank_Some in Hsome as (Hname & field & Hin & Hprop);
      (split; [exact Hname|]); exists field; (split; [|exact Hprop]);
      cbn in Hin |- *; tauto.
Qed.

End Names.

(** X23 on an owner given as a reference object whose display name is
    blank, and on a status given as a string with white space around
    it. *)
Lemma extracted_names_are_not_blank_witness :
  ChangeFetcher.extractOwnerName
    (JsObject [("DisplayName", JsString "  "); ("UserName", JsString "dana@example.com")])
  = Some "dana@example.com"
  /\ ChangeFetcher.extractStatusName (JsString " On track ") = Some "On track"
  /\ trim "On track" <> "".
Proof.
  split; [vm_compute; reflexivity|]. split; [vm_compute; reflexivity|].
  refine (proj1 (extracted_names_are_not_blank (JsString " On track ") "On track" _)).
  right. vm_compute. reflexivity.
Defined.

(* ===================================================================== *)
(** * The classifier of schedule states *)
(* ===================================================================== *)

Section Spellings.
Import Main.

Lemma append_String (c : ascii) (a b : string) : String c a +:+ b = String c (a +:+ b).
Proof. reflexivity. Qed.

Lemma append_assoc (a b c : string) : (a +:+ b) +:+ c = a +:+ (b +:+ c).
Proof.
  induction a as [|x a IH]; [reflexivity|]. rewrite !append_String, IH. reflexivity.
Qed.

Lemma toLowerCase_app (a b : string) :
  toLowerCase (a +:+ b) = toLowerCase a +:+ toLowerCase b.
Proof.
  induction a as [|c a IH]; [reflexivity|].
  change (toLowerCase (String c a +:+ b)) with (String (lowerChar c) (toLowerCase (a +:+ b))).
  rewrite IH. reflexivity.
Qed.

Lemma trimStart_blank_prefix (blank rest : string) :
  Forall (fun c => isWhiteSpace c = true) (list_ascii_of_string blank) ->
  trimStart (blank +:+ rest) = trimStart rest.
Proof.
  induction blank as [|c blank IH]; intros Hblank; [reflexivity|].
  cbn [list_ascii_of_string] in Hblank. apply Forall_cons in Hblank as [Hc Hblank].
  rewrite append_String. cbn [trimStart]. rewrite Hc. apply IH. exact Hblank.
Qed.

Lemma trimEnd_blank (blank : string) :
  Forall (fun c => isWhiteSpace c = true) (list_ascii_of_string blank) ->
  trimEnd blank = "".
Proof.
  induction blank as [|c blank IH]; intros Hblank; [reflexivity|].
  cbn [list_ascii_of_string] in Hblank. apply Forall_cons in Hblank as [Hc Hblank].
  cbn [trimEnd]. rewrite IH by exact Hblank. rewrite Hc. reflexivity.
Qed.

(** Trailing white space after a character that is none is cut off. *)
Lemma trimEnd_blank_suffix (text : string) (last : ascii) (blank : string) :
  isWhiteSpace last = false ->
  Forall (fun c => isWhiteSpace c = true) (list_ascii_of_string blank) ->
  trimEnd (text +:+ String last blank) = text +:+ String last "".
Proof.
  intros Hlast Hblank. induction text as [|c text IH].
  - change ("" +:+ String last blank) with (String last blank). cbn [trimEnd].
    rewrite trimEnd_blank by exact Hblank. rewrite Hlast. reflexivity.
  - rewrite !append_String. cbn [trimEnd]. rewrite IH. destruct text; reflexivity.
Qed.

Lemma replaceSeparators_run (run rest : string) :
  Forall (fun c => isSeparator c = true) (list_ascii_of_string run) ->
  replaceSeparators true (run +:+ rest) = replaceSeparators true rest.
Proof.
  induction run as [|c run IH]; intros Hrun; [reflexivity|].
  cbn [list_ascii_of_string] in Hrun. apply Forall_cons in Hrun as [Hc Hrun].
  rewrite append_String. cbn [replaceSeparators]. rewrite Hc. apply IH. exact Hrun.
Qed.

Lemma toLowerCase_separators (run : string) :
  Forall (fun c => isSeparator c = true) (list_ascii_of_string run) ->
  toLowerCase run = run.
Proof.
  induction run as [|c run IH]; intros Hrun; [reflexivity|].
  cbn [list_ascii_of_string] in Hrun. apply Forall_cons in Hrun as [Hc Hrun].
  cbn [toLowerCase]. rewrite IH by exact Hrun. f_equal.
  unfold isSeparator, isWhiteSpace in Hc. unfold lowerChar.
  destruct ((65 <=? charCode c) && (charCode c <=? 90)
            || (192 <=? charCode c) && (charCode c <=? 222) && negb (charCode c =? 215))
    eqn:Hupper; [|reflexivity].
  exfalso. lia.
Qed.

(** X24.  The classifier takes a schedule state for in progress when,
    white space around it set aside, it spells [in] and [progress] in
    whatever case, joined by a hyphen or by a run of one or more white
    space characters and underscores. *)
Theorem isInProgressScheduleState_spellings (before first separator second after_ : string) :
  Forall (fun c => isWhiteSpace c = true) (list_ascii_of_string before) ->
  Forall (fun c => isWhiteSpace c = true) (list_ascii_of_string after_) ->
  toLowerCase first = "in" -> toLowerCase second = "progress" ->
  separator = "-"
  \/ (separator <> ""
      /\ Forall (fun c => isSeparator c = true) (list_ascii_of_string separator)) ->
  isInProgressScheduleState (before +:+ first +:+ separator +:+ second +:+ after_) = true.
Proof.
  intros Hbefore Hafter Hfirst Hsecond Hseparator.
  destruct first as [|f1 [|f2 [|f3 first]]]; try discriminate.
  destruct second as [|s1 [|s2 [|s3 [|s4 [|s5 [|s6 [|s7 [|s8 [|s9 second]]]]]]]]];
    try discriminate.
  injection Hfirst as Hf1 Hf2.
  injection Hsecond as Hs1 Hs2 Hs3 Hs4 Hs5 Hs6 Hs7 Hs8.
  assert (Hletter : forall c lower,
            lowerChar c = lower -> isWhiteSpace lower = false -> isSeparator lower = false ->
            (97 <=? charCode lower) && (charCode lower <=? 122) = true ->
            isWhiteSpace c = false /\ isSeparator c = false).
  { intros c lower Hlower Hws Hsep Hrange. unfold lowerChar in Hlower.
    apply andb_true_iff in Hrange as [Hlow Hhigh].
    apply Z.leb_le in Hlow. apply Z.leb_le in Hhigh.
    destruct ((65 <=? charCode c) && (charCode c <=? 90)
              || (192 <=? charCode c) && (charCode c <=? 222) && negb (charCode c =? 215))
      eqn:Hupper; [|subst lower; auto].
    split.
    - destruct (isWhiteSpace c) eqn:Hwhite; [exfalso|reflexivity].
      unfold isWhiteSpace in Hwhite. lia.
    - destruct (isSeparator c) eqn:Hseparated; [exfalso|reflexivity].
      unfold isSeparator, isWhiteSpace in Hseparated. lia. }
  assert (Hf1' := Hletter f1 "i"%char Hf1 eq_refl eq_refl eq_refl).
  assert (Hf2' := Hletter f2 "n"%char Hf2 eq_refl eq_refl eq_refl).
  assert (Hs1' := Hletter s1 "p"%char Hs1 eq_refl eq_refl eq_refl).
  assert (Hs8' := Hletter s8 "s"%char Hs8 eq_refl eq_refl eq_refl).
  unfold isInProgressScheduleState. cbv zeta.
  set (word := String s1 (String s2 (String s3 (String s4 (String s5 (String s6
                 (String s7 EmptyString))))))).
  assert (Htrim : trim (before +:+ String f1 (String f2 "") +:+ separator
                          +:+ String s1 (String s2 (String s3 (String s4 (String s5
                                (String s6 (String s7 (String s8 "")))))))
                          +:+ after_)
                  = (String f1 (String f2 "") +:+ separator +:+ word) +:+ String s8 "").
  { unfold trim. rewrite trimStart_blank_prefix by exact Hbefore.
    rewrite append_String. cbn [trimStart]. rewrite (proj1 Hf1').
    rewrite <- (trimEnd_blank_suffix (String f1 (String f2 "") +:+ separator +:+ word)
                  s8 after_ (proj1 Hs8') Hafter).
    f_equal. rewrite !append_assoc. reflexivity. }
  rewrite Htrim. rewrite !toLowerCase_app.
  subst word. cbn [toLowerCase].
  rewrite Hf1, Hf2, Hs1, Hs2, Hs3, Hs4, Hs5, Hs6, Hs7, Hs8.
  destruct Hseparator as [->|[Hsome Hrun]]; [reflexivity|].
  rewrite toLowerCase_separators by exact Hrun.
  destruct separator as [|c run]; [contradiction|].
  cbn [list_ascii_of_string] in Hrun. apply Forall_cons in Hrun as [Hc Hrun].
  rewrite !append_assoc, !append_String.
  change ("" +:+ "s") with "s".
  change ("" +:+ String c (run +:+ "progress")) with (String c (run +:+ "progress")).
  cbn [replaceSeparators].
  change (isSeparator "i") with false. change (isSeparator "n") with false.
  cbv iota. rewrite Hc. rewrite replaceSeparators_run by exact Hrun. reflexivity.
Qed.

End Spellings.

(** X24 on three spellings. *)
Lemma isInProgressScheduleState_spellings_witness :
  Main.isInProgressScheduleState " In-Progress" = true
  /\ Main.isInProgressScheduleState "IN_PROGRESS" = true
  /\ Main.isInProgressScheduleState ("in " +:+ String "009" "_progress  ") = true.
Proof.
  split; [reflexivity|]. split; [reflexivity|].
  apply (isInProgressScheduleState_spellings "" "in" (" " +:+ String "009" "_") "progress" "  ").
  - constructor.
  - repeat constructor.
  - reflexivity.
  - reflexivity.
  - right. split; [discriminate|]. repeat constructor.
Defined.

(* ===================================================================== *)
(** * Escaping and the active tracker *)
(* ===================================================================== *)

Section Escaping.
Import Html.

(** Replacing [c] removes it when the replacement does not hold it. *)
Lemma replaceAll_removes (c : ascii) (replacement s : string) :
  containsChar c replacement = false ->
  containsChar c (replaceAll c replacement s) = false.
Proof.
  intros Hfree. induction s as [|x rest IH]; [reflexivity|].
  cbn [replaceAll]. destruct (Ascii.eqb x c) eqn:Hx.
  - rewrite containsChar_app, Hfree, IH. reflexivity.
  - cbn [containsChar]. rewrite Hx, IH. reflexivity.
Qed.

(** Replacing another character does not bring [c] in. *)
Lemma replaceAll_keeps_out (c d : ascii) (replacement s : string) :
  containsChar c replacement = false -> containsChar c s = false ->
  containsChar c (replaceAll d replacement s) = false.
Proof.
  intros Hfree. induction s as [|x rest IH]; intros Hs; [reflexivity|].
  cbn [containsChar] in Hs. apply orb_false_iff in Hs as [Hx Hrest].
  cbn [replaceAll]. destruct (Ascii.eqb x d).
  - rewrite containsChar_app, Hfree, (IH Hrest). reflexivity.
  - cbn [containsChar]. rewrite Hx, (IH Hrest). reflexivity.
Qed.

Lemma replaceAll_absent (c : ascii) (replacement s : string) :
  containsChar c s = false -> replaceAll c replacement s = s.
Proof.
  induction s as [|x rest IH]; intros Hs; [reflexivity|].
  cbn [containsChar] in Hs. apply orb_false_iff in Hs as [Hx Hrest].
  cbn [replaceAll]. rewrite Hx, (IH Hrest). reflexivity.
Qed.

(** X25.  Text escaped for HTML holds no less-than sign, no greater-than
    sign, no double quote and no single quote, whatever the input; and a
    text that holds none of these and no ampersand is left as it is. *)
Theorem escapeHtml_leaves_no_markup (value : string) :
  containsChar "<" (escapeHtml value) = false
  /\ containsChar ">" (escapeHtml value) = false
  /\ containsChar (ascii_of_N 34) (escapeHtml value) = false
  /\ containsChar "'" (escapeHtml value) = false
  /\ (containsChar "&" value = false -> containsChar "<" value = false ->
      containsChar ">" value = false -> containsChar (ascii_of_N 34) value = false ->
      containsChar "'" value = false -> escapeHtml value = value).
Proof.
  unfold escapeHtml. split; [|split; [|split; [|split]]].
  - do 3 (apply replaceAll_keeps_out; [reflexivity|]).
    apply replaceAll_removes. reflexivity.
  - do 2 (apply replaceAll_keeps_out; [reflexivity|]).
    apply replaceAll_removes. reflexivity.
  - apply replaceAll_keeps_out; [reflexivity|].
    apply replaceAll_removes. reflexivity.
  - apply replaceAll_removes. reflexivity.
  - intros Hamp Hlt Hgt Hquote Hapostrophe.
    rewrite (replaceAll_absent "&") by exact Hamp.
    rewrite (replaceAll_absent "<") by exact Hlt.
    rewrite (replaceAll_absent ">") by exact Hgt.
    rewrite (replaceAll_absent (ascii_of_N 34)) by exact Hquote.
    apply replaceAll_absent. exact Hapostrophe.
Qed.

End Escaping.

Example escapeHtml_example :
  Html.escapeHtml "<b>R&D's</b>" = "&lt;b&gt;R&amp;D&#039;s&lt;/b&gt;".
Proof. vm_compute. reflexivity. Qed.

Section Active.
Import ActiveTracker.

(** X26.  Over a list of trackers that is not empty and whose ids are not
    empty, the active tracker is always found after [ensureActiveTracker]:
    it is a tracker of the list, the one that was active if that one is
    still in the list, the first of the list otherwise.  Over the empty
    list no tracker is active. *)
Theorem ensureActiveTracker_finds_a_tracker (trackers : list TrackerConfig.t)
    (activeTrackerId : option string) :
  Forall (fun tracker => TrackerConfig.id tracker <> "") trackers ->
  let ensured := ensureActiveTracker trackers activeTrackerId in
  match trackers with
  | [] => ensured = None /\ getActiveTracker trackers ensured = None
  | first :: _ =>
      exists active,
        getActiveTracker trackers ensured = Some active
        /\ In active trackers
        /\ ensured = Some (TrackerConfig.id active)
        /\ match getActiveTracker trackers activeTrackerId with
           | Some previous => active = previous
           | None => TrackerConfig.id active = TrackerConfig.id first
           end
  end.
Proof.
  intros Hids. cbv zeta. destruct trackers as [|first rest]; [split; reflexivity|].
  assert (Hfound : forall activeId,
            activeId <> "" ->
            existsb (fun tracker => (TrackerConfig.id tracker =? activeId)%string)
              (first :: rest) = true ->
            exists active,
              find (fun tracker => (TrackerConfig.id tracker =? activeId)%string)
                (first :: rest) = Some active
              /\ In active (first :: rest) /\ TrackerConfig.id active = activeId).
  { intros activeId _ Hexists.
    destruct (find _ (first :: rest)) as [active|] eqn:Hfind.
    - exists active. split; [reflexivity|]. apply find_some in Hfind as [Hin Hid].
      apply String.eqb_eq in Hid. auto.
    - exfalso. apply existsb_exists in Hexists as (tracker & Hin & Hid).
      eapply find_none in Hfind; [|exact Hin]. cbv beta in Hfind. congruence. }
  assert (Hmissing : forall activeId,
            existsb (fun tracker => (TrackerConfig.id tracker =? activeId)%string)
              (first :: rest) = false ->
            find (fun tracker => (TrackerConfig.id tracker =? activeId)%string)
              (first :: rest) = None).
  { intros activeId Hnone.
    destruct (find _ (first :: rest)) as [active|] eqn:Hfind; [|reflexivity].
    apply find_some in Hfind as [Hin Hid].
    assert (existsb (fun tracker => (TrackerConfig.id tracker =? activeId)%string)
              (first :: rest) = true) by (apply existsb_exists; eauto).
    congruence. }
  assert (Hfirst : TrackerConfig.id first <> "") by (apply Forall_cons in Hids; tauto).
  assert (Hdefault : exists active,
            getActiveTracker (first :: rest) (Some (TrackerConfig.id first)) = Some active
            /\ In active (first :: rest)
            /\ Some (TrackerConfig.id first) = Some (TrackerConfig.id active)
            /\ TrackerConfig.id active = TrackerConfig.id first).
  { exists first. unfold getActiveTracker.
    assert (truthy (TrackerConfig.id first) = true) as ->
      by (unfold truthy; rewrite (proj2 (String.eqb_neq _ _) Hfirst); reflexivity).
    cbn [negb find]. rewrite String.eqb_refl. cbn. auto. }
  unfold ensureActiveTracker.
  destruct activeTrackerId as [activeId|]; cbn [default from_option id].
  - destruct (truthy activeId) eqn:Htruthy; cbn [negb orb].
    + destruct (existsb _ (first :: rest)) eqn:Hexists; cbn [negb].
      * destruct (Hfound activeId) as (active & Hfind & Hin & Hid);
          [intros ->; discriminate|exact Hexists|].
        exists active. unfold getActiveTracker. rewrite Htruthy. cbn [negb].
        rewrite Hfind, Hid. auto.
      * destruct Hdefault as (active & Hget & Hin & Hsame & Hid).
        exists active. split; [exact Hget|]. split; [exact Hin|]. split; [exact Hsame|].
        unfold getActiveTracker at 1. rewrite Htruthy. cbn [negb].
        rewrite (Hmissing activeId Hexists). exact Hid.
    + destruct Hdefault as (active & Hget & Hin & Hsame & Hid).
      exists active. split; [exact Hget|]. split; [exact Hin|]. split; [exact Hsame|].
      unfold getActiveTracker at 1. rewrite Htruthy. exact Hid.
  - destruct Hdefault as (active & Hget & Hin & Hsame & Hid).
    exists active. cbn [truthy String.eqb negb orb]. auto.
Qed.

End Active.

(** X26 on two trackers, when the tracker that was active has been
    deleted. *)
Lemma ensureActiveTracker_finds_a_tracker_witness :
  ActiveTracker.ensureActiveTracker [Examples.tracker; Scenarios.secondTracker]
    (Some "trk_0") = Some "trk_1"
  /\ ActiveTracker.getActiveTracker [Examples.tracker; Scenarios.secondTracker]
       (Some "trk_1") = Some Examples.tracker
  /\ exists active,
       ActiveTracker.getActiveTracker [Examples.tracker; Scenarios.secondTracker]
         (ActiveTracker.ensureActiveTracker [Examples.tracker; Scenarios.secondTracker]
            (Some "trk_0")) = Some active
       /\ In active [Examples.tracker; Scenarios.secondTracker].
Proof.
  split; [reflexivity|]. split; [reflexivity|].
  destruct (ensureActiveTracker_finds_a_tracker
              [Examples.tracker; Scenarios.secondTracker] (Some "trk_0"))
    as (active & Hget & Hin & _).
  { repeat constructor; discriminate. }
  exists active. split; [exact Hget|exact Hin].
Defined.
